(** * Clock system controllers of the stm32f10x and msp432p401r platforms

    A shallow embedding of the two [SystemController] classes: the register
    traffic of [Initialize], the derived clock rates answered by
    [GetClockRate], and the peripheral power gates.  Registers are 32 bit
    wide and are written through a small monad that records every bus
    access, so that the order of the writes can be stated. *)

From Stdlib Require Import ZArith NArith List Bool Lia String.
Import ListNotations.
Local Open Scope Z_scope.

(* ===================================================================== *)
(** ** Frequencies *)

(** Modelled from the spec: [units::frequency::hertz_t] comes from the units
    header, which is not among the sources.  A frequency is a whole number
    of hertz; division is integer division truncating toward zero. *)
Definition hertz_t := Z.

Definition Hz (n : Z) : hertz_t := n.
Definition kHz (n : Z) : hertz_t := n * 1000.
Definition MHz (n : Z) : hertz_t := n * 1000000.

(** [f / n] on a frequency. *)
Definition fdiv (f : hertz_t) (n : Z) : hertz_t := Z.quot f n.

(** Modelled from the spec: [units::frequency::kilohertz_t] comes from the
    same header.  A variable of that type holds a whole number of kilohertz:
    storing a [hertz_t] into it divides by 1000, truncating toward zero, and
    reading it back as a [hertz_t] multiplies by 1000.  Comparing it with a
    frequency in another unit compares the two quantities. *)
Definition kilohertz_t := Z.

Definition to_kilohertz (f : hertz_t) : kilohertz_t := Z.quot f 1000.
Definition of_kilohertz (k : kilohertz_t) : hertz_t := k * 1000.

(* ===================================================================== *)
(** ** Enumerations with a numeric value ([Value] of utility/enum.hpp) *)

Class Enum (A : Type) := Value : A -> Z.

(* ===================================================================== *)
(** ** Bit manipulation on 32-bit registers *)

Module bit.

  (** Modelled from the spec: utility/bit.hpp is not among the sources.  A
      mask names a bit-field by the position of its lowest bit and its
      width; the operations set, clear, read one bit, or extract and insert
      a whole field of a 32-bit register. *)
Record Mask := { position : Z; width : Z }.

Definition CreateMaskFromRange (low high : Z) : Mask :=
    {| position := low; width := 1 + (high - low) |}.

Definition CreateMaskFromBit (p : Z) : Mask :=
    {| position := p; width := 1 |}.

  (** Wrap-around of [uint32_t]. *)
Definition u32 (x : Z) : Z := x mod 2 ^ 32.

Definition Extract (target : Z) (m : Mask) : Z :=
    Z.land (Z.shiftr target (position m)) (Z.ones (width m)).

Definition Insert (target value : Z) (m : Mask) : Z :=
    u32 (Z.lor
           (Z.land target (Z.lnot (Z.shiftl (Z.ones (width m)) (position m))))
           (Z.shiftl (Z.land value (Z.ones (width m))) (position m))).

Definition Set_ (target : Z) (p : Z) : Z :=
    u32 (Z.lor target (Z.shiftl 1 p)).

Definition Clear (target : Z) (p : Z) : Z :=
    u32 (Z.land target (Z.lnot (Z.shiftl 1 p))).

Definition Read (target : Z) (p : Z) : bool :=
    negb (Z.land target (Z.shiftl 1 p) =? 0).

End bit.

(** The overloads of [Set_], [Clear] and [Read] on a mask use its position. *)
Coercion bit.position : bit.Mask >-> Z.

(** The layout of bit-fields in a 32-bit register. *)
Module bit_layout.
Import bit.

(** A field that lies within the 32 bits of a register. *)
Definition field (m : Mask) : Prop :=
  0 <= position m /\ 0 <= width m /\ position m + width m <= 32.

(** Two fields that do not overlap. *)
Definition apart (m m' : Mask) : Prop :=
  position m' + width m' <= position m
  \/ position m + width m <= position m'.

End bit_layout.

(* ===================================================================== *)
(** ** The register bus *)

Module Machine.

Section Bus.
    (** Names of the memory-mapped registers of one platform. *)
Context {R : Type}.
Variable R_eqb : R -> R -> bool.

    (** One access of the bus, with the value read or written. *)
Inductive Event : Type :=
    | Load (r : R) (v : Z)
    | Store (r : R) (v : Z).

    (** The register file and the accesses made so far, oldest first. *)
Record Bus : Type := { mem : R -> Z; log : list Event }.

    (** How a piece of driver code ends: it returns, it stops in a fatal
        assertion, it is still spinning in a busy-wait when the polls
        allotted to it are used up, or it has left the defined behaviour of
        the language (an array read out of bounds). *)
Inductive Outcome (A : Type) : Type :=
    | Ok (a : A) (b : Bus)
    | Fatal (b : Bus)
    | Spin (b : Bus)
    | Undefined.

Definition M (A : Type) : Type := Bus -> Outcome A.

Definition ret {A} (a : A) : M A := fun b => Ok A a b.

Definition bind {A B} (m : M A) (k : A -> M B) : M B :=
      fun b =>
        match m b with
        | Ok _ a b' => k a b'
        | Fatal _ b' => Fatal B b'
        | Spin _ b' => Spin B b'
        | Undefined _ => Undefined B
        end.

Definition fatal {A} : M A := fun b => Fatal A b.

Definition undefined {A} : M A := fun _ => Undefined A.

    (** A volatile read. *)
Definition load (r : R) : M Z :=
      fun b =>
        Ok Z (mem b r) {| mem := mem b; log := log b ++ [Load r (mem b r)] |}.

    (** A volatile write. *)
Definition store (r : R) (v : Z) : M unit :=
      fun b =>
        Ok unit tt
           {| mem := fun r' => if R_eqb r r' then v else mem b r';
              log := log b ++ [Store r v] |}.

    (** [reg = f(reg);] *)
Definition modify (r : R) (f : Z -> Z) : M unit :=
      bind (load r) (fun v => store r (f v)).

    (** What the hardware does to the register file between two polls of a
        busy-wait. *)
Variable tick : (R -> Z) -> (R -> Z).

    (** [while (!ready(reg)) { continue; }], given [fuel] polls. *)
Fixpoint poll (fuel : nat) (r : R) (ready : Z -> bool) : M unit :=
      fun b =>
        match fuel with
        | O => Spin unit b
        | S n =>
            let v := mem b r in
            let l := log b ++ [Load r v] in
            if ready v then Ok unit tt {| mem := mem b; log := l |}
            else poll n r ready {| mem := tick (mem b); log := l |}
        end.

    (** The writes of a log, in order. *)
Definition stores (l : list Event) : list (R * Z) :=
      flat_map (fun e => match e with
                         | Load _ _ => []
                         | Store r v => [(r, v)]
                         end) l.

(** The register file a run ends with ([d] where there is none). *)
Definition bus_of {A} (o : Outcome A) (d : Bus) : Bus :=
  match o with
  | Ok _ _ b | Fatal _ b | Spin _ b => b
  | Undefined _ => d
  end.

(** Every run of [m] that returns satisfies [P] on the value returned. *)
Definition returns {A} (m : M A) (P : A -> Prop) : Prop :=
  forall b a b', m b = Ok A a b' -> P a.

(** [m] returns from every register file. *)
Definition completes {A} (m : M A) : Prop :=
  forall b, exists a b', m b = Ok A a b'.

(** [m] ends in a fatal assertion from every register file. *)
Definition aborts {A} (m : M A) : Prop :=
  forall b, exists b', m b = Fatal A b'.

(** [m] neither spins nor leaves the defined behaviour. *)
Definition returns_or_aborts {A} (m : M A) : Prop :=
  forall b, (exists a b', m b = Ok A a b') \/ (exists b', m b = Fatal A b').

(** The writes [m] makes, however it ends, all go to registers in [S]. *)
Definition writes_within {A} (S : R -> bool) (m : M A) : Prop :=
  forall b,
    exists w,
      stores (log (bus_of (m b) b)) = stores (log b) ++ w
      /\ Forall (fun e => S (fst e) = true) w.

(** A run of [m] that returns leaves register [r] as it was. *)
Definition preserves {A} (r : R) (m : M A) : Prop :=
  forall b a b', m b = Ok A a b' -> mem b' r = mem b r.

(** A run of [m] that returns has written the registers [l], in that order,
    and nothing else. *)
Definition writes_to {A} (l : list R) (m : M A) : Prop :=
  forall b a b',
    m b = Ok A a b' ->
    map fst (stores (log b')) = map fst (stores (log b)) ++ l.

End Bus.

Arguments Ok {R A} a b.
Arguments Fatal {R A} b.
Arguments Spin {R A} b.
Arguments Undefined {R A}.
Arguments M R A : clear implicits.
Arguments Bus R : clear implicits.
Arguments Event R : clear implicits.
Arguments bus_of {R A} o d.
Arguments writes_within {R A} S m.
Arguments preserves {R A} r m.
Arguments writes_to {R A} l m.
Arguments returns {R A} m P.
Arguments completes {R A} m.
Arguments aborts {R A} m.
Arguments returns_or_aborts {R A} m.

  (** [SJ2_ASSERT_FATAL(condition, ...)].
      Modelled from the spec: the macro is defined in utility/log.hpp, which
      is not among the sources; a failed assertion halts at once. *)
Definition assert_fatal {R} (condition : bool) : M R unit :=
    if condition then ret tt else fatal.

End Machine.

Declare Scope machine_scope.
Delimit Scope machine_scope with machine.
Notation "x <- m ;; k" := (Machine.bind m (fun x => k))
  (at level 61, m at next level, right associativity) : machine_scope.
Notation "m ;; k" := (Machine.bind m (fun _ => k))
  (at level 61, right associativity) : machine_scope.

(* ===================================================================== *)
(** ** Peripheral identities ([PeripheralID] of the system controller
       interface) *)

Record PeripheralID := Define { device_id : N }.

(* ===================================================================== *)
(** ** stm32f10x *)

Module stm32f10x.
Local Open Scope machine_scope.

  (** Number of bits between each enable register. *)
Definition kBits : N := 32.

Module Peripherals.
Local Open Scope N_scope.
Definition kAHB : N := kBits * 0.
Definition kDma1 := Define (kAHB + 0).
Definition kDma2 := Define (kAHB + 1).
Definition kSram := Define (kAHB + 2).
Definition kFlitf := Define (kAHB + 4).
Definition kCrc := Define (kAHB + 6).
Definition kFsmc := Define (kAHB + 8).
Definition kSdio := Define (kAHB + 10).

Definition kAPB1 : N := kBits * 1.
Definition kTimer2 := Define (kAPB1 + 0).
Definition kTimer3 := Define (kAPB1 + 1).
Definition kTimer4 := Define (kAPB1 + 2).
Definition kTimer5 := Define (kAPB1 + 3).
Definition kTimer6 := Define (kAPB1 + 4).
Definition kTimer7 := Define (kAPB1 + 5).
Definition kTimer12 := Define (kAPB1 + 6).
Definition kTimer13 := Define (kAPB1 + 7).
Definition kTimer14 := Define (kAPB1 + 8).
Definition kWindowWatchdog := Define (kAPB1 + 11).
Definition kSpi2 := Define (kAPB1 + 14).
Definition kSpi3 := Define (kAPB1 + 15).
Definition kUsart2 := Define (kAPB1 + 17).
Definition kUsart3 := Define (kAPB1 + 18).
Definition kUart4 := Define (kAPB1 + 19).
Definition kUart5 := Define (kAPB1 + 20).
Definition kI2c1 := Define (kAPB1 + 21).
Definition kI2c2 := Define (kAPB1 + 22).
Definition kUsb := Define (kAPB1 + 23).
Definition kCan1 := Define (kAPB1 + 25).
Definition kBackupClock := Define (kAPB1 + 27).
Definition kPower := Define (kAPB1 + 28).
Definition kDac := Define (kAPB1 + 29).

Definition kAPB2 : N := kBits * 2.
Definition kAFIO := Define (kAPB2 + 0).
Definition kGpioA := Define (kAPB2 + 2).
Definition kGpioB := Define (kAPB2 + 3).
Definition kGpioC := Define (kAPB2 + 4).
Definition kGpioD := Define (kAPB2 + 5).
Definition kGpioE := Define (kAPB2 + 6).
Definition kGpioF := Define (kAPB2 + 7).
Definition kGpioG := Define (kAPB2 + 8).
Definition kAdc1 := Define (kAPB2 + 9).
Definition kAdc2 := Define (kAPB2 + 10).
Definition kTimer1 := Define (kAPB2 + 11).
Definition kSpi1 := Define (kAPB2 + 12).
Definition kTimer8 := Define (kAPB2 + 13).
Definition kUsart1 := Define (kAPB2 + 14).
Definition kAdc3 := Define (kAPB2 + 15).
Definition kTimer9 := Define (kAPB2 + 19).
Definition kTimer10 := Define (kAPB2 + 20).
Definition kTimer11 := Define (kAPB2 + 21).

    (** Systems outside of any bus. *)
Definition kBeyond : N := kBits * 3.
Definition kCpu := Define (kBeyond + 0).
Definition kSystemTimer := Define (kBeyond + 1).
Definition kI2s := Define (kBeyond + 2).

    (** Every identity the family defines, in the order of declaration. *)
Definition all : list PeripheralID :=
      [ kDma1; kDma2; kSram; kFlitf; kCrc; kFsmc; kSdio;
        kTimer2; kTimer3; kTimer4; kTimer5; kTimer6; kTimer7; kTimer12;
        kTimer13; kTimer14; kWindowWatchdog; kSpi2; kSpi3; kUsart2; kUsart3;
        kUart4; kUart5; kI2c1; kI2c2; kUsb; kCan1; kBackupClock; kPower; kDac;
        kAFIO; kGpioA; kGpioB; kGpioC; kGpioD; kGpioE; kGpioF; kGpioG; kAdc1;
        kAdc2; kTimer1; kSpi1; kTimer8; kUsart1; kAdc3; kTimer9; kTimer10;
        kTimer11;
        kCpu; kSystemTimer; kI2s ].
End Peripherals.

  (** The registers of [RCC] and [FLASH] the controller touches. *)
Inductive Reg := CR | CFGR | BDCR | AHBENR | APB1ENR | APB2ENR | ACR.

Definition Reg_eqb (a b : Reg) : bool :=
    match a, b with
    | CR, CR | CFGR, CFGR | BDCR, BDCR | AHBENR, AHBENR
    | APB1ENR, APB1ENR | APB2ENR, APB2ENR | ACR, ACR => true
    | _, _ => false
    end.

  (** List of all of the enable registers in the order corresponding to
      their constants in the Peripherals namespace. *)
Definition enable : list Reg := [AHBENR; APB1ENR; APB2ENR].

Inductive APBDivider :=
  | APB_kDivideBy1 | APB_kDivideBy2 | APB_kDivideBy4 | APB_kDivideBy8
  | APB_kDivideBy16.

#[export] Instance APBDivider_Value : Enum APBDivider := fun d =>
    match d with
    | APB_kDivideBy1 => 0
    | APB_kDivideBy2 => 4
    | APB_kDivideBy4 => 5
    | APB_kDivideBy8 => 6
    | APB_kDivideBy16 => 7
    end.

Inductive AHBDivider :=
  | AHB_kDivideBy1 | AHB_kDivideBy2 | AHB_kDivideBy4 | AHB_kDivideBy8
  | AHB_kDivideBy16 | AHB_kDivideBy64 | AHB_kDivideBy128 | AHB_kDivideBy256
  | AHB_kDivideBy512.

#[export] Instance AHBDivider_Value : Enum AHBDivider := fun d =>
    match d with
    | AHB_kDivideBy1 => 0
    | AHB_kDivideBy2 => 8
    | AHB_kDivideBy4 => 9
    | AHB_kDivideBy8 => 10
    | AHB_kDivideBy16 => 11
    | AHB_kDivideBy64 => 12
    | AHB_kDivideBy128 => 13
    | AHB_kDivideBy256 => 14
    | AHB_kDivideBy512 => 15
    end.

Inductive AdcDivider :=
  | Adc_kDivideBy2 | Adc_kDivideBy4 | Adc_kDivideBy6 | Adc_kDivideBy8.

#[export] Instance AdcDivider_Value : Enum AdcDivider := fun d =>
    match d with
    | Adc_kDivideBy2 => 0
    | Adc_kDivideBy4 => 1
    | Adc_kDivideBy6 => 2
    | Adc_kDivideBy8 => 3
    end.

Inductive SystemClockSelect :=
  | Sys_kHighSpeedInternal | Sys_kHighSpeedExternal | Sys_kPll.

#[export] Instance SystemClockSelect_Value : Enum SystemClockSelect :=
    fun s =>
      match s with
      | Sys_kHighSpeedInternal => 0
      | Sys_kHighSpeedExternal => 1
      | Sys_kPll => 2
      end.

  (** Bit masks for the CFGR register. *)
Module ClockConfigurationRegisters.
Definition kMco := bit.CreateMaskFromRange 24 26.
Definition kUsbPrescalar := bit.CreateMaskFromBit 22.
Definition kPllMul := bit.CreateMaskFromRange 18 21.
Definition kHsePreDivider := bit.CreateMaskFromBit 17.
Definition kPllSource := bit.CreateMaskFromBit 16.
Definition kAdcDivider := bit.CreateMaskFromRange 14 15.
Definition kAPB2Divider := bit.CreateMaskFromRange 11 13.
Definition kAPB1Divider := bit.CreateMaskFromRange 8 10.
Definition kAHBDivider := bit.CreateMaskFromRange 4 7.
Definition kSystemClockStatus := bit.CreateMaskFromRange 2 3.
Definition kSystemClockSelect := bit.CreateMaskFromRange 0 1.
End ClockConfigurationRegisters.

  (** Bit masks for the CR register. *)
Module ClockControlRegisters.
Definition kPllReady := bit.CreateMaskFromBit 25.
Definition kPllEnable := bit.CreateMaskFromBit 24.
Definition kExternalOscReady := bit.CreateMaskFromBit 17.
Definition kExternalOscEnable := bit.CreateMaskFromBit 16.
End ClockControlRegisters.

  (** PLL frequency multiplication options. *)
Inductive PllMultiply :=
  | kMultiplyBy2 | kMultiplyBy3 | kMultiplyBy4 | kMultiplyBy5 | kMultiplyBy6
  | kMultiplyBy7 | kMultiplyBy8 | kMultiplyBy9 | kMultiplyBy10
  | kMultiplyBy11 | kMultiplyBy12 | kMultiplyBy13 | kMultiplyBy14
  | kMultiplyBy15 | kMultiplyBy16.

#[export] Instance PllMultiply_Value : Enum PllMultiply := fun m =>
    match m with
    | kMultiplyBy2 => 0
    | kMultiplyBy3 => 1
    | kMultiplyBy4 => 2
    | kMultiplyBy5 => 3
    | kMultiplyBy6 => 4
    | kMultiplyBy7 => 5
    | kMultiplyBy8 => 6
    | kMultiplyBy9 => 7
    | kMultiplyBy10 => 8
    | kMultiplyBy11 => 9
    | kMultiplyBy12 => 10
    | kMultiplyBy13 => 11
    | kMultiplyBy14 => 12
    | kMultiplyBy15 => 13
    | kMultiplyBy16 => 14
    end.

  (** Bit masks for the BDCR register. *)
Module RtcRegisters.
Definition kBackupDomainReset := bit.CreateMaskFromBit 16.
Definition kRtcEnable := bit.CreateMaskFromBit 15.
Definition kRtcSourceSelect := bit.CreateMaskFromRange 8 9.
Definition kLowSpeedOscReady := bit.CreateMaskFromBit 1.
Definition kLowSpeedOscEnable := bit.CreateMaskFromBit 0.
End RtcRegisters.

Inductive RtcSource :=
  | kNoClock | Rtc_kLowSpeedInternal | Rtc_kLowSpeedExternal
  | kHighSpeedExternalDividedBy128.

#[export] Instance RtcSource_Value : Enum RtcSource := fun s =>
    match s with
    | kNoClock => 0
    | Rtc_kLowSpeedInternal => 1
    | Rtc_kLowSpeedExternal => 2
    | kHighSpeedExternalDividedBy128 => 3
    end.

Inductive PllSource :=
  | Pll_kHighSpeedInternal | Pll_kHighSpeedExternal
  | Pll_kHighSpeedExternalDividedBy2.

#[export] Instance PllSource_Value : Enum PllSource := fun s =>
    match s with
    | Pll_kHighSpeedInternal => 0
    | Pll_kHighSpeedExternal => 1
    | Pll_kHighSpeedExternalDividedBy2 => 3
    end.

Inductive UsbDivider := Usb_kDivideBy1 | kDivideBy1Point5.

#[export] Instance UsbDivider_Value : Enum UsbDivider := fun d =>
    match d with
    | Usb_kDivideBy1 => 1
    | kDivideBy1Point5 => 0
    end.

  (** RM0008 page 126 describes the clock tree for the stm32f10x.  The
      nested structures of the source are flattened, a field keeping the
      path that leads to it. *)
Record ClockConfiguration := {
    high_speed_external : hertz_t;
    low_speed_external : hertz_t;
    pll_enable : bool;
    pll_source : PllSource;
    pll_multiply : PllMultiply;
    pll_usb_divider : UsbDivider;
    system_clock : SystemClockSelect;
    rtc_enable : bool;
    rtc_source : RtcSource;
    ahb_divider : AHBDivider;
    ahb_apb1_divider : APBDivider;
    ahb_apb2_divider : APBDivider;
    ahb_apb2_adc_divider : AdcDivider
  }.

  (** The default member initialisers of [ClockConfiguration]. *)
Definition default_configuration : ClockConfiguration := {|
    high_speed_external := MHz 0;
    low_speed_external := MHz 0;
    pll_enable := false;
    pll_source := Pll_kHighSpeedInternal;
    pll_multiply := kMultiplyBy2;
    pll_usb_divider := kDivideBy1Point5;
    system_clock := Sys_kHighSpeedInternal;
    rtc_enable := false;
    rtc_source := Rtc_kLowSpeedInternal;
    ahb_divider := AHB_kDivideBy1;
    ahb_apb1_divider := APB_kDivideBy1;
    ahb_apb2_divider := APB_kDivideBy1;
    ahb_apb2_adc_divider := Adc_kDivideBy2
  |}.

Definition kLowSpeedInternal : hertz_t := kHz 20.
Definition kHighSpeedInternal : hertz_t := MHz 8.
Definition kFlashClock : hertz_t := kHighSpeedInternal.
Definition kWatchdogClockRate : hertz_t := kLowSpeedInternal.

  (** The data members of the controller besides the reference to the
      configuration. *)
Record SystemController := {
    rtc_clock_rate_ : hertz_t;
    usb_clock_rate_ : hertz_t;
    pll_clock_rate_ : hertz_t;
    ahb_clock_rate_ : hertz_t;
    apb1_clock_rate_ : hertz_t;
    apb2_clock_rate_ : hertz_t;
    timer_apb1_clock_rate_ : hertz_t;
    timer_apb2_clock_rate_ : hertz_t;
    adc_clock_rate_ : hertz_t
  }.

  (** A controller as its constructor leaves it: every rate is [0_Hz]. *)
Definition constructed : SystemController := {|
    rtc_clock_rate_ := Hz 0;
    usb_clock_rate_ := Hz 0;
    pll_clock_rate_ := Hz 0;
    ahb_clock_rate_ := Hz 0;
    apb1_clock_rate_ := Hz 0;
    apb2_clock_rate_ := Hz 0;
    timer_apb1_clock_rate_ := Hz 0;
    timer_apb2_clock_rate_ := Hz 0;
    adc_clock_rate_ := Hz 0
  |}.

Definition M := Machine.M Reg.
Definition ret {A} (a : A) : M A := Machine.ret a.
Definition undefined {A} : M A := Machine.undefined.
Definition load (r : Reg) : M Z := Machine.load r.
Definition modify (r : Reg) (f : Z -> Z) : M unit :=
    Machine.modify Reg_eqb r f.

Section Sequencer.
Import ClockConfigurationRegisters ClockControlRegisters RtcRegisters.

    (** The reaction of the clock hardware between two polls, and the polls
        granted to each busy-wait. *)
Variable tick : (Reg -> Z) -> (Reg -> Z).
Variable fuel : nat.

Definition poll (r : Reg) (ready : Z -> bool) : M unit :=
      Machine.poll tick fuel r ready.

    (** Clock tree 8. page 86 *)
Definition Initialize (config_ : ClockConfiguration)
        (this : SystemController) : M SystemController :=
      (* Step 1.1 Set SystemClock to HSI *)
      modify CFGR (fun v =>
        bit.Insert v (Value Sys_kHighSpeedInternal) kSystemClockSelect) ;;
      (* Step 1.4 Reset RTC clock registers *)
      modify BDCR (fun v => bit.Set_ v kBackupDomainReset) ;;
      (* Manually clear the RTC reset bit *)
      modify BDCR (fun v => bit.Clear v kBackupDomainReset) ;;
      (* Step 2.1 Disable PLLs *)
      modify CR (fun v => bit.Clear v kPllEnable) ;;
      (* Step 2.1 Disable External Oscillators *)
      modify CR (fun v => bit.Clear v kExternalOscEnable) ;;
      (* Step 3.1 Enable High speed external Oscillator *)
      (if negb (high_speed_external config_ =? MHz 0)
       then modify CR (fun v => bit.Set_ v kExternalOscEnable) ;;
            poll CR (fun v => bit.Read v kExternalOscReady)
       else ret tt) ;;
      (* Step 3.2 Enable Low speed external Oscillator *)
      (if negb (low_speed_external config_ =? MHz 0)
       then modify BDCR (fun v => bit.Insert v 1 kLowSpeedOscEnable) ;;
            poll BDCR (fun v => bit.Read v kLowSpeedOscReady)
       else ret tt) ;;
      (* Step 4. Set oscillator source for PLLs *)
      (match pll_source config_ with
       | Pll_kHighSpeedExternalDividedBy2 =>
           modify CFGR (fun v => bit.Set_ v kHsePreDivider)
       | _ => modify CFGR (fun v => bit.Clear v kHsePreDivider)
       end) ;;
      modify CFGR (fun v =>
        bit.Insert v (Value (pll_source config_)) kPllSource) ;;
      (* Step 5. Setup PLLs and enable them where necessary *)
      pll_clock_rate_ <-
        (if pll_enable config_
         then
           modify CFGR (fun v =>
             bit.Insert v (Value (pll_multiply config_)) kPllMul) ;;
           modify CR (fun v => bit.Set_ v kPllEnable) ;;
           poll CR (fun v => bit.Read v kPllReady) ;;
           let pll_clock_rate_ :=
             match pll_source config_ with
             | Pll_kHighSpeedInternal => fdiv kHighSpeedInternal 2
             | Pll_kHighSpeedExternal => high_speed_external config_
             | Pll_kHighSpeedExternalDividedBy2 =>
                 fdiv (high_speed_external config_) 2
             end in
           (* Multiply the PLL clock up to the correct rate. *)
           ret (pll_clock_rate_ * (Value (pll_multiply config_) + 2))
         else ret (pll_clock_rate_ this)) ;;
      (* Step 6.1 Set USB divider *)
      modify CFGR (fun v =>
        bit.Insert v (Value (pll_usb_divider config_)) kUsbPrescalar) ;;
      (* Step 6.2 Set AHB divider *)
      modify CFGR (fun v =>
        bit.Insert v (Value (ahb_divider config_)) kAHBDivider) ;;
      (* Step 6.3 Set APB1 divider *)
      modify CFGR (fun v =>
        bit.Insert v (Value (ahb_apb1_divider config_)) kAPB1Divider) ;;
      (* Step 6.4 Set APB2 divider *)
      modify CFGR (fun v =>
        bit.Insert v (Value (ahb_apb2_divider config_)) kAPB2Divider) ;;
      (* Step 6.5 Set ADC divider *)
      modify CFGR (fun v =>
        bit.Insert v (Value (ahb_apb2_adc_divider config_)) kAdcDivider) ;;
      (* Step 7. Set System Clock and RTC Clock *)
      let target_clock_source := Value (system_clock config_) in
      (* Step 7.1 Set the Flash wait states *)
      (match system_clock config_ with
       | Sys_kPll =>
           if pll_clock_rate_ <=? MHz 24
           then modify ACR (fun v =>
                  bit.Insert v 0 (bit.CreateMaskFromRange 0 2))
           else if (MHz 24 <=? pll_clock_rate_)
                   && (pll_clock_rate_ <=? MHz 48)
           then modify ACR (fun v =>
                  bit.Insert v 1 (bit.CreateMaskFromRange 0 2))
           else modify ACR (fun v =>
                  bit.Insert v 2 (bit.CreateMaskFromRange 0 2))
       | _ => ret tt
       end) ;;
      (* Step 7.2 Set system clock source *)
      modify CFGR (fun v =>
        bit.Insert v (Value (system_clock config_)) kSystemClockSelect) ;;
      poll CFGR (fun v =>
        bit.Extract v kSystemClockStatus =? target_clock_source) ;;
      let system_clock :=
        match system_clock config_ with
        | Sys_kHighSpeedInternal => kHighSpeedInternal
        | Sys_kHighSpeedExternal => high_speed_external config_
        | Sys_kPll => pll_clock_rate_
        end in
      (* Step 7.3 Set the RTC oscillator source *)
      modify BDCR (fun v =>
        bit.Insert v (Value (rtc_source config_)) kRtcSourceSelect) ;;
      (* Step 7.4 Enable/Disable the RTC *)
      modify BDCR (fun v =>
        bit.Insert v (if rtc_enable config_ then 1 else 0) kRtcEnable) ;;
      (* Step 8. Define the clock rates for the system *)
      let ahb_clock_rate_ :=
        match ahb_divider config_ with
        | AHB_kDivideBy1 => fdiv system_clock 1
        | AHB_kDivideBy2 => fdiv system_clock 2
        | AHB_kDivideBy4 => fdiv system_clock 4
        | AHB_kDivideBy8 => fdiv system_clock 8
        | AHB_kDivideBy16 => fdiv system_clock 16
        | AHB_kDivideBy64 => fdiv system_clock 64
        | AHB_kDivideBy128 => fdiv system_clock 128
        | AHB_kDivideBy256 => fdiv system_clock 256
        | AHB_kDivideBy512 => fdiv system_clock 512
        end in
      let apb1_clock_rate_ :=
        match ahb_apb1_divider config_ with
        | APB_kDivideBy1 => fdiv ahb_clock_rate_ 1
        | APB_kDivideBy2 => fdiv ahb_clock_rate_ 2
        | APB_kDivideBy4 => fdiv ahb_clock_rate_ 4
        | APB_kDivideBy8 => fdiv ahb_clock_rate_ 8
        | APB_kDivideBy16 => fdiv ahb_clock_rate_ 16
        end in
      let apb2_clock_rate_ :=
        match ahb_apb2_divider config_ with
        | APB_kDivideBy1 => fdiv ahb_clock_rate_ 1
        | APB_kDivideBy2 => fdiv ahb_clock_rate_ 2
        | APB_kDivideBy4 => fdiv ahb_clock_rate_ 4
        | APB_kDivideBy8 => fdiv ahb_clock_rate_ 8
        | APB_kDivideBy16 => fdiv ahb_clock_rate_ 16
        end in
      let rtc_clock_rate_ :=
        match rtc_source config_ with
        | kNoClock => Hz 0
        | Rtc_kLowSpeedInternal => kLowSpeedInternal
        | Rtc_kLowSpeedExternal => low_speed_external config_
        | kHighSpeedExternalDividedBy128 =>
            fdiv (high_speed_external config_) 128
        end in
      let usb_clock_rate_ :=
        match pll_usb_divider config_ with
        | Usb_kDivideBy1 => pll_clock_rate_
        | kDivideBy1Point5 => fdiv (pll_clock_rate_ * 2) 3
        end in
      let timer_apb1_clock_rate_ :=
        match ahb_apb1_divider config_ with
        | APB_kDivideBy1 => apb1_clock_rate_
        | _ => apb1_clock_rate_ * 2
        end in
      let timer_apb2_clock_rate_ :=
        match ahb_apb2_divider config_ with
        | APB_kDivideBy1 => apb2_clock_rate_
        | _ => apb2_clock_rate_ * 2
        end in
      let adc_clock_rate_ :=
        match ahb_apb2_adc_divider config_ with
        | Adc_kDivideBy2 => fdiv apb2_clock_rate_ 2
        | Adc_kDivideBy4 => fdiv apb2_clock_rate_ 4
        | Adc_kDivideBy6 => fdiv apb2_clock_rate_ 6
        | Adc_kDivideBy8 => fdiv apb2_clock_rate_ 8
        end in
      ret {| rtc_clock_rate_ := rtc_clock_rate_;
             usb_clock_rate_ := usb_clock_rate_;
             pll_clock_rate_ := pll_clock_rate_;
             ahb_clock_rate_ := ahb_clock_rate_;
             apb1_clock_rate_ := apb1_clock_rate_;
             apb2_clock_rate_ := apb2_clock_rate_;
             timer_apb1_clock_rate_ := timer_apb1_clock_rate_;
             timer_apb2_clock_rate_ := timer_apb2_clock_rate_;
             adc_clock_rate_ := adc_clock_rate_ |}.

End Sequencer.

  (** Whether [id] is one of the listed identities (a run of [case] labels
      falling through to one [return]). *)
Definition one_of (id : PeripheralID) (l : list PeripheralID) : bool :=
    existsb (fun k => N.eqb (device_id id) (device_id k)) l.

  (** The clock rate frequency of a peripheral. *)
Definition GetClockRate (this : SystemController) (id : PeripheralID)
      : hertz_t :=
    let d := device_id id in
    if one_of id [Peripherals.kI2s] then pll_clock_rate_ this
    else if one_of id [Peripherals.kUsb] then usb_clock_rate_ this
    else if one_of id [Peripherals.kFlitf] then kHighSpeedInternal
    else if one_of id [Peripherals.kSystemTimer; Peripherals.kCpu]
    then ahb_clock_rate_ this
    else if one_of id
              [Peripherals.kTimer2; Peripherals.kTimer3; Peripherals.kTimer4;
               Peripherals.kTimer5; Peripherals.kTimer6; Peripherals.kTimer7;
               Peripherals.kTimer12; Peripherals.kTimer13;
               Peripherals.kTimer14]
    then timer_apb1_clock_rate_ this
    else if one_of id
              [Peripherals.kTimer1; Peripherals.kTimer8; Peripherals.kTimer9;
               Peripherals.kTimer10; Peripherals.kTimer11]
    then timer_apb2_clock_rate_ this
    else if one_of id
              [Peripherals.kAdc1; Peripherals.kAdc2; Peripherals.kAdc3]
    then adc_clock_rate_ this
    else if (d <? Peripherals.kAPB1)%N then ahb_clock_rate_ this
    else if ((Peripherals.kAPB1 <=? d) && (d <? Peripherals.kAPB2))%N
    then apb1_clock_rate_ this
    else if ((Peripherals.kAPB2 <=? d) && (d <? Peripherals.kBeyond))%N
    then apb2_clock_rate_ this
    else Hz 0.

  (** [enable[id.device_id / kBits]]: the array has three elements, and an
      index past its end is outside the defined behaviour. *)
Definition EnableRegister (id : PeripheralID) : option Reg :=
    nth_error enable (N.to_nat (device_id id / kBits)).

Definition EnableBitPosition (id : PeripheralID) : Z :=
    Z.of_N (device_id id mod kBits).

Definition IsPeripheralPoweredUp (id : PeripheralID) : M bool :=
    match EnableRegister id with
    | Some r => v <- load r ;; ret (bit.Read v (EnableBitPosition id))
    | None => undefined
    end.

Definition PowerUpPeripheral (id : PeripheralID) : M unit :=
    match EnableRegister id with
    | Some r => modify r (fun v => bit.Set_ v (EnableBitPosition id))
    | None => undefined
    end.

Definition PowerDownPeripheral (id : PeripheralID) : M unit :=
    match EnableRegister id with
    | Some r => modify r (fun v => bit.Clear v (EnableBitPosition id))
    | None => undefined
    end.

(** *** The clock tree as a function

    The rates that Step 5, Step 7 and Step 8 of [Initialize] assign, read
    off without the register traffic: a function of the configuration and
    of the members as they were before the call. *)

(** The frequency fed to the PLL multiplier by the source selected. *)
Definition pll_input (config_ : ClockConfiguration) : hertz_t :=
  match pll_source config_ with
  | Pll_kHighSpeedInternal => fdiv kHighSpeedInternal 2
  | Pll_kHighSpeedExternal => high_speed_external config_
  | Pll_kHighSpeedExternalDividedBy2 => fdiv (high_speed_external config_) 2
  end.

Definition ahb_divisor (d : AHBDivider) : Z :=
  match d with
  | AHB_kDivideBy1 => 1
  | AHB_kDivideBy2 => 2
  | AHB_kDivideBy4 => 4
  | AHB_kDivideBy8 => 8
  | AHB_kDivideBy16 => 16
  | AHB_kDivideBy64 => 64
  | AHB_kDivideBy128 => 128
  | AHB_kDivideBy256 => 256
  | AHB_kDivideBy512 => 512
  end.

Definition apb_divisor (d : APBDivider) : Z :=
  match d with
  | APB_kDivideBy1 => 1
  | APB_kDivideBy2 => 2
  | APB_kDivideBy4 => 4
  | APB_kDivideBy8 => 8
  | APB_kDivideBy16 => 16
  end.

Definition adc_divisor (d : AdcDivider) : Z :=
  match d with
  | Adc_kDivideBy2 => 2
  | Adc_kDivideBy4 => 4
  | Adc_kDivideBy6 => 6
  | Adc_kDivideBy8 => 8
  end.

(** The PLL rate after Step 5 of [Initialize]: assigned when the PLL is
    enabled, left as the member held it otherwise. *)
Definition pll_rate (config_ : ClockConfiguration) (this : SystemController)
    : hertz_t :=
  if pll_enable config_
  then pll_input config_ * (Value (pll_multiply config_) + 2)
  else pll_clock_rate_ this.

(** The system clock rate of Step 7.2, by the oscillator selected. *)
Definition system_rate (config_ : ClockConfiguration)
    (this : SystemController) : hertz_t :=
  match system_clock config_ with
  | Sys_kHighSpeedInternal => kHighSpeedInternal
  | Sys_kHighSpeedExternal => high_speed_external config_
  | Sys_kPll => pll_rate config_ this
  end.

Definition DerivedRates (config_ : ClockConfiguration)
    (this : SystemController) : SystemController :=
  let pll :=
    if pll_enable config_
    then pll_input config_ * (Value (pll_multiply config_) + 2)
    else pll_clock_rate_ this in
  let sys :=
    match system_clock config_ with
    | Sys_kHighSpeedInternal => kHighSpeedInternal
    | Sys_kHighSpeedExternal => high_speed_external config_
    | Sys_kPll => pll
    end in
  let ahb := fdiv sys (ahb_divisor (ahb_divider config_)) in
  let apb1 := fdiv ahb (apb_divisor (ahb_apb1_divider config_)) in
  let apb2 := fdiv ahb (apb_divisor (ahb_apb2_divider config_)) in
  {| rtc_clock_rate_ :=
       match rtc_source config_ with
       | kNoClock => Hz 0
       | Rtc_kLowSpeedInternal => kLowSpeedInternal
       | Rtc_kLowSpeedExternal => low_speed_external config_
       | kHighSpeedExternalDividedBy128 =>
           fdiv (high_speed_external config_) 128
       end;
     usb_clock_rate_ :=
       match pll_usb_divider config_ with
       | Usb_kDivideBy1 => pll
       | kDivideBy1Point5 => fdiv (pll * 2) 3
       end;
     pll_clock_rate_ := pll;
     ahb_clock_rate_ := ahb;
     apb1_clock_rate_ := apb1;
     apb2_clock_rate_ := apb2;
     timer_apb1_clock_rate_ :=
       match ahb_apb1_divider config_ with
       | APB_kDivideBy1 => apb1
       | _ => apb1 * 2
       end;
     timer_apb2_clock_rate_ :=
       match ahb_apb2_divider config_ with
       | APB_kDivideBy1 => apb2
       | _ => apb2 * 2
       end;
     adc_clock_rate_ := fdiv apb2 (adc_divisor (ahb_apb2_adc_divider config_))
  |}.

(** The factor a [PllMultiply] enumerator is named after. *)
Definition multiplier (m : PllMultiply) : Z :=
  match m with
  | kMultiplyBy2 => 2
  | kMultiplyBy3 => 3
  | kMultiplyBy4 => 4
  | kMultiplyBy5 => 5
  | kMultiplyBy6 => 6
  | kMultiplyBy7 => 7
  | kMultiplyBy8 => 8
  | kMultiplyBy9 => 9
  | kMultiplyBy10 => 10
  | kMultiplyBy11 => 11
  | kMultiplyBy12 => 12
  | kMultiplyBy13 => 13
  | kMultiplyBy14 => 14
  | kMultiplyBy15 => 15
  | kMultiplyBy16 => 16
  end.

(** The registers of [RCC] that hold the clock tree. *)
Definition rcc_register (r : Reg) : bool :=
  match r with
  | CR | CFGR | BDCR => true
  | _ => false
  end.

(** The registers of the clock tree, as opposed to the power gates. *)
Definition clock_register (r : Reg) : bool :=
  match r with
  | CR | CFGR | BDCR | ACR => true
  | AHBENR | APB1ENR | APB2ENR => false
  end.

(** The timers clocked from the APB1 bus and from the APB2 bus. *)
Definition apb1_timers : list PeripheralID :=
  [ Peripherals.kTimer2; Peripherals.kTimer3; Peripherals.kTimer4;
    Peripherals.kTimer5; Peripherals.kTimer6; Peripherals.kTimer7;
    Peripherals.kTimer12; Peripherals.kTimer13; Peripherals.kTimer14 ].

Definition apb2_timers : list PeripheralID :=
  [ Peripherals.kTimer1; Peripherals.kTimer8; Peripherals.kTimer9;
    Peripherals.kTimer10; Peripherals.kTimer11 ].

End stm32f10x.

Module stm32f10x_hardware.
Import stm32f10x.
Import ClockConfigurationRegisters ClockControlRegisters RtcRegisters.

(** A clock hardware that answers at once: an enabled oscillator or PLL
    reports ready, and the system clock status follows the selection. *)
Definition responsive (m : Reg -> Z) : Reg -> Z :=
  fun r =>
    match r with
    | CR =>
        let v := m CR in
        let v := if bit.Read v kExternalOscEnable
                 then bit.Set_ v kExternalOscReady else v in
        if bit.Read v kPllEnable then bit.Set_ v kPllReady else v
    | BDCR =>
        let v := m BDCR in
        if bit.Read v kLowSpeedOscEnable
        then bit.Set_ v kLowSpeedOscReady else v
    | CFGR =>
        let v := m CFGR in
        bit.Insert v (bit.Extract v kSystemClockSelect) kSystemClockStatus
    | _ => m r
    end.

(** A clock hardware that never answers. *)
Definition dead (m : Reg -> Z) : Reg -> Z := m.

(** A register file holding [0] everywhere, with nothing recorded. *)
Definition blank : Machine.Bus Reg :=
  {| Machine.mem := fun _ => 0; Machine.log := [] |}.


(** External oscillator of 8 MHz feeding the PLL, multiplied by 9, the PLL
    driving the system clock, every bus divider at 1. *)
Definition pll_72MHz : ClockConfiguration := {|
  high_speed_external := MHz 8;
  low_speed_external := MHz 0;
  pll_enable := true;
  pll_source := Pll_kHighSpeedExternal;
  pll_multiply := kMultiplyBy9;
  pll_usb_divider := kDivideBy1Point5;
  system_clock := Sys_kPll;
  rtc_enable := false;
  rtc_source := Rtc_kLowSpeedInternal;
  ahb_divider := AHB_kDivideBy1;
  ahb_apb1_divider := APB_kDivideBy1;
  ahb_apb2_divider := APB_kDivideBy1;
  ahb_apb2_adc_divider := Adc_kDivideBy2
|}.

(** The same clock tree with the APB1 bus at half and the APB2 bus at a
    quarter of the 72 MHz of the AHB bus. *)
Definition pll_72MHz_apb_divided : ClockConfiguration := {|
  high_speed_external := MHz 8;
  low_speed_external := MHz 0;
  pll_enable := true;
  pll_source := Pll_kHighSpeedExternal;
  pll_multiply := kMultiplyBy9;
  pll_usb_divider := kDivideBy1Point5;
  system_clock := Sys_kPll;
  rtc_enable := false;
  rtc_source := Rtc_kLowSpeedInternal;
  ahb_divider := AHB_kDivideBy1;
  ahb_apb1_divider := APB_kDivideBy2;
  ahb_apb2_divider := APB_kDivideBy4;
  ahb_apb2_adc_divider := Adc_kDivideBy2
|}.

(** A board with no crystal fitted: the hardware answers at once but for the
    ready flag of the external oscillator, which never comes up. *)
Definition no_crystal (m : Reg -> Z) : Reg -> Z :=
  fun r =>
    match r with
    | CR => bit.Clear (responsive m CR) kExternalOscReady
    | _ => responsive m r
    end.

End stm32f10x_hardware.

(* ===================================================================== *)
(** ** msp432p401r *)

Module msp432p401r.
Local Open Scope machine_scope.

(** The device id for each of the available clock system modules. *)
Module Modules.
Definition kMasterClock := Define 1.
Definition kSubsystemMasterClock := Define 2.
Definition kLowSpeedSubsystemMasterClock := Define 3.
Definition kBackupClock := Define 4.
End Modules.

(** The available internal oscillators for the clock system module. *)
Inductive Oscillator :=
| kLowFrequency | kVeryLowFrequency | kReference | kDigitallyControlled
| kModule | kHighFrequency.

#[export] Instance Oscillator_Value : Enum Oscillator := fun o =>
  match o with
  | kLowFrequency => 0
  | kVeryLowFrequency => 1
  | kReference => 2
  | kDigitallyControlled => 3
  | kModule => 4
  | kHighFrequency => 5
  end.

(** The available system clocks; [kAuxiliary] to [kBackup] are the primary
    clock signals. *)
Inductive Clock :=
| kAuxiliary | kMaster | kSubsystemMaster | kLowSpeedSubsystemMaster
| kBackup | Clock_kLowFrequency | Clock_kVeryLowFrequency | Clock_kReference
| Clock_kModule | kSystem.

#[export] Instance Clock_Value : Enum Clock := fun c =>
  match c with
  | kAuxiliary => 0
  | kMaster => 1
  | kSubsystemMaster => 2
  | kLowSpeedSubsystemMaster => 3
  | kBackup => 4
  | Clock_kLowFrequency => 5
  | Clock_kVeryLowFrequency => 6
  | Clock_kReference => 7
  | Clock_kModule => 8
  | kSystem => 9
  end.

(** The available clock dividers for the primary clocks. *)
Inductive ClockDivider :=
| kDivideBy1 | kDivideBy2 | kDivideBy4 | kDivideBy8 | kDivideBy16
| kDivideBy32 | kDivideBy64 | kDivideBy128.

#[export] Instance ClockDivider_Value : Enum ClockDivider := fun d =>
  match d with
  | kDivideBy1 => 0
  | kDivideBy2 => 1
  | kDivideBy4 => 2
  | kDivideBy8 => 3
  | kDivideBy16 => 4
  | kDivideBy32 => 5
  | kDivideBy64 => 6
  | kDivideBy128 => 7
  end.

(** Fixed clock rates of the internal oscillators. *)
Module InternalOscillator.
Definition kVeryLowFrequency : hertz_t := Hz 9400.
Definition kModule : hertz_t := MHz 25.
Definition kSystem : hertz_t := MHz 5.
Definition kReference : list hertz_t := [Hz 32768; kHz 128].
End InternalOscillator.

(** Fixed clock rates of the on-board external oscillators. *)
Module ExternalOscillator.
Definition kLowFrequency : hertz_t := Hz 32768.
Definition kHighFrequency : hertz_t := MHz 48.
End ExternalOscillator.

Module KeyRegister.
Definition kCsKey := bit.CreateMaskFromRange 0 15.
End KeyRegister.

Module Control0Register.
Definition kTuningSelect := bit.CreateMaskFromRange 0 9.
Definition kFrequencySelect := bit.CreateMaskFromRange 16 18.
Definition kEnable := bit.CreateMaskFromBit 23.
End Control0Register.

Module Control1Register.
Definition kMasterClockSourceSelect := bit.CreateMaskFromRange 0 2.
Definition kSubsystemClockSourceSelect := bit.CreateMaskFromRange 4 6.
Definition kAuxiliaryClockSourceSelect := bit.CreateMaskFromRange 8 10.
Definition kBackupClockSourceSelect := bit.CreateMaskFromBit 12.
Definition kMasterClockDividerSelect := bit.CreateMaskFromRange 16 18.
Definition kSubsystemClockDividerSelect := bit.CreateMaskFromRange 20 22.
Definition kAuxiliaryClockDividerSelect := bit.CreateMaskFromRange 24 26.
Definition kLowSpeedSubsystemClockDividerSelect :=
  bit.CreateMaskFromRange 28 30.
End Control1Register.

Module ClockEnableRegister.
Definition kReferenceFrequencySelect := bit.CreateMaskFromBit 15.
End ClockEnableRegister.

(** The clock configuration, the nested structures flattened. *)
Record ClockConfiguration_t := {
  auxiliary_clock_source : Oscillator;
  auxiliary_divider : ClockDivider;
  master_clock_source : Oscillator;
  master_divider : ClockDivider;
  subsystem_master_clock_source : Oscillator;
  subsystem_master_divider : ClockDivider;
  subsystem_master_low_speed_divider : ClockDivider;
  backup_clock_source : Oscillator;
  reference_frequency_select : Z;
  dco_enabled : bool;
  dco_frequency : hertz_t
}.

(** The default member initialisers of [ClockConfiguration_t]. *)
Definition default_configuration : ClockConfiguration_t := {|
  auxiliary_clock_source := kReference;
  auxiliary_divider := kDivideBy1;
  master_clock_source := kDigitallyControlled;
  master_divider := kDivideBy1;
  subsystem_master_clock_source := kDigitallyControlled;
  subsystem_master_divider := kDivideBy1;
  subsystem_master_low_speed_divider := kDivideBy1;
  backup_clock_source := kReference;
  reference_frequency_select := 0;
  dco_enabled := true;
  dco_frequency := MHz 3
|}.

(** The registers of the clock system [CS] and the calibration words of the
    device descriptors [TLV] the controller reads. *)
Inductive Reg :=
| KEY | CTL0 | CTL1 | CLKEN | STAT
| DCOIR_CONSTK_RSEL04 | DCOIR_FCAL_RSEL04
| DCOIR_CONSTK_RSEL5 | DCOIR_FCAL_RSEL5.

Definition Reg_eqb (a b : Reg) : bool :=
  match a, b with
  | KEY, KEY | CTL0, CTL0 | CTL1, CTL1 | CLKEN, CLKEN | STAT, STAT
  | DCOIR_CONSTK_RSEL04, DCOIR_CONSTK_RSEL04
  | DCOIR_FCAL_RSEL04, DCOIR_FCAL_RSEL04
  | DCOIR_CONSTK_RSEL5, DCOIR_CONSTK_RSEL5
  | DCOIR_FCAL_RSEL5, DCOIR_FCAL_RSEL5 => true
  | _, _ => false
  end.

Definition M := Machine.M Reg.
Definition ret {A} (a : A) : M A := Machine.ret a.
Definition undefined {A} : M A := Machine.undefined.
Definition load (r : Reg) : M Z := Machine.load r.
Definition store (r : Reg) (v : Z) : M unit := Machine.store Reg_eqb r v.
Definition modify (r : Reg) (f : Z -> Z) : M unit :=
  Machine.modify Reg_eqb r f.
Definition SJ2_ASSERT_FATAL (condition : bool) : M unit :=
  Machine.assert_fatal condition.

(** The number of available clocks that can be used by the system. *)
Definition kClockPeripheralCount : N := 10.

(** The data member [clock_rates_], an array of [kClockPeripheralCount]
    rates. *)
Record SystemController := { clock_rates_ : list hertz_t }.

(** The default member initialiser of [clock_rates_]. *)
Definition constructed : SystemController := {|
  clock_rates_ :=
    [ Hz 0;                               (* auxiliary clock *)
      Hz 0;                               (* master clock *)
      Hz 0;                               (* subsystem master clock *)
      Hz 0;                               (* low speed subsystem master *)
      Hz 0;                               (* backup clock *)
      ExternalOscillator.kLowFrequency;   (* low frequency clock *)
      InternalOscillator.kVeryLowFrequency; (* very low frequency clock *)
      Hz 0;                               (* reference clock *)
      InternalOscillator.kModule;         (* module clock *)
      InternalOscillator.kSystem ]        (* system clock *)
|}.

(** [a[i] = v] on an array held as a list; the index is within the array at
    every use. *)
Fixpoint array_set (a : list hertz_t) (i : nat) (v : hertz_t)
    : list hertz_t :=
  match a, i with
  | [], _ => []
  | _ :: t, O => v :: t
  | h :: t, S j => h :: array_set t j v
  end.

(** [clock_rates_[Value(clock)] = v]. *)
Definition set_rate (a : list hertz_t) (clock : Clock) (v : hertz_t)
    : list hertz_t :=
  array_set a (Z.to_nat (Value clock)) v.

(** The clock rate frequency of a clock system module. *)
Definition GetClockRate (this : SystemController) (peripheral : PeripheralID)
    : hertz_t :=
  if (kClockPeripheralCount <=? device_id peripheral)%N then MHz 0
  else nth (N.to_nat (device_id peripheral)) (clock_rates_ this) 0.

Definition IsPeripheralPoweredUp (_ : PeripheralID) : M bool := ret false.

Definition PowerUpPeripheral (_ : PeripheralID) : M unit :=
  SJ2_ASSERT_FATAL false.

Definition PowerDownPeripheral (_ : PeripheralID) : M unit :=
  SJ2_ASSERT_FATAL false.

(** Unlocks the clock system registers by writing the necessary value to
    the CSKEY register. *)
Definition kUnlockKey : Z := 0x695A.

Definition UnlockClockSystemRegisters : M unit :=
  modify KEY (fun v => bit.Insert v kUnlockKey KeyRegister.kCsKey).

(** Locks the clock system registers. *)
Definition kLockKey : Z := 0x0000.

Definition LockClockSystemRegisters : M unit :=
  modify KEY (fun v => bit.Insert v kLockKey KeyRegister.kCsKey).

Section Sequencer.
Import Control0Register Control1Register ClockEnableRegister.

(** Whether the build targets the host ([build::kPlatform] of
    utility/build_info.hpp), the reaction of the clock hardware between
    two polls, and the polls granted to each busy-wait. *)
Variable host : bool.
Variable tick : (Reg -> Z) -> (Reg -> Z).
Variable fuel : nat.

(** The signed tuning value of the DCO, Equation 6 of the reference manual,
    as a function of the target frequency, the frequency range selected,
    and the constant and calibration words of that range.  The source
    computes it in single-precision floating point; it is left open here,
    and nothing below depends on its value. *)
Variable TuningValue : hertz_t -> Z -> Z -> Z -> Z.

Definition poll (r : Reg) (ready : Z -> bool) : M unit :=
  Machine.poll tick fuel r ready.

(** Checks and waits for a clock signal to become stable after a frequency
    or divider configuration. *)
Definition WaitForClockReadyStatus (clock : Clock) : M unit :=
  if host then ret tt
  else
    SJ2_ASSERT_FATAL (Value clock <=? Value kBackup) ;;
    let kClockReadyBit := 24 in
    let kOffset := Value clock in
    let kReadyBitMask := bit.CreateMaskFromBit (kClockReadyBit + kOffset) in
    poll STAT (fun v => bit.Read v kReadyBitMask).

(** Configures the clock divider for one of the four primary clock signals
    (ACLK, MCLK, HSMCLK, or SMCLK). *)
Definition SetClockDivider (clock : Clock) (divider : ClockDivider)
    : M unit :=
  SJ2_ASSERT_FATAL (Value clock <=? Value kLowSpeedSubsystemMaster) ;;
  let kDividerSelectMasks :=
    [ kAuxiliaryClockDividerSelect;
      kMasterClockDividerSelect;
      kSubsystemClockDividerSelect;
      kLowSpeedSubsystemClockDividerSelect ] in
  UnlockClockSystemRegisters ;;
  match nth_error kDividerSelectMasks (Z.to_nat (Value clock)) with
  | Some mask => modify CTL1 (fun v => bit.Insert v (Value divider) mask)
  | None => undefined
  end ;;
  LockClockSystemRegisters ;;
  WaitForClockReadyStatus clock.

(** Configures one of the five primary clock signals (ACLK, MCLK,
    HSMCLK / SMCLK, and BCLK) to be sourced by the specified oscillator. *)
Definition SetClockSource (clock : Clock) (source : Oscillator) : M unit :=
  let kPrimaryClockSelectMasks :=
    [ kAuxiliaryClockSourceSelect;
      kMasterClockSourceSelect;
      kSubsystemClockSourceSelect;
      kSubsystemClockSourceSelect;
      kBackupClockSourceSelect ] in
  let select_value := Value source in
  (* the value to write, or [None] where the switch leaves by [return] *)
  selected <-
    match clock with
    | kMaster | kSubsystemMaster | kLowSpeedSubsystemMaster =>
        ret (Some select_value)
    | kAuxiliary =>
        SJ2_ASSERT_FATAL (select_value <=? Value kReference) ;;
        ret (Some select_value)
    | kBackup =>
        match source with
        | kLowFrequency => ret (Some select_value)
        | kReference => ret (Some 1)
        | _ => SJ2_ASSERT_FATAL false ;; ret None
        end
    | _ => SJ2_ASSERT_FATAL false ;; ret None
    end ;;
  match selected with
  | None => ret tt
  | Some select_value =>
      match nth_error kPrimaryClockSelectMasks (Z.to_nat (Value clock)) with
      | Some mask => modify CTL1 (fun v => bit.Insert v select_value mask)
      | None => undefined
      end
  end.

(** Configures the DCO clock to generate a desired target frequency; returns
    the DCO output frequency.  The target is held in the [kilohertz_t] local
    [kTargetFrequency]: the bounds of Step 1 and the ranges of Step 2 are
    checked on that value, and it is that value, read back as a [hertz_t],
    that is returned. *)
Definition ConfigureDcoClock (clock_configuration_ : ClockConfiguration_t)
    : M hertz_t :=
  let kTargetFrequency : kilohertz_t :=
    to_kilohertz (dco_frequency clock_configuration_) in
  (* Configure DCO only if it is used as a clock source. *)
  (if dco_enabled clock_configuration_
   then
     (* Step 1. Ensure the target frequency is valid. *)
     let kMinimumDcoFrequency := MHz 1 in
     let kMaximumDcoFrequency := MHz 48 in
     SJ2_ASSERT_FATAL
       ((kMinimumDcoFrequency <=? of_kilohertz kTargetFrequency)
        && (of_kilohertz kTargetFrequency <=? kMaximumDcoFrequency)) ;;
     (* Step 2. Determine the DCO tuning configuration values. *)
     dco_constant <- load DCOIR_CONSTK_RSEL04 ;;
     dco_calibration <- load DCOIR_FCAL_RSEL04 ;;
     range <-
       (if MHz 32 <=? of_kilohertz kTargetFrequency
        then
          dco_constant <- load DCOIR_CONSTK_RSEL5 ;;
          dco_calibration <- load DCOIR_FCAL_RSEL5 ;;
          ret (5, dco_constant, dco_calibration)
        else if MHz 16 <=? of_kilohertz kTargetFrequency
        then ret (4, dco_constant, dco_calibration)
        else if MHz 8 <=? of_kilohertz kTargetFrequency
        then ret (3, dco_constant, dco_calibration)
        else if MHz 4 <=? of_kilohertz kTargetFrequency
        then ret (2, dco_constant, dco_calibration)
        else if MHz 2 <=? of_kilohertz kTargetFrequency
        then ret (1, dco_constant, dco_calibration)
        else ret (0, dco_constant, dco_calibration)) ;;
     let '(dco_frequency_select, dco_constant, dco_calibration) := range in
     (* Step 3. Calculate the signed 10-bit tuning value. *)
     let kTuningValue :=
       TuningValue (of_kilohertz kTargetFrequency) dco_frequency_select
                   dco_constant dco_calibration in
     (* Step 4. Configure the CSCTL0 register. *)
     UnlockClockSystemRegisters ;;
     control0register <- load CTL0 ;;
     let control0register :=
       bit.Insert control0register kTuningValue kTuningSelect in
     let control0register :=
       bit.Insert control0register dco_frequency_select kFrequencySelect in
     let control0register := bit.Set_ control0register kEnable in
     store CTL0 control0register ;;
     LockClockSystemRegisters
   else ret tt) ;;
  ret (of_kilohertz kTargetFrequency).

(** Configures the reference clock to output either 32.768 kHz or 128 kHz;
    returns the reference clock frequency. *)
Definition ConfigureReferenceClock
    (clock_configuration_ : ClockConfiguration_t) : M hertz_t :=
  let kFrequencySelect := reference_frequency_select clock_configuration_ in
  SJ2_ASSERT_FATAL (kFrequencySelect <=? 1) ;;
  modify CLKEN (fun v =>
    bit.Insert v kFrequencySelect kReferenceFrequencySelect) ;;
  match nth_error InternalOscillator.kReference (Z.to_nat kFrequencySelect)
  with
  | Some f => ret f
  | None => undefined
  end.

(** Initializes the system controller by configuring the DCO clock,
    reference clock, and all the primary clocks. *)
Definition Initialize (clock_configuration_ : ClockConfiguration_t)
    (this : SystemController) : M SystemController :=
  let kVlo := InternalOscillator.kVeryLowFrequency in
  let kMod := InternalOscillator.kModule in
  let kLfxt := ExternalOscillator.kLowFrequency in
  let kHfxt := ExternalOscillator.kHighFrequency in
  (* Step 1. Configure the DCO and Reference clocks *)
  dco <- ConfigureDcoClock clock_configuration_ ;;
  refo <- ConfigureReferenceClock clock_configuration_ ;;
  (* Step 2. Set the clock source for each of the primary clocks *)
  SetClockSource kAuxiliary (auxiliary_clock_source clock_configuration_) ;;
  SetClockSource kMaster (master_clock_source clock_configuration_) ;;
  SetClockSource kSubsystemMaster
                 (subsystem_master_clock_source clock_configuration_) ;;
  SetClockSource kBackup (backup_clock_source clock_configuration_) ;;
  (* Step 3. Configure primary clock dividers *)
  SetClockDivider kAuxiliary (auxiliary_divider clock_configuration_) ;;
  SetClockDivider kMaster (master_divider clock_configuration_) ;;
  SetClockDivider kSubsystemMaster
                  (subsystem_master_divider clock_configuration_) ;;
  SetClockDivider kLowSpeedSubsystemMaster
    (subsystem_master_low_speed_divider clock_configuration_) ;;
  (* Step 4. Determine the clock rate of each of the clocks *)
  let aclk :=
    match auxiliary_clock_source clock_configuration_ with
    | kLowFrequency => kLfxt
    | kVeryLowFrequency => kVlo
    | kReference => refo
    | _ => Hz 0
    end in
  let mclk :=
    match master_clock_source clock_configuration_ with
    | kLowFrequency => kLfxt
    | kVeryLowFrequency => kVlo
    | kReference => refo
    | kDigitallyControlled => dco
    | kModule => kMod
    | kHighFrequency => kHfxt
    end in
  let smclk :=
    match subsystem_master_clock_source clock_configuration_ with
    | kLowFrequency => kLfxt
    | kVeryLowFrequency => kVlo
    | kReference => refo
    | kDigitallyControlled => dco
    | kModule => kMod
    | kHighFrequency => kHfxt
    end in
  let bclk :=
    match backup_clock_source clock_configuration_ with
    | kLowFrequency => kLfxt
    | kReference => refo
    | _ => Hz 0
    end in
  let clock_rates_ := clock_rates_ this in
  let clock_rates_ :=
    set_rate clock_rates_ kAuxiliary
      (fdiv aclk (Z.shiftl 1 (Value (auxiliary_divider clock_configuration_))))
  in
  let clock_rates_ :=
    set_rate clock_rates_ kMaster
      (fdiv mclk (Z.shiftl 1 (Value (master_divider clock_configuration_))))
  in
  let clock_rates_ :=
    set_rate clock_rates_ kSubsystemMaster
      (fdiv smclk
         (Z.shiftl 1 (Value (subsystem_master_divider clock_configuration_))))
  in
  let clock_rates_ :=
    set_rate clock_rates_ kLowSpeedSubsystemMaster
      (fdiv smclk
         (Z.shiftl 1
            (Value (subsystem_master_low_speed_divider clock_configuration_))))
  in
  let clock_rates_ := set_rate clock_rates_ kBackup bclk in
  let clock_rates_ := set_rate clock_rates_ Clock_kReference refo in
  ret {| clock_rates_ := clock_rates_ |}.

End Sequencer.

(** *** The clock tree as a function *)

(** The reference clock frequency for a valid [frequency_select]. *)
Definition reference_rate (clock_configuration_ : ClockConfiguration_t)
    : hertz_t :=
  nth (Z.to_nat (reference_frequency_select clock_configuration_))
      InternalOscillator.kReference (Hz 0).

(** The DCO output frequency [ConfigureDcoClock] returns: the target of the
    configuration as its [kilohertz_t] local holds it. *)
Definition dco_rate (clock_configuration_ : ClockConfiguration_t) : hertz_t :=
  of_kilohertz (to_kilohertz (dco_frequency clock_configuration_)).

(** The frequency of an oscillator under a configuration. *)
Definition oscillator_rate (clock_configuration_ : ClockConfiguration_t)
    (o : Oscillator) : hertz_t :=
  match o with
  | kLowFrequency => ExternalOscillator.kLowFrequency
  | kVeryLowFrequency => InternalOscillator.kVeryLowFrequency
  | kReference => reference_rate clock_configuration_
  | kDigitallyControlled => dco_rate clock_configuration_
  | kModule => InternalOscillator.kModule
  | kHighFrequency => ExternalOscillator.kHighFrequency
  end.

(** The oscillators each primary clock may be sourced from, as the
    assertions of [SetClockSource] word it: the auxiliary clock can only be
    driven by kLowFrequency, kVeryLowFrequency, or kReference; the backup
    clock can only be driven by kLowFrequency or kReference; the clock must
    be one of the five primary clocks. *)
Definition source_allowed (clock : Clock) (source : Oscillator) : bool :=
  match clock with
  | kMaster | kSubsystemMaster | kLowSpeedSubsystemMaster => true
  | kAuxiliary =>
      match source with
      | kLowFrequency | kVeryLowFrequency | kReference => true
      | _ => false
      end
  | kBackup =>
      match source with
      | kLowFrequency | kReference => true
      | _ => false
      end
  | _ => false
  end.

(** The table that Step 4 of [Initialize] leaves, as a function of the
    configuration and of the table before the call. *)
Definition DerivedRates (clock_configuration_ : ClockConfiguration_t)
    (this : SystemController) : SystemController :=
  let c := clock_configuration_ in
  let shift d := Z.shiftl 1 (Value d) in
  let aclk :=
    if source_allowed kAuxiliary (auxiliary_clock_source c)
    then oscillator_rate c (auxiliary_clock_source c) else Hz 0 in
  let smclk := oscillator_rate c (subsystem_master_clock_source c) in
  let bclk :=
    if source_allowed kBackup (backup_clock_source c)
    then oscillator_rate c (backup_clock_source c) else Hz 0 in
  let t := clock_rates_ this in
  let t := set_rate t kAuxiliary (fdiv aclk (shift (auxiliary_divider c))) in
  let t :=
    set_rate t kMaster
      (fdiv (oscillator_rate c (master_clock_source c))
            (shift (master_divider c))) in
  let t :=
    set_rate t kSubsystemMaster
      (fdiv smclk (shift (subsystem_master_divider c))) in
  let t :=
    set_rate t kLowSpeedSubsystemMaster
      (fdiv smclk (shift (subsystem_master_low_speed_divider c))) in
  let t := set_rate t kBackup bclk in
  let t := set_rate t Clock_kReference (reference_rate c) in
  {| clock_rates_ := t |}.

(** The table [kPrimaryClockSelectMasks] local to [SetClockSource] and the
    table [kDividerSelectMasks] local to [SetClockDivider], both indexed by
    [Value(clock)]. *)
Definition kPrimaryClockSelectMasks : list bit.Mask :=
  [ Control1Register.kAuxiliaryClockSourceSelect;
    Control1Register.kMasterClockSourceSelect;
    Control1Register.kSubsystemClockSourceSelect;
    Control1Register.kSubsystemClockSourceSelect;
    Control1Register.kBackupClockSourceSelect ].

Definition kDividerSelectMasks : list bit.Mask :=
  [ Control1Register.kAuxiliaryClockDividerSelect;
    Control1Register.kMasterClockDividerSelect;
    Control1Register.kSubsystemClockDividerSelect;
    Control1Register.kLowSpeedSubsystemClockDividerSelect ].


(** The registers the driver writes: the key and the control registers, as
    opposed to the status register and the calibration words. *)
Definition control_register (r : Reg) : bool :=
  match r with
  | KEY | CTL0 | CTL1 | CLKEN => true
  | _ => false
  end.

(** A configuration [Initialize] accepts: allowed sources for the auxiliary
    and the backup clock, a one-bit reference frequency select, and a DCO
    target that, held in kilohertz, lies between 1 MHz and 48 MHz when the
    DCO is enabled. *)
Definition accepted (c : ClockConfiguration_t) : bool :=
  source_allowed kAuxiliary (auxiliary_clock_source c)
  && source_allowed kBackup (backup_clock_source c)
  && (0 <=? reference_frequency_select c)
  && (reference_frequency_select c <=? 1)
  && (if dco_enabled c
      then (MHz 1 <=? dco_rate c) && (dco_rate c <=? MHz 48)
      else true).

End msp432p401r.

Module msp432p401r_hardware.
Import msp432p401r.

(** A clock hardware that answers at once: every ready flag of [STAT] (bits
    24 to 28) is up at the next poll. *)
Definition responsive (m : Reg -> Z) : Reg -> Z :=
  fun r =>
    match r with
    | STAT => Z.lor (m STAT) 0x1F000000
    | _ => m r
    end.

(** A clock hardware that never answers. *)
Definition dead (m : Reg -> Z) : Reg -> Z := m.

(** A register file holding [0] everywhere, with nothing recorded. *)
Definition blank : Machine.Bus Reg :=
  {| Machine.mem := fun _ => 0; Machine.log := [] |}.

(** The default configuration but for the backup clock, asked to run from
    the high frequency oscillator. *)
Definition backup_on_high_frequency : ClockConfiguration_t := {|
  auxiliary_clock_source := kReference;
  auxiliary_divider := kDivideBy1;
  master_clock_source := kDigitallyControlled;
  master_divider := kDivideBy1;
  subsystem_master_clock_source := kDigitallyControlled;
  subsystem_master_divider := kDivideBy1;
  subsystem_master_low_speed_divider := kDivideBy1;
  backup_clock_source := kHighFrequency;
  reference_frequency_select := 0;
  dco_enabled := true;
  dco_frequency := MHz 3
|}.

(** Every clock on its own divider, the subsystem clocks on the DCO and the
    master clock on the module oscillator, and a DCO target that is not a
    whole number of kilohertz. *)
Definition divided_configuration : ClockConfiguration_t := {|
  auxiliary_clock_source := kReference;
  auxiliary_divider := kDivideBy2;
  master_clock_source := kModule;
  master_divider := kDivideBy4;
  subsystem_master_clock_source := kDigitallyControlled;
  subsystem_master_divider := kDivideBy2;
  subsystem_master_low_speed_divider := kDivideBy8;
  backup_clock_source := kReference;
  reference_frequency_select := 1;
  dco_enabled := true;
  dco_frequency := Hz 1024003
|}.


(** A clock hardware that raises every ready flag at once but the one of the
    auxiliary clock (bit 24 of [STAT]), which never comes up. *)
Definition auxiliary_never_ready (m : Reg -> Z) : Reg -> Z :=
  fun r =>
    match r with
    | STAT => bit.Clear (responsive m STAT) 24
    | _ => m r
    end.

(** A tuning value for a fake register file. *)
Definition no_tuning : hertz_t -> Z -> Z -> Z -> Z := fun _ _ _ _ => 0.

(** The recording of a log checked for the key protocol: every write to a
    register other than [KEY] has the unlock key written just before it and
    the lock key written just after it. *)
Definition is_key (k : Z) (e : Reg * Z) : bool :=
  match e with
  | (KEY, v) => bit.Extract v KeyRegister.kCsKey =? k
  | _ => false
  end.

Definition is_key_write (e : Reg * Z) : bool :=
  match e with
  | (KEY, _) => true
  | _ => false
  end.

Fixpoint bracketed_from (previous : option (Reg * Z)) (w : list (Reg * Z))
    : bool :=
  match w with
  | [] => true
  | e :: rest =>
      (if is_key_write e then true
       else
         match previous, rest with
         | Some p, n :: _ => is_key kUnlockKey p && is_key kLockKey n
         | _, _ => false
         end)
      && bracketed_from (Some e) rest
  end.

Definition bracketed (l : list (Machine.Event Reg)) : bool :=
  bracketed_from None (Machine.stores l).

End msp432p401r_hardware.

(* ===================================================================== *)
(** * Properties *)

(** ** Bits of a 32-bit register *)

Module bit_facts.
Import bit.

Lemma testbit_u32 (x i : Z) : 0 <= i < 32 -> Z.testbit (u32 x) i = Z.testbit x i.
Proof.
  intros Hi. unfold u32. apply Z.mod_pow2_bits_low. lia.
Qed.

Lemma testbit_u32_high (x i : Z) : 32 <= i -> Z.testbit (u32 x) i = false.
Proof.
  intros Hi. unfold u32. apply Z.mod_pow2_bits_high. lia.
Qed.

Lemma testbit_one_shifted (p i : Z) :
  0 <= p -> 0 <= i -> Z.testbit (Z.shiftl 1 p) i = (i =? p).
Proof.
  intros Hp Hi. rewrite Z.shiftl_1_l.
  destruct (Z.eqb_spec i p) as [->|Hne].
  - apply Z.pow2_bits_true; lia.
  - apply Z.pow2_bits_false; lia.
Qed.

Lemma Read_testbit (t p : Z) : 0 <= p -> Read t p = Z.testbit t p.
Proof.
  intros Hp. unfold Read.
  destruct (Z.testbit t p) eqn:Hb.
  - destruct (Z.eqb_spec (Z.land t (Z.shiftl 1 p)) 0) as [H0|]; [|reflexivity].
    assert (Hc : Z.testbit (Z.land t (Z.shiftl 1 p)) p = true).
    { rewrite Z.land_spec, Hb, testbit_one_shifted, Z.eqb_refl by lia.
      reflexivity. }
    rewrite H0, Z.bits_0 in Hc. discriminate.
  - assert (H0 : Z.land t (Z.shiftl 1 p) = 0).
    { apply Z.bits_inj'. intros i Hi.
      rewrite Z.land_spec, Z.bits_0, testbit_one_shifted by lia.
      destruct (Z.eqb_spec i p) as [->|]; [rewrite Hb|]; 
        auto using andb_false_r. }
    rewrite H0. reflexivity.
Qed.

Lemma Read_Set (t p q : Z) :
  0 <= p -> 0 <= q < 32 ->
  Read (Set_ t p) q = (q =? p) || Read t q.
Proof.
  intros Hp Hq. rewrite !Read_testbit by lia. unfold Set_.
  rewrite testbit_u32, Z.lor_spec, testbit_one_shifted by lia.
  apply orb_comm.
Qed.

Lemma Read_Clear (t p q : Z) :
  0 <= p -> 0 <= q < 32 ->
  Read (Clear t p) q = negb (q =? p) && Read t q.
Proof.
  intros Hp Hq. rewrite !Read_testbit by lia. unfold Clear.
  rewrite testbit_u32, Z.land_spec, Z.lnot_spec, testbit_one_shifted by lia.
  apply andb_comm.
Qed.

Lemma testbit_Insert (t v : Z) (m : Mask) (i : Z) :
  0 <= position m -> 0 <= width m -> 0 <= i < 32 ->
  Z.testbit (Insert t v m) i =
    if (position m <=? i) && (i <? position m + width m)
    then Z.testbit v (i - position m) else Z.testbit t i.
Proof.
  intros Hp Hw Hi. unfold Insert.
  rewrite testbit_u32, Z.lor_spec, Z.land_spec, Z.lnot_spec by lia.
  rewrite !Z.shiftl_spec by lia.
  destruct (Z.leb_spec (position m) i) as [Hle|Hlt]; cbn [andb].
  - rewrite Z.land_spec, Z.testbit_ones_nonneg by lia.
    destruct (Z.ltb_spec i (position m + width m)) as [Hin|Hout].
    + replace (i - position m <? width m) with true
        by (symmetry; apply Z.ltb_lt; lia).
      cbn. rewrite andb_false_r, andb_true_r. reflexivity.
    + replace (i - position m <? width m) with false
        by (symmetry; apply Z.ltb_ge; lia).
      cbn. rewrite andb_true_r, andb_false_r, orb_false_r. reflexivity.
  - rewrite (Z.testbit_neg_r _ (i - position m)) by lia.
    rewrite (Z.testbit_neg_r _ (i - position m)) by lia.
    cbn. rewrite andb_true_r, orb_false_r. reflexivity.
Qed.

Lemma testbit_Extract (t : Z) (m : Mask) (i : Z) :
  0 <= position m -> 0 <= width m -> 0 <= i ->
  Z.testbit (Extract t m) i =
    (i <? width m) && Z.testbit t (i + position m).
Proof.
  intros Hp Hw Hi. unfold Extract.
  rewrite Z.land_spec, Z.shiftr_spec, Z.testbit_ones_nonneg by lia.
  apply andb_comm.
Qed.

Lemma Extract_Insert (t v : Z) (m : Mask) :
  0 <= position m -> 0 <= width m -> position m + width m <= 32 ->
  Extract (Insert t v m) m = Z.land v (Z.ones (width m)).
Proof.
  intros Hp Hw Hm. apply Z.bits_inj'. intros i Hi.
  rewrite testbit_Extract, Z.land_spec, Z.testbit_ones_nonneg by lia.
  destruct (Z.ltb_spec i (width m)) as [Hin|Hout]; cbn [andb].
  - rewrite testbit_Insert by lia.
    replace (position m <=? i + position m) with true
      by (symmetry; apply Z.leb_le; lia).
    replace (i + position m <? position m + width m) with true
      by (symmetry; apply Z.ltb_lt; lia).
    cbn. replace (i + position m - position m) with i by lia.
    rewrite andb_true_r. reflexivity.
  - rewrite andb_false_r. reflexivity.
Qed.

End bit_facts.

(** ** Runs of driver code *)

Module Machine_facts.
Import Machine.

Section Laws.
Context {R : Type}.
Variable R_eqb : R -> R -> bool.
Variable tick : (R -> Z) -> (R -> Z).

Lemma returns_ret {A} (a : A) (P : A -> Prop) : P a -> returns (R:=R) (ret a) P.
Proof. intros HP b a' b' H. injection H as <- _. exact HP. Qed.

Lemma returns_bind {A B} (m : M R A) (k : A -> M R B)
    (Q : A -> Prop) (P : B -> Prop) :
  returns m Q -> (forall a, Q a -> returns (k a) P) -> returns (bind m k) P.
Proof.
  intros Hm Hk b c b' H. unfold bind in H.
  destruct (m b) as [a b1| | |] eqn:E; try discriminate.
  exact (Hk a (Hm _ _ _ E) _ _ _ H).
Qed.

Lemma returns_trivial {A} (m : M R A) : returns m (fun _ => True).
Proof. intros b a b' _. exact I. Qed.

(** A step whose value is not used. *)
Lemma returns_seq {A B} (m : M R A) (k : A -> M R B) (P : B -> Prop) :
  (forall a, returns (k a) P) -> returns (bind m k) P.
Proof.
  intros Hk. apply returns_bind with (Q := fun _ => True).
  - apply returns_trivial.
  - intros a _. apply Hk.
Qed.

Lemma completes_ret {A} (a : A) : completes (R:=R) (ret a).
Proof. intros b. exists a, b. reflexivity. Qed.

Lemma completes_bind {A B} (m : M R A) (k : A -> M R B) :
  completes m -> (forall a, completes (k a)) -> completes (bind m k).
Proof.
  intros Hm Hk b. destruct (Hm b) as (a & b1 & E).
  destruct (Hk a b1) as (c & b2 & E2).
  exists c, b2. unfold bind. rewrite E. exact E2.
Qed.

Lemma completes_load (r : R) : completes (load r).
Proof. intros b. eexists; eexists; reflexivity. Qed.

Lemma completes_store (r : R) (v : Z) : completes (store R_eqb r v).
Proof. intros b. eexists; eexists; reflexivity. Qed.

Lemma completes_modify (r : R) (f : Z -> Z) : completes (modify R_eqb r f).
Proof.
  apply completes_bind; [apply completes_load|].
  intros v. apply completes_store.
Qed.

(** Two polls are enough when the hardware raises the flag at its first
    reaction. *)
Lemma poll_two (n : nat) (r : R) (ready : Z -> bool) (b : Bus R) :
  ready (tick (mem b) r) = true ->
  exists b', poll tick (S (S n)) r ready b = Ok tt b'.
Proof.
  intros H. cbn [poll].
  destruct (ready (mem b r)); [eexists; reflexivity|].
  cbn [mem]. rewrite H. eexists; reflexivity.
Qed.

Lemma completes_poll (n : nat) (r : R) (ready : Z -> bool) :
  (forall m, ready (tick m r) = true) ->
  completes (poll tick (S (S n)) r ready).
Proof.
  intros H b. destruct (poll_two n r ready b (H _)) as (b' & E).
  exists tt, b'. exact E.
Qed.

(** [reg = f(reg); while (!ready(reg)) continue;] *)
Lemma completes_modify_poll (n : nat) (r : R) (f : Z -> Z)
    (ready : Z -> bool) :
  R_eqb r r = true ->
  (forall (m : R -> Z) v, m r = f v -> ready (tick m r) = true) ->
  completes (bind (modify R_eqb r f)
                  (fun _ => poll tick (S (S n)) r ready)).
Proof.
  intros Hr H b. unfold bind, modify, bind, load, store. cbn [mem log].
  match goal with
  | |- exists a b', poll _ _ _ _ ?b1 = _ =>
      destruct (poll_two n r ready b1) as (b' & E)
  end.
  - eapply H. cbn [mem]. rewrite Hr. reflexivity.
  - exists tt, b'. exact E.
Qed.

Lemma aborts_fatal {A} : aborts (R:=R) (fatal (A:=A)).
Proof. intros b. exists b. reflexivity. Qed.

Lemma aborts_bind_l {A B} (m : M R A) (k : A -> M R B) :
  aborts m -> aborts (bind m k).
Proof.
  intros Hm b. destruct (Hm b) as (b' & E). exists b'.
  unfold bind. rewrite E. reflexivity.
Qed.

Lemma aborts_bind_r {A B} (m : M R A) (k : A -> M R B) :
  returns_or_aborts m -> (forall a, aborts (k a)) -> aborts (bind m k).
Proof.
  intros Hm Hk b. unfold bind.
  destruct (Hm b) as [(a & b1 & E)|(b1 & E)]; rewrite E.
  - apply Hk.
  - exists b1. reflexivity.
Qed.

Lemma completes_returns_or_aborts {A} (m : M R A) :
  completes m -> returns_or_aborts m.
Proof. intros Hm b. left. apply Hm. Qed.

Lemma aborts_returns_or_aborts {A} (m : M R A) :
  aborts m -> returns_or_aborts m.
Proof. intros Hm b. right. apply Hm. Qed.

Lemma returns_or_aborts_bind {A B} (m : M R A) (k : A -> M R B) :
  returns_or_aborts m -> (forall a, returns_or_aborts (k a)) ->
  returns_or_aborts (bind m k).
Proof.
  intros Hm Hk b. unfold bind.
  destruct (Hm b) as [(a & b1 & E)|(b1 & E)]; rewrite E.
  - apply Hk.
  - right. exists b1. reflexivity.
Qed.

Lemma returns_or_aborts_assert (c : bool) :
  returns_or_aborts (R:=R) (assert_fatal c).
Proof.
  destruct c; intros b; [left|right]; eexists; try eexists; reflexivity.
Qed.

End Laws.
End Machine_facts.

(** ** stm32f10x *)

Module stm32f10x_facts.
Import Machine Machine_facts bit_facts.
Import stm32f10x stm32f10x_hardware.
Import ClockConfigurationRegisters ClockControlRegisters RtcRegisters.

Ltac skip_step := cbv zeta; apply returns_seq; intros _.

(** Whatever the hardware does, a run of [Initialize] that returns leaves
    the rates of [DerivedRates]. *)
Lemma stm32_Initialize_rates tick fuel config_ this :
  returns (Initialize tick fuel config_ this)
          (fun r => r = DerivedRates config_ this).
Proof.
  unfold Initialize. do 9 skip_step.
  apply returns_bind with
    (Q := fun p => p = if pll_enable config_
                       then pll_input config_
                            * (Value (pll_multiply config_) + 2)
                       else pll_clock_rate_ this).
  - destruct (pll_enable config_).
    + do 3 skip_step. apply returns_ret. reflexivity.
    + apply returns_ret. reflexivity.
  - intros p ->. do 10 skip_step. apply returns_ret.
    unfold DerivedRates.
    destruct (ahb_divider config_), (ahb_apb1_divider config_),
      (ahb_apb2_divider config_), (ahb_apb2_adc_divider config_);
      reflexivity.
Qed.

Lemma completes_modify_poll_bind {A} tick n (r : Reg) (f : Z -> Z)
    (ready : Z -> bool) (k : unit -> M A) :
  (forall (m : Reg -> Z) v, m r = f v -> ready (tick m r) = true) ->
  (forall a, completes (k a)) ->
  completes (Machine.bind (modify r f)
               (fun _ => Machine.bind (poll tick (S (S n)) r ready) k)).
Proof.
  intros H Hk b.
  destruct (completes_modify_poll Reg_eqb tick n r f ready) with (b := b)
    as ([] & b1 & E); [destruct r; reflexivity|exact H|].
  destruct (Hk tt b1) as (a & b2 & E2). exists a, b2.
  unfold Machine.bind in *. unfold modify, poll, Machine.modify in *.
  unfold Machine.bind in *.
  destruct (Machine.load r b) as [v b0| | |]; try discriminate.
  destruct (Machine.store Reg_eqb r (f v) b0) as [u b3| | |];
    try discriminate.
  rewrite E. exact E2.
Qed.

Lemma responsive_external_ready (m : Reg -> Z) v :
  m CR = bit.Set_ v kExternalOscEnable ->
  bit.Read (responsive m CR) kExternalOscReady = true.
Proof.
  intros E. cbn [responsive]. rewrite E.
  rewrite (Read_Set v kExternalOscEnable kExternalOscEnable) by (cbn; lia).
  cbn [orb Z.eqb Pos.eqb bit.position kExternalOscEnable
       bit.CreateMaskFromBit].
  match goal with |- context [if ?c then _ else _] => destruct c end;
    rewrite ?Read_Set by (cbn; lia); cbn; auto using orb_true_r.
Qed.


Lemma responsive_pll_ready (m : Reg -> Z) v :
  m CR = bit.Set_ v kPllEnable ->
  bit.Read (responsive m CR) kPllReady = true.
Proof.
  intros E. cbn [responsive]. rewrite E.
  assert (H : forall x, bit.Read x kPllEnable = true ->
                bit.Read (if bit.Read x kPllEnable
                          then bit.Set_ x kPllReady else x) kPllReady = true).
  { intros x ->. rewrite Read_Set by (cbn; lia). reflexivity. }
  apply H.
  match goal with |- context [if ?c then _ else _] => destruct c end;
    rewrite ?Read_Set by (cbn; lia); cbn; auto using orb_true_r.
Qed.

Lemma responsive_low_speed_ready (m : Reg -> Z) v :
  m BDCR = bit.Insert v 1 kLowSpeedOscEnable ->
  bit.Read (responsive m BDCR) kLowSpeedOscReady = true.
Proof.
  intros E. cbn [responsive]. rewrite E.
  assert (H : bit.Read (bit.Insert v 1 kLowSpeedOscEnable)
                       kLowSpeedOscEnable = true).
  { rewrite Read_testbit, testbit_Insert by (cbn; lia). reflexivity. }
  rewrite H, Read_Set by (cbn; lia). reflexivity.
Qed.

Lemma responsive_system_clock_status (m : Reg -> Z) v
    (s : SystemClockSelect) :
  m CFGR = bit.Insert v (Value s) kSystemClockSelect ->
  (bit.Extract (responsive m CFGR) kSystemClockStatus =? Value s) = true.
Proof.
  intros E. cbn [responsive]. rewrite E.
  rewrite !Extract_Insert by (cbn; lia).
  destruct s; reflexivity.
Qed.

(** On hardware that answers at once, [Initialize] returns from every
    configuration, controller and register file, two polls being granted
    to each busy-wait. *)
Lemma stm32_Initialize_completes n config_ this :
  completes (Initialize responsive (S (S n)) config_ this).
Proof.
  unfold Initialize.
  do 5 (apply completes_bind; [apply completes_modify|intros _]).
  apply completes_bind.
  { destruct (negb _); [|apply completes_ret].
    apply completes_modify_poll; [reflexivity|].
    apply responsive_external_ready. }
  intros _. apply completes_bind.
  { destruct (negb _); [|apply completes_ret].
    apply completes_modify_poll; [reflexivity|].
    apply responsive_low_speed_ready. }
  intros _. apply completes_bind.
  { destruct (pll_source config_); apply completes_modify. }
  intros _. apply completes_bind; [apply completes_modify|intros _].
  apply completes_bind.
  { destruct (pll_enable config_); [|apply completes_ret].
    apply completes_bind; [apply completes_modify|intros _].
    apply completes_modify_poll_bind.
    - apply responsive_pll_ready.
    - intros _. apply completes_ret. }
  intros p.
  do 5 (apply completes_bind; [apply completes_modify|intros _]).
  cbv zeta. apply completes_bind.
  { destruct (system_clock config_); try apply completes_ret.
    destruct (p <=? MHz 24); [apply completes_modify|].
    destruct (_ && _); apply completes_modify. }
  intros _. apply completes_modify_poll_bind.
  - intros m v. apply responsive_system_clock_status.
  - intros _.
    do 2 (apply completes_bind; [apply completes_modify|intros _]).
    apply completes_ret.
Qed.

(** A run that returns, on any hardware, and a run on hardware that answers
    at once: [Initialize] leaves the rates of [DerivedRates]. *)
Lemma stm32_Initialize_run tick fuel config_ this b this' b' :
  Initialize tick fuel config_ this b = Ok this' b' ->
  this' = DerivedRates config_ this.
Proof. apply stm32_Initialize_rates. Qed.


(** The rates [GetClockRate] answers for the identities the claims name. *)
Lemma stm32_GetClockRate_cpu this :
  GetClockRate this Peripherals.kCpu = ahb_clock_rate_ this.
Proof. reflexivity. Qed.

Lemma stm32_GetClockRate_usb this :
  GetClockRate this Peripherals.kUsb = usb_clock_rate_ this.
Proof. reflexivity. Qed.

Lemma stm32_GetClockRate_apb1_timer this id :
  In id apb1_timers -> GetClockRate this id = timer_apb1_clock_rate_ this.
Proof.
  unfold apb1_timers. cbn [In]. intros H.
  repeat (destruct H as [<-|H]; [reflexivity|]). destruct H.
Qed.

Lemma stm32_GetClockRate_apb2_timer this id :
  In id apb2_timers -> GetClockRate this id = timer_apb2_clock_rate_ this.
Proof.
  unfold apb2_timers. cbn [In]. intros H.
  repeat (destruct H as [<-|H]; [reflexivity|]). destruct H.
Qed.

(** C1: whenever the PLL is enabled, the PLL rate that [Initialize] derives
    is the frequency of the selected PLL source times the stored multiplier
    code plus two, so that the stored code 0 multiplies by 2; and with an
    8 MHz external oscillator as the PLL source, the multiplier at 9, the
    PLL driving the system clock and the bus dividers at 1, [GetClockRate]
    of the CPU returns 72 MHz.  [Initialize] returns on hardware that
    answers at once, and the rates hold for every run that returns. *)
Theorem stm32_pll_clock_rate :
  (forall n config_ this b,
      exists this' b',
        Initialize responsive (S (S n)) config_ this b = Ok this' b')
  /\ (forall tick fuel config_ this b this' b',
        pll_enable config_ = true ->
        Initialize tick fuel config_ this b = Ok this' b' ->
        pll_clock_rate_ this'
        = pll_input config_ * (Value (pll_multiply config_) + 2))
  /\ Value kMultiplyBy2 = 0
  /\ (forall tick fuel config_ this b this' b',
        high_speed_external config_ = MHz 8 ->
        pll_enable config_ = true ->
        pll_source config_ = Pll_kHighSpeedExternal ->
        pll_multiply config_ = kMultiplyBy9 ->
        system_clock config_ = Sys_kPll ->
        ahb_divider config_ = AHB_kDivideBy1 ->
        ahb_apb1_divider config_ = APB_kDivideBy1 ->
        ahb_apb2_divider config_ = APB_kDivideBy1 ->
        Initialize tick fuel config_ this b = Ok this' b' ->
        GetClockRate this' Peripherals.kCpu = MHz 72).
Proof.
  split; [intros n config_ this b; apply stm32_Initialize_completes|].
  split; [|split; [reflexivity|]].
  - intros tick fuel config_ this b this' b' Hen Hrun.
    rewrite (stm32_Initialize_run _ _ _ _ _ _ _ Hrun).
    cbn [DerivedRates pll_clock_rate_]. rewrite Hen. reflexivity.
  - intros tick fuel config_ this b this' b' Hhse Hen Hsrc Hmul Hsys Hahb _ _
      Hrun.
    rewrite (stm32_Initialize_run _ _ _ _ _ _ _ Hrun).
    rewrite stm32_GetClockRate_cpu. cbn [DerivedRates ahb_clock_rate_].
    unfold pll_input. rewrite Hen, Hsrc, Hmul, Hsys, Hahb, Hhse. reflexivity.
Qed.

Lemma stm32_pll_clock_rate_witness :
  exists this' b',
    Initialize responsive 2 pll_72MHz constructed blank = Ok this' b'
    /\ pll_clock_rate_ this' = MHz 8 * 9
    /\ GetClockRate this' Peripherals.kCpu = MHz 72.
Proof.
  assert (Hrun : Initialize responsive 2 pll_72MHz constructed blank
                 = Ok (DerivedRates pll_72MHz constructed)
                      (bus_of (Initialize responsive 2 pll_72MHz constructed
                                 blank) blank))
    by (vm_compute; reflexivity).
  eexists _, _. split; [exact Hrun|]. split.
  - exact (proj1 (proj2 stm32_pll_clock_rate) responsive 2%nat pll_72MHz
             constructed blank _ _ eq_refl Hrun).
  - exact (proj2 (proj2 (proj2 stm32_pll_clock_rate)) responsive 2%nat
             pll_72MHz constructed blank _ _
             eq_refl eq_refl eq_refl eq_refl eq_refl eq_refl eq_refl eq_refl
             Hrun).
Defined.

(** C4: with no external oscillator, the PLL not enabled, the internal
    oscillator as system clock and the bus dividers at 1, a freshly
    constructed controller answers, after [Initialize], the 8 MHz of the
    internal oscillator for the CPU and exactly 0 for USB.  [Initialize]
    returns on hardware that answers at once, and the rates hold for every
    run that returns. *)
Theorem stm32_internal_oscillator_only :
  forall config_,
    high_speed_external config_ = MHz 0 ->
    low_speed_external config_ = MHz 0 ->
    pll_enable config_ = false ->
    system_clock config_ = Sys_kHighSpeedInternal ->
    ahb_divider config_ = AHB_kDivideBy1 ->
    ahb_apb1_divider config_ = APB_kDivideBy1 ->
    ahb_apb2_divider config_ = APB_kDivideBy1 ->
    (forall n b,
        exists this' b',
          Initialize responsive (S (S n)) config_ constructed b = Ok this' b')
    /\ (forall tick fuel b this' b',
          Initialize tick fuel config_ constructed b = Ok this' b' ->
          GetClockRate this' Peripherals.kCpu = kHighSpeedInternal
          /\ kHighSpeedInternal = 8000000
          /\ GetClockRate this' Peripherals.kUsb = 0).
Proof.
  intros config_ _ _ Hen Hsys Hahb _ _.
  split; [intros n b; apply stm32_Initialize_completes|].
  intros tick fuel b this' b' Hrun.
  rewrite (stm32_Initialize_run _ _ _ _ _ _ _ Hrun).
  rewrite stm32_GetClockRate_cpu, stm32_GetClockRate_usb.
  cbn [DerivedRates ahb_clock_rate_ usb_clock_rate_].
  rewrite Hen, Hsys, Hahb. split; [reflexivity|]. split; [reflexivity|].
  destruct (pll_usb_divider config_); reflexivity.
Qed.

Lemma stm32_internal_oscillator_only_witness :
  exists this' b',
    Initialize responsive 2 default_configuration constructed blank
    = Ok this' b'
    /\ GetClockRate this' Peripherals.kCpu = 8000000
    /\ GetClockRate this' Peripherals.kUsb = 0.
Proof.
  pose proof (stm32_internal_oscillator_only default_configuration
                eq_refl eq_refl eq_refl eq_refl eq_refl eq_refl eq_refl)
    as [Hdone Hrates].
  assert (Hrun : Initialize responsive 2 default_configuration constructed
                   blank
                 = Ok (DerivedRates default_configuration constructed)
                      (bus_of (Initialize responsive 2 default_configuration
                                 constructed blank) blank))
    by (vm_compute; reflexivity).
  eexists _, _. split; [exact Hrun|].
  destruct (Hrates responsive 2%nat blank _ _ Hrun) as (Hc & _ & Hu).
  split; [exact Hc|exact Hu].
Defined.

(** C9: after [Initialize], the APB1 and APB2 buses run at the system
    clock rate of the configuration divided by the AHB divider and by the
    divider of the bus; every timer of the APB1 bus (Timer 2 to 7 and 12 to
    14) runs at the APB1 bus rate when the APB1 divider is 1 and at twice
    that rate for every other APB1 divider; the timers of the APB2 bus
    (Timer 1 and 8 to 11) follow the APB2 divider in the same way.  The bus
    rates are the ones [GetClockRate] answers for an ordinary peripheral of
    the bus.  [Initialize] returns on hardware that answers at once, and
    the rates hold for every run that returns. *)
Theorem stm32_timer_clock_rates :
  (forall n config_ this b,
      exists this' b',
        Initialize responsive (S (S n)) config_ this b = Ok this' b')
  /\ (forall tick fuel config_ this b this' b',
        Initialize tick fuel config_ this b = Ok this' b' ->
        let ahb :=
          fdiv (system_rate config_ this) (ahb_divisor (ahb_divider config_))
        in
        let apb1 := fdiv ahb (apb_divisor (ahb_apb1_divider config_)) in
        let apb2 := fdiv ahb (apb_divisor (ahb_apb2_divider config_)) in
        GetClockRate this' Peripherals.kUsart2 = apb1
        /\ GetClockRate this' Peripherals.kUsart1 = apb2
        /\ (forall id, In id apb1_timers ->
              (ahb_apb1_divider config_ = APB_kDivideBy1 ->
               GetClockRate this' id = apb1)
              /\ (ahb_apb1_divider config_ <> APB_kDivideBy1 ->
                  GetClockRate this' id = apb1 * 2))
        /\ (forall id, In id apb2_timers ->
              (ahb_apb2_divider config_ = APB_kDivideBy1 ->
               GetClockRate this' id = apb2)
              /\ (ahb_apb2_divider config_ <> APB_kDivideBy1 ->
                  GetClockRate this' id = apb2 * 2))).
Proof.
  split; [intros n config_ this b; apply stm32_Initialize_completes|].
  intros tick fuel config_ this b this' b' Hrun ahb apb1 apb2.
  subst ahb apb1 apb2.
  rewrite (stm32_Initialize_run _ _ _ _ _ _ _ Hrun).
  split; [reflexivity|]. split; [reflexivity|]. split.
  - intros id Hid. rewrite (stm32_GetClockRate_apb1_timer _ _ Hid).
    cbn [DerivedRates timer_apb1_clock_rate_].
    split; intros Hd.
    + rewrite Hd. reflexivity.
    + destruct (ahb_apb1_divider config_); [contradiction| | | |];
        reflexivity.
  - intros id Hid. rewrite (stm32_GetClockRate_apb2_timer _ _ Hid).
    cbn [DerivedRates timer_apb2_clock_rate_].
    split; intros Hd.
    + rewrite Hd. reflexivity.
    + destruct (ahb_apb2_divider config_); [contradiction| | | |];
        reflexivity.
Qed.

(** With the AHB bus at 72 MHz, the APB1 bus at half and the APB2 bus at a
    quarter of it: Timer 2 runs at 72 MHz on a bus of 36 MHz, and Timer 1 at
    36 MHz on a bus of 18 MHz. *)
Lemma stm32_timer_clock_rates_witness :
  exists this' b',
    Initialize responsive 2 pll_72MHz_apb_divided constructed blank
    = Ok this' b'
    /\ GetClockRate this' Peripherals.kUsart2 = MHz 36
    /\ GetClockRate this' Peripherals.kTimer2 = MHz 72
    /\ GetClockRate this' Peripherals.kUsart1 = MHz 18
    /\ GetClockRate this' Peripherals.kTimer1 = MHz 36.
Proof.
  assert (Hrun : Initialize responsive 2 pll_72MHz_apb_divided constructed
                   blank
                 = Ok (DerivedRates pll_72MHz_apb_divided constructed)
                      (bus_of (Initialize responsive 2 pll_72MHz_apb_divided
                                 constructed blank) blank))
    by (vm_compute; reflexivity).
  eexists _, _. split; [exact Hrun|].
  destruct (proj2 stm32_timer_clock_rates responsive 2%nat
              pll_72MHz_apb_divided constructed blank _ _ Hrun)
    as (B1 & B2 & H1 & H2).
  split; [exact B1|]. split.
  - exact (proj2 (H1 Peripherals.kTimer2 (or_introl eq_refl))
             ltac:(discriminate)).
  - split; [exact B2|].
    exact (proj2 (H2 Peripherals.kTimer1 (or_introl eq_refl))
             ltac:(discriminate)).
Defined.

(** *** Power gates *)

Lemma Reg_eqb_eq (a b : Reg) : Reg_eqb a b = true <-> a = b.
Proof. destruct a, b; cbn; split; congruence. Qed.

Lemma EnableRegister_gated id :
  (device_id id < Peripherals.kBeyond)%N ->
  exists r, EnableRegister id = Some r.
Proof.
  intros Hd. unfold EnableRegister.
  assert (Hq : (device_id id / kBits < 3)%N).
  { apply N.Div0.div_lt_upper_bound. exact Hd. }
  assert (Hn : (N.to_nat (device_id id / kBits) < 3)%nat).
  { generalize dependent (device_id id / kBits)%N. intros; lia. }
  destruct (N.to_nat (device_id id / kBits)) as [|[|[|k]]];
    cbn; eauto; lia.
Qed.

Lemma EnableBitPosition_range id : 0 <= EnableBitPosition id < 32.
Proof.
  unfold EnableBitPosition.
  pose proof (N.mod_lt (device_id id) kBits ltac:(discriminate)) as H.
  change kBits with 32%N in *.
  generalize dependent (device_id id mod 32)%N. intros; lia.
Qed.

(** Two identities with the same bank and the same bit are the same. *)
Lemma stm32_gate_injective id id' :
  (device_id id / kBits, device_id id mod kBits)%N
  = (device_id id' / kBits, device_id id' mod kBits)%N ->
  id = id'.
Proof.
  intros H. injection H as Hq Hr.
  destruct id as [d], id' as [d']. cbn [device_id] in *. f_equal.
  rewrite (N.div_mod d kBits), (N.div_mod d' kBits) by discriminate.
  rewrite Hq, Hr. reflexivity.
Qed.

Lemma EnableRegister_same_bank id id' r :
  EnableRegister id = Some r -> EnableRegister id' = Some r ->
  (device_id id / kBits = device_id id' / kBits)%N.
Proof.
  unfold EnableRegister. intros H H'.
  assert (E : N.to_nat (device_id id / kBits)
              = N.to_nat (device_id id' / kBits)).
  { destruct (N.to_nat (device_id id / kBits)) as [|[|[|k]]],
      (N.to_nat (device_id id' / kBits)) as [|[|[|k']]];
      cbn in H, H'; try congruence;
      try (destruct k; discriminate); destruct k'; discriminate. }
  apply N2Nat.inj. exact E.
Qed.

Lemma PowerUpPeripheral_run id r b :
  EnableRegister id = Some r ->
  exists b1,
    PowerUpPeripheral id b = Ok tt b1
    /\ forall r',
         mem b1 r' = if Reg_eqb r r'
                     then bit.Set_ (mem b r) (EnableBitPosition id)
                     else mem b r'.
Proof.
  intros E. unfold PowerUpPeripheral. rewrite E.
  eexists. split; [reflexivity|]. intros r'. reflexivity.
Qed.

Lemma PowerDownPeripheral_run id r b :
  EnableRegister id = Some r ->
  exists b1,
    PowerDownPeripheral id b = Ok tt b1
    /\ forall r',
         mem b1 r' = if Reg_eqb r r'
                     then bit.Clear (mem b r) (EnableBitPosition id)
                     else mem b r'.
Proof.
  intros E. unfold PowerDownPeripheral. rewrite E.
  eexists. split; [reflexivity|]. intros r'. reflexivity.
Qed.

Lemma IsPeripheralPoweredUp_run id r b :
  EnableRegister id = Some r ->
  exists b1,
    IsPeripheralPoweredUp id b
    = Ok (bit.Read (mem b r) (EnableBitPosition id)) b1.
Proof.
  intros E. unfold IsPeripheralPoweredUp. rewrite E.
  eexists. reflexivity.
Qed.

(** A gate operation on [id] leaves the bit that [id'] reads. *)
Lemma stm32_other_gate_kept id id' r r' (f : Z -> Z) (m m1 : Reg -> Z) :
  EnableRegister id = Some r -> EnableRegister id' = Some r' ->
  id' <> id ->
  (forall q, 0 <= q < 32 -> q <> EnableBitPosition id ->
             bit.Read (f (m r)) q = bit.Read (m r) q) ->
  (forall x, m1 x = if Reg_eqb r x then f (m r) else m x) ->
  bit.Read (m1 r') (EnableBitPosition id')
  = bit.Read (m r') (EnableBitPosition id').
Proof.
  intros E E' Hne Hf Hm1. rewrite Hm1.
  destruct (Reg_eqb r r') eqn:Er; [|reflexivity].
  apply Reg_eqb_eq in Er. subst r'.
  apply Hf; [apply EnableBitPosition_range|].
  intros Hp. apply Hne. apply stm32_gate_injective. f_equal.
  - exact (EnableRegister_same_bank _ _ _ E' E).
  - unfold EnableBitPosition in Hp. apply N2Z.inj. exact Hp.
Qed.

(** C5, amended: for every identity below [kBeyond], that is on one of the
    three gated buses AHB, APB1 and APB2, [PowerUpPeripheral] followed by
    [IsPeripheralPoweredUp] answers true and [PowerDownPeripheral] followed
    by [IsPeripheralPoweredUp] answers false; a power operation on it leaves
    the answer for every other such identity as it was; and no two
    identities share a bank and a bit position. *)
Theorem stm32_power_gates :
  forall id,
    (device_id id < Peripherals.kBeyond)%N ->
    forall b,
      (exists b1 b2,
          PowerUpPeripheral id b = Ok tt b1
          /\ IsPeripheralPoweredUp id b1 = Ok true b2)
      /\ (exists b1 b2,
            PowerDownPeripheral id b = Ok tt b1
            /\ IsPeripheralPoweredUp id b1 = Ok false b2)
      /\ (forall id',
            (device_id id' < Peripherals.kBeyond)%N -> id' <> id ->
            exists v b0 up b1 down b2,
              IsPeripheralPoweredUp id' b = Ok v b0
              /\ PowerUpPeripheral id b = Ok tt up
              /\ IsPeripheralPoweredUp id' up = Ok v b1
              /\ PowerDownPeripheral id b = Ok tt down
              /\ IsPeripheralPoweredUp id' down = Ok v b2)
      /\ (forall id1 id2,
            (device_id id1 / kBits, device_id id1 mod kBits)%N
            = (device_id id2 / kBits, device_id id2 mod kBits)%N ->
            id1 = id2).
Proof.
  intros id Hd b.
  destruct (EnableRegister_gated id Hd) as (r & E).
  pose proof (EnableBitPosition_range id) as Hp.
  destruct (PowerUpPeripheral_run id r b E) as (up & Hup & Mup).
  destruct (PowerDownPeripheral_run id r b E) as (down & Hdown & Mdown).
  assert (Hrr : Reg_eqb r r = true) by (apply Reg_eqb_eq; reflexivity).
  split; [|split; [|split]].
  - destruct (IsPeripheralPoweredUp_run id r up E) as (b2 & H2).
    exists up, b2. split; [exact Hup|]. rewrite H2. f_equal.
    rewrite Mup, Hrr, Read_Set, Z.eqb_refl by lia. reflexivity.
  - destruct (IsPeripheralPoweredUp_run id r down E) as (b2 & H2).
    exists down, b2. split; [exact Hdown|]. rewrite H2. f_equal.
    rewrite Mdown, Hrr, Read_Clear, Z.eqb_refl by lia. reflexivity.
  - intros id' Hd' Hne.
    destruct (EnableRegister_gated id' Hd') as (r' & E').
    destruct (IsPeripheralPoweredUp_run id' r' b E') as (b0 & H0).
    destruct (IsPeripheralPoweredUp_run id' r' up E') as (b1 & H1).
    destruct (IsPeripheralPoweredUp_run id' r' down E') as (b2 & H2).
    eexists _, b0, up, b1, down, b2.
    split; [exact H0|]. split; [exact Hup|]. split; [|split; [exact Hdown|]].
    + rewrite H1. f_equal.
      apply (stm32_other_gate_kept id id' r r'
               (fun x => bit.Set_ x (EnableBitPosition id))); auto.
      intros q Hq Hqp. rewrite Read_Set by lia.
      destruct (Z.eqb_spec q (EnableBitPosition id)); [contradiction|].
      reflexivity.
    + rewrite H2. f_equal.
      apply (stm32_other_gate_kept id id' r r'
               (fun x => bit.Clear x (EnableBitPosition id))); auto.
      intros q Hq Hqp. rewrite Read_Clear by lia.
      destruct (Z.eqb_spec q (EnableBitPosition id)); [contradiction|].
      reflexivity.
  - intros id1 id2. apply stm32_gate_injective.
Qed.

Lemma stm32_power_gates_witness :
  exists b1 b2,
    PowerUpPeripheral Peripherals.kUsb blank = Ok tt b1
    /\ IsPeripheralPoweredUp Peripherals.kUsb b1 = Ok true b2.
Proof.
  exact (proj1 (stm32_power_gates Peripherals.kUsb eq_refl blank)).
Defined.

(** C5 as stated fails: [kCpu] is one of the identities the family defines,
    and powering it up does not return, the index into [enable] being past
    the end of the array. *)
Lemma stm32_power_up_cpu_counterexample :
  In Peripherals.kCpu Peripherals.all
  /\ ~ (exists b1 b2,
          PowerUpPeripheral Peripherals.kCpu blank = Ok tt b1
          /\ IsPeripheralPoweredUp Peripherals.kCpu b1 = Ok true b2).
Proof.
  split.
  - unfold Peripherals.all. do 48 right. left. reflexivity.
  - intros (b1 & b2 & H & _). discriminate H.
Qed.

(** C2 on the identity one past the last one of the family: [GetClockRate]
    answers 0, whereas [IsPeripheralPoweredUp] reads [enable] out of bounds
    instead of answering false. *)
Theorem stm32_query_past_last_identity :
  ~ In (Define 99) Peripherals.all
  /\ (forall this, GetClockRate this (Define 99) = Hz 0)
  /\ EnableRegister (Define 99) = None
  /\ (forall b, IsPeripheralPoweredUp (Define 99) b = Undefined).
Proof.
  split; [|split; [|split]]; try reflexivity.
  unfold Peripherals.all. cbn [In]. intros H.
  repeat (destruct H as [H|H]; [discriminate H|]). exact H.
Qed.

End stm32f10x_facts.

(** ** msp432p401r *)

Module msp432p401r_facts.
Import Machine Machine_facts bit_facts.
Import msp432p401r msp432p401r_hardware.

Ltac skip_step := cbv zeta; apply returns_seq; intros _.

Lemma ConfigureDcoClock_returns tv c :
  returns (ConfigureDcoClock tv c) (fun f => f = dco_rate c).
Proof.
  unfold ConfigureDcoClock. skip_step. apply returns_ret. reflexivity.
Qed.

Lemma ConfigureReferenceClock_returns c :
  returns (ConfigureReferenceClock c) (fun f => f = reference_rate c).
Proof.
  unfold ConfigureReferenceClock. do 2 skip_step.
  unfold reference_rate.
  destruct (nth_error InternalOscillator.kReference _) as [f|] eqn:E.
  - apply returns_ret. symmetry. apply nth_error_nth. exact E.
  - intros b a b' H. discriminate H.
Qed.

(** Whatever the platform and the hardware, a run of [Initialize] that
    returns leaves the table of [DerivedRates]. *)
Lemma msp432_Initialize_rates host tick fuel tv c this :
  returns (Initialize host tick fuel tv c this)
          (fun r => r = DerivedRates c this).
Proof.
  unfold Initialize. cbv zeta.
  eapply returns_bind; [apply ConfigureDcoClock_returns|].
  intros dco ->.
  eapply returns_bind; [apply ConfigureReferenceClock_returns|].
  intros refo ->.
  do 8 skip_step. apply returns_ret. unfold DerivedRates.
  destruct (auxiliary_clock_source c), (backup_clock_source c); reflexivity.
Qed.

Lemma msp432_Initialize_run host tick fuel tv c this b this' b' :
  Initialize host tick fuel tv c this b = Ok this' b' ->
  this' = DerivedRates c this.
Proof. apply msp432_Initialize_rates. Qed.


(** *** Completion *)

Lemma SetClockSource_completes clock source :
  source_allowed clock source = true ->
  completes (SetClockSource clock source).
Proof.
  intros H. unfold SetClockSource.
  destruct clock; try discriminate H; destruct source; try discriminate H;
    intros b; eexists; eexists; reflexivity.
Qed.

Lemma responsive_ready (m : Reg -> Z) (clock : Clock) :
  Value clock <= Value kBackup ->
  bit.Read (responsive m STAT) (bit.CreateMaskFromBit (24 + Value clock))
  = true.
Proof.
  intros H. cbn [responsive].
  rewrite Read_testbit by (destruct clock; cbn; lia).
  rewrite Z.lor_spec.
  destruct clock; try (cbn in H; lia); apply orb_true_r.
Qed.

Lemma WaitForClockReadyStatus_completes host n clock :
  Value clock <= Value kBackup ->
  completes (WaitForClockReadyStatus host responsive (S (S n)) clock).
Proof.
  intros H. unfold WaitForClockReadyStatus.
  destruct host; [apply completes_ret|].
  apply completes_bind.
  - apply Z.leb_le in H. rewrite H. apply completes_ret.
  - intros _. cbv zeta. apply completes_poll.
    intros m. apply responsive_ready. exact H.
Qed.

Lemma SetClockDivider_completes host n clock divider :
  Value clock <= Value kLowSpeedSubsystemMaster ->
  completes (SetClockDivider host responsive (S (S n)) clock divider).
Proof.
  intros H. unfold SetClockDivider.
  apply completes_bind.
  { apply Z.leb_le in H. rewrite H. apply completes_ret. }
  intros _. cbv zeta.
  apply completes_bind; [apply completes_modify|intros _].
  apply completes_bind.
  { destruct clock; try (cbn in H; lia); apply completes_modify. }
  intros _. apply completes_bind; [apply completes_modify|intros _].
  apply WaitForClockReadyStatus_completes.
  destruct clock; cbn in *; lia.
Qed.

Lemma ConfigureDcoClock_completes tv c :
  (if dco_enabled c
   then (MHz 1 <=? dco_rate c) && (dco_rate c <=? MHz 48)
   else true) = true ->
  completes (ConfigureDcoClock tv c).
Proof.
  intros H. unfold dco_rate in H. unfold ConfigureDcoClock. cbv zeta.
  apply completes_bind; [|intros _; apply completes_ret].
  destruct (dco_enabled c); [|apply completes_ret].
  rewrite H.
  apply completes_bind; [apply completes_ret|intros _].
  apply completes_bind; [apply completes_load|intros k].
  apply completes_bind; [apply completes_load|intros cal].
  apply completes_bind.
  { destruct (MHz 32 <=? _).
    - apply completes_bind; [apply completes_load|intros k5].
      apply completes_bind; [apply completes_load|intros cal5].
      apply completes_ret.
    - repeat match goal with
             | |- context [if ?x then _ else _] => destruct x
             end; apply completes_ret. }
  intros [[sel k'] cal'].
  apply completes_bind; [apply completes_modify|intros _].
  apply completes_bind; [apply completes_load|intros v].
  apply completes_bind; [apply completes_store|intros _].
  apply completes_modify.
Qed.

Lemma ConfigureReferenceClock_completes c :
  0 <= reference_frequency_select c <= 1 ->
  completes (ConfigureReferenceClock c).
Proof.
  intros H. unfold ConfigureReferenceClock. cbv zeta.
  apply completes_bind.
  { replace (reference_frequency_select c <=? 1) with true
      by (symmetry; apply Z.leb_le; lia).
    apply completes_ret. }
  intros _. apply completes_bind; [apply completes_modify|intros _].
  assert (E : reference_frequency_select c = 0
              \/ reference_frequency_select c = 1) by lia.
  destruct E as [-> | ->]; apply completes_ret.
Qed.

(** On hardware that answers at once, [Initialize] returns from every
    accepted configuration, on the host as on the device. *)
Lemma msp432_Initialize_completes host n tv c this :
  accepted c = true ->
  completes (Initialize host responsive (S (S n)) tv c this).
Proof.
  unfold accepted. rewrite !andb_true_iff.
  intros ((((Haux & Hbak) & Hlo) & Hhi) & Hdco).
  apply Z.leb_le in Hlo, Hhi.
  unfold Initialize. cbv zeta.
  apply completes_bind; [apply ConfigureDcoClock_completes, Hdco|].
  intros dco.
  apply completes_bind; [apply ConfigureReferenceClock_completes; lia|].
  intros refo.
  apply completes_bind; [apply SetClockSource_completes, Haux|intros _].
  apply completes_bind; [apply SetClockSource_completes; reflexivity|].
  intros _.
  apply completes_bind; [apply SetClockSource_completes; reflexivity|].
  intros _.
  apply completes_bind; [apply SetClockSource_completes, Hbak|intros _].
  do 4 (apply completes_bind;
        [apply SetClockDivider_completes; cbn; lia|intros _]).
  apply completes_ret.
Qed.

(** *** Fatal assertions *)

Lemma SetClockSource_fatal clock source b :
  source_allowed clock source = false ->
  SetClockSource clock source b = Fatal b.
Proof.
  intros H. destruct clock; try discriminate H;
    destruct source; try discriminate H; reflexivity.
Qed.

Lemma SetClockSource_returns_or_aborts clock source :
  returns_or_aborts (SetClockSource clock source).
Proof.
  destruct (source_allowed clock source) eqn:E.
  - apply completes_returns_or_aborts, SetClockSource_completes, E.
  - intros b. right. exists b. apply SetClockSource_fatal, E.
Qed.

Lemma ConfigureDcoClock_returns_or_aborts tv c :
  returns_or_aborts (ConfigureDcoClock tv c).
Proof.
  destruct (if dco_enabled c
            then (MHz 1 <=? dco_rate c) && (dco_rate c <=? MHz 48)
            else true) eqn:E.
  - apply completes_returns_or_aborts, ConfigureDcoClock_completes, E.
  - apply aborts_returns_or_aborts. unfold dco_rate in E.
    unfold ConfigureDcoClock. cbv zeta.
    destruct (dco_enabled c); [|discriminate E]. rewrite E.
    intros b. exists b. reflexivity.
Qed.

Lemma ConfigureReferenceClock_returns_or_aborts c :
  returns_or_aborts (ConfigureReferenceClock c).
Proof.
  unfold ConfigureReferenceClock. cbv zeta.
  destruct (Z.leb_spec (reference_frequency_select c) 1) as [H|H].
  - apply returns_or_aborts_bind; [apply returns_or_aborts_assert|].
    intros _. apply returns_or_aborts_bind.
    + apply completes_returns_or_aborts, completes_modify.
    + intros _.
      assert (E : (Z.to_nat (reference_frequency_select c) = 0
                   \/ Z.to_nat (reference_frequency_select c) = 1)%nat)
        by lia.
      destruct E as [-> | ->];
        apply completes_returns_or_aborts, completes_ret.
  - apply aborts_returns_or_aborts. intros b. exists b. reflexivity.
Qed.


(** C3 on a recording register file of the host build, from the default
    configuration: [Initialize] returns, and its writes do not keep the key
    protocol.  [ConfigureReferenceClock] writes [CLKEN] and the four calls of
    [SetClockSource] write [CTL1] with no unlock key before and no lock key
    after, whereas [ConfigureDcoClock] and [SetClockDivider] bracket their
    writes of [CTL0] and [CTL1]. *)
Theorem msp432_key_protocol_not_kept :
  let run :=
    Initialize true responsive 0 no_tuning default_configuration constructed
               blank in
  (exists this', run = Ok this' (bus_of run blank))
  /\ stores (log (bus_of run blank))
     = [ (KEY, 0x695A); (CTL0, 8454144); (KEY, 0);
         (CLKEN, 0);
         (CTL1, 512); (CTL1, 515); (CTL1, 563); (CTL1, 4659);
         (KEY, 0x695A); (CTL1, 4659); (KEY, 0);
         (KEY, 0x695A); (CTL1, 4659); (KEY, 0);
         (KEY, 0x695A); (CTL1, 4659); (KEY, 0);
         (KEY, 0x695A); (CTL1, 4659); (KEY, 0) ]
  /\ bracketed (log (bus_of run blank)) = false.
Proof.
  cbv zeta. split; [|split].
  - eexists. vm_compute. reflexivity.
  - vm_compute. reflexivity.
  - vm_compute. reflexivity.
Qed.

(** C6: [SetClockSource] stops in a fatal assertion, before any register
    access, whenever the oscillator is not one the clock may be sourced from:
    anything but the low frequency, very low frequency or reference
    oscillator for the auxiliary clock, anything but the low frequency or
    reference oscillator for the backup clock, and any oscillator for a
    clock that is not primary.  [Initialize] given such a source for the
    auxiliary or the backup clock ends in a fatal assertion, on every
    platform and hardware. *)
Theorem msp432_illegal_source_is_fatal :
  (forall source,
      source_allowed kAuxiliary source = true
      <-> source = kLowFrequency \/ source = kVeryLowFrequency
          \/ source = kReference)
  /\ (forall source,
        source_allowed kBackup source = true
        <-> source = kLowFrequency \/ source = kReference)
  /\ (forall clock source b,
        source_allowed clock source = false ->
        SetClockSource clock source b = Fatal b)
  /\ (forall host tick fuel tv c this b,
        source_allowed kAuxiliary (auxiliary_clock_source c) = false
        \/ source_allowed kBackup (backup_clock_source c) = false ->
        exists b', Initialize host tick fuel tv c this b = Fatal b').
Proof.
  split; [|split; [|split]].
  - intros source. destruct source; cbn; split; intros H;
      try discriminate H; try reflexivity; auto;
      destruct H as [H|[H|H]]; discriminate H.
  - intros source. destruct source; cbn; split; intros H;
      try discriminate H; try reflexivity; auto;
      destruct H as [H|H]; discriminate H.
  - intros clock source b. apply SetClockSource_fatal.
  - intros host tick fuel tv c this b H. revert b.
    change (aborts (Initialize host tick fuel tv c this)).
    unfold Initialize. cbv zeta.
    apply aborts_bind_r; [apply ConfigureDcoClock_returns_or_aborts|].
    intros dco.
    apply aborts_bind_r; [apply ConfigureReferenceClock_returns_or_aborts|].
    intros refo.
    destruct (source_allowed kAuxiliary (auxiliary_clock_source c)) eqn:Ea.
    + destruct H as [H|H]; [discriminate H|].
      do 3 (apply aborts_bind_r;
            [apply SetClockSource_returns_or_aborts|intros _]).
      apply aborts_bind_l. intros b0. exists b0.
      apply SetClockSource_fatal, H.
    + apply aborts_bind_l. intros b0. exists b0.
      apply SetClockSource_fatal, Ea.
Qed.

Lemma msp432_illegal_source_is_fatal_witness :
  SetClockSource kAuxiliary kModule blank = Fatal blank
  /\ exists b',
       Initialize true responsive 2 no_tuning backup_on_high_frequency
         constructed blank = Fatal b'.
Proof.
  split.
  - exact (proj1 (proj2 (proj2 msp432_illegal_source_is_fatal))
             kAuxiliary kModule blank eq_refl).
  - exact (proj2 (proj2 (proj2 msp432_illegal_source_is_fatal))
             true responsive 2%nat no_tuning backup_on_high_frequency
             constructed blank (or_intror eq_refl)).
Defined.

(** C7: the family has no power gates.  For every identity,
    [IsPeripheralPoweredUp] answers false, and [PowerUpPeripheral] and
    [PowerDownPeripheral] stop in a fatal assertion; none of the three
    touches the register file, which is left as it was with no access
    recorded. *)
Theorem msp432_power_gating_unsupported :
  forall id b,
    IsPeripheralPoweredUp id b = Ok false b
    /\ PowerUpPeripheral id b = Fatal b
    /\ PowerDownPeripheral id b = Fatal b.
Proof. intros id b. repeat split. Qed.

Lemma msp432_DerivedRates_length c this :
  List.length (clock_rates_ (DerivedRates c this)) = List.length (clock_rates_ this).
Proof.
  assert (H : forall a i v, List.length (array_set a i v) = List.length a).
  { induction a as [|h t IH]; intros [|i] v; cbn; auto. }
  unfold DerivedRates, set_rate. cbn [clock_rates_]. rewrite !H. reflexivity.
Qed.

(** C10: selecting the source of the subsystem master clock and of the low
    speed subsystem master clock is one and the same operation, a write of
    the field [kSubsystemClockSourceSelect] of [CTL1]; and after
    [Initialize] the rates of the two clocks are the frequency of the one
    configured oscillator, each divided by its own power of two.  For the
    DCO that frequency is the one [ConfigureDcoClock] returns, the target
    cut down to whole kilohertz.  [Initialize] returns from every accepted
    configuration on hardware that answers at once, and the rates hold for
    every run that returns. *)
Theorem msp432_subsystem_clocks_share_source :
  (forall source,
      SetClockSource kSubsystemMaster source
      = SetClockSource kLowSpeedSubsystemMaster source)
  /\ (forall source b,
        exists b',
          SetClockSource kSubsystemMaster source b = Ok tt b'
          /\ mem b' CTL1
             = bit.Insert (mem b CTL1) (Value source)
                 Control1Register.kSubsystemClockSourceSelect)
  /\ (forall host n tv c this b,
        accepted c = true ->
        exists this' b',
          Initialize host responsive (S (S n)) tv c this b = Ok this' b')
  /\ (forall host tick fuel tv c this b this' b',
        List.length (clock_rates_ this) = 10%nat ->
        Initialize host tick fuel tv c this b = Ok this' b' ->
        let source :=
          oscillator_rate c (subsystem_master_clock_source c) in
        GetClockRate this' Modules.kSubsystemMasterClock
        = fdiv source (2 ^ Value (subsystem_master_divider c))
        /\ GetClockRate this' Modules.kLowSpeedSubsystemMasterClock
           = fdiv source (2 ^ Value (subsystem_master_low_speed_divider c)))
  /\ (forall tv c b f b',
        ConfigureDcoClock tv c b = Ok f b' ->
        f = oscillator_rate c kDigitallyControlled
        /\ f = fdiv (dco_frequency c) 1000 * 1000).
Proof.
  split; [reflexivity|]. split; [|split; [|split]].
  - intros source b. eexists. split; reflexivity.
  - intros host n tv c this b H.
    apply msp432_Initialize_completes, H.
  - intros host tick fuel tv c this b this' b' Hlen Hrun source.
    rewrite (msp432_Initialize_run _ _ _ _ _ _ _ _ _ Hrun).
    destruct this as [l].
    cbn [clock_rates_] in Hlen.
    do 10 (destruct l as [|? l]; [discriminate Hlen|]).
    rewrite <- !Z.shiftl_1_l. split; reflexivity.
  - intros tv c b f b' Hrun.
    rewrite (ConfigureDcoClock_returns tv c b f b' Hrun).
    split; reflexivity.
Qed.

(** A device build with the subsystem clocks on the DCO, asked for
    1024003 Hz, and the master clock on the module oscillator: the DCO is
    taken at 1024 kHz, the subsystem master clock runs at half and the low
    speed subsystem master clock at an eighth of it, and the master clock at
    a quarter of 25 MHz. *)
Lemma msp432_subsystem_clocks_share_source_witness :
  exists this' b',
    Initialize false responsive 2 no_tuning divided_configuration constructed
               blank = Ok this' b'
    /\ GetClockRate this' Modules.kSubsystemMasterClock = Hz 512000
    /\ GetClockRate this' Modules.kLowSpeedSubsystemMasterClock = Hz 128000
    /\ GetClockRate this' Modules.kMasterClock = Hz 6250000.
Proof.
  destruct (proj1 (proj2 (proj2 msp432_subsystem_clocks_share_source))
              false 0%nat no_tuning divided_configuration constructed blank
              eq_refl) as (this' & b' & Hrun).
  exists this', b'. split; [exact Hrun|].
  destruct (proj1 (proj2 (proj2 (proj2 msp432_subsystem_clocks_share_source)))
              false responsive 2%nat no_tuning divided_configuration
              constructed blank this' b' eq_refl Hrun) as (H1 & H2).
  split; [exact H1|]. split; [exact H2|].
  rewrite (msp432_Initialize_run _ _ _ _ _ _ _ _ _ Hrun). reflexivity.
Defined.

End msp432p401r_facts.

(** ** The rate tables of both families *)

Module rate_tables.
Import Machine.






End rate_tables.

(** ** Effects of driver code on the register file *)

Module Machine_effects.
Import Machine Machine_facts.

Section Effects.
Context {R : Type}.
Variable R_eqb : R -> R -> bool.
Variable tick : (R -> Z) -> (R -> Z).

Lemma bind_Ok_inv {A B} (m : M R A) (k : A -> M R B) b c b' :
  bind m k b = Ok c b' ->
  exists a b1, m b = Ok a b1 /\ k a b1 = Ok c b'.
Proof.
  unfold bind. destruct (m b) as [a b1| | |]; try discriminate.
  intros H. exists a, b1. split; [reflexivity|exact H].
Qed.

Lemma bind_Ok {A B} (m : M R A) (k : A -> M R B) b a b1 :
  m b = Ok a b1 -> bind m k b = k a b1.
Proof. intros H. unfold bind. rewrite H. reflexivity. Qed.

Lemma bind_Spin {A B} (m : M R A) (k : A -> M R B) b b' :
  m b = Spin b' -> bind m k b = Spin b'.
Proof. intros H. unfold bind. rewrite H. reflexivity. Qed.

Lemma bind_Fatal {A B} (m : M R A) (k : A -> M R B) b b' :
  m b = Fatal b' -> bind m k b = Fatal b'.
Proof. intros H. unfold bind. rewrite H. reflexivity. Qed.

Lemma step_Ok {A B} (m : M R A) (k : A -> M R B) b a b1 o :
  m b = Ok a b1 -> bind m k b = o -> k a b1 = o.
Proof. intros H <-. symmetry. apply bind_Ok, H. Qed.

Lemma step_Spin {A B} (m : M R A) (k : A -> M R B) b b1 o :
  m b = Spin b1 -> bind m k b = o -> o = Spin b1.
Proof. intros H <-. apply bind_Spin, H. Qed.

Lemma step_Fatal {A B} (m : M R A) (k : A -> M R B) b b1 o :
  m b = Fatal b1 -> bind m k b = o -> o = Fatal b1.
Proof. intros H <-. apply bind_Fatal, H. Qed.

Lemma bind_assoc {A B C} (m : M R A) (f : A -> M R B) (g : B -> M R C) b :
  bind (bind m f) g b = bind m (fun a => bind (f a) g) b.
Proof. unfold bind. destruct (m b); reflexivity. Qed.

Lemma stores_app (l1 l2 : list (Event R)) :
  stores (l1 ++ l2) = stores l1 ++ stores l2.
Proof. unfold stores. apply flat_map_app. Qed.

(** A busy-wait only reads. *)
Lemma poll_stores fuel r ready b :
  stores (log (bus_of (poll tick fuel r ready b) b)) = stores (log b).
Proof.
  revert b. induction fuel as [|n IH]; intros b; [reflexivity|].
  cbn [poll]. destruct (ready (mem b r)).
  - cbn [bus_of log]. rewrite stores_app. cbn. apply app_nil_r.
  - match goal with
    | |- context [poll tick n r ready ?b1] => specialize (IH b1)
    end.
    destruct (poll tick n r ready _) as [a b2|b2|b2|] eqn:E;
      cbn [bus_of log] in *; try rewrite IH;
      try (rewrite stores_app; cbn; apply app_nil_r).
    reflexivity.
Qed.

(** A busy-wait never ends in a fatal assertion nor leaves the defined
    behaviour: it returns or it spins. *)
Lemma poll_outcome fuel r ready b :
  (exists b', poll tick fuel r ready b = Ok tt b')
  \/ (exists b', poll tick fuel r ready b = Spin b').
Proof.
  revert b. induction fuel as [|n IH]; intros b.
  - right. exists b. reflexivity.
  - cbn [poll]. destruct (ready (mem b r)); [left; eexists; reflexivity|].
    apply IH.
Qed.

(** [reg = f(reg);] reads [reg] once and writes it once. *)
Lemma modify_run r f b :
  R_eqb r r = true ->
  exists b1,
    modify R_eqb r f b = Ok tt b1
    /\ (forall r', mem b1 r' = if R_eqb r r' then f (mem b r) else mem b r')
    /\ stores (log b1) = stores (log b) ++ [(r, f (mem b r))].
Proof.
  intros Hr. eexists. split; [reflexivity|]. split.
  - intros r'. reflexivity.
  - cbn [log]. rewrite !stores_app. cbn. rewrite app_nil_r. reflexivity.
Qed.

(** A busy-wait that returns has written nothing and found the flag up. *)
Lemma poll_Ok_inv fuel r ready b b' :
  poll tick fuel r ready b = Ok tt b' ->
  stores (log b') = stores (log b) /\ ready (mem b' r) = true.
Proof.
  revert b. induction fuel as [|n IH]; intros b H; [discriminate H|].
  cbn [poll] in H. destruct (ready (mem b r)) eqn:E.
  - injection H as <-. cbn [log mem]. rewrite stores_app. cbn.
    rewrite app_nil_r. auto.
  - apply IH in H. cbn [log mem] in H. rewrite stores_app in H. cbn in H.
    rewrite app_nil_r in H. exact H.
Qed.

Lemma writes_within_Ok {A} (W : R -> bool) (m : M R A) b a b1 :
  writes_within W m -> m b = Ok a b1 ->
  exists w,
    stores (log b1) = stores (log b) ++ w
    /\ Forall (fun e => W (fst e) = true) w.
Proof.
  intros Hm H. destruct (Hm b) as (w & E & F). rewrite H in E.
  exists w. split; assumption.
Qed.

Lemma writes_within_ret {A} (W : R -> bool) (a : A) : writes_within (R:=R) W (ret a).
Proof. intros b. exists []. cbn. rewrite app_nil_r. auto. Qed.

Lemma writes_within_fatal {A} (W : R -> bool) : writes_within (R:=R) W (fatal (A:=A)).
Proof. intros b. exists []. cbn. rewrite app_nil_r. auto. Qed.

Lemma writes_within_undefined {A} (W : R -> bool) :
  writes_within (R:=R) W (undefined (A:=A)).
Proof. intros b. exists []. cbn. rewrite app_nil_r. auto. Qed.

Lemma writes_within_assert (W : R -> bool) c : writes_within (R:=R) W (assert_fatal c).
Proof.
  destruct c; [apply writes_within_ret|apply writes_within_fatal].
Qed.

Lemma writes_within_load (W : R -> bool) r : writes_within W (load r).
Proof.
  intros b. exists []. cbn [load bus_of log].
  rewrite stores_app. cbn. auto.
Qed.

Lemma writes_within_store (W : R -> bool) r v :
  W r = true -> writes_within W (store R_eqb r v).
Proof.
  intros H b. exists [(r, v)]. cbn [store bus_of log].
  rewrite stores_app. cbn. auto.
Qed.

Lemma writes_within_poll (W : R -> bool) fuel r ready :
  writes_within W (poll tick fuel r ready).
Proof.
  intros b. exists []. rewrite poll_stores, app_nil_r. auto.
Qed.

Lemma writes_within_bind {A B} (W : R -> bool) (m : M R A) (k : A -> M R B) :
  writes_within W m -> (forall a, writes_within W (k a)) ->
  writes_within W (bind m k).
Proof.
  intros Hm Hk b. destruct (Hm b) as (w1 & E1 & F1). unfold bind.
  destruct (m b) as [a b1|b1|b1|]; cbn [bus_of] in *;
    try (exists w1; split; assumption).
  destruct (Hk a b1) as (w2 & E2 & F2).
  destruct (k a b1) as [c b2|b2|b2|]; cbn [bus_of] in *.
  - exists (w1 ++ w2). rewrite E2, E1, app_assoc. split; [reflexivity|].
    apply Forall_app; auto.
  - exists (w1 ++ w2). rewrite E2, E1, app_assoc. split; [reflexivity|].
    apply Forall_app; auto.
  - exists (w1 ++ w2). rewrite E2, E1, app_assoc. split; [reflexivity|].
    apply Forall_app; auto.
  - exists []. rewrite app_nil_r. auto.
Qed.

Lemma writes_within_modify (W : R -> bool) r f :
  W r = true -> writes_within W (modify R_eqb r f).
Proof.
  intros H. apply writes_within_bind; [apply writes_within_load|].
  intros v. apply writes_within_store, H.
Qed.

Lemma preserves_ret {A} (r : R) (a : A) : preserves (R:=R) r (ret a).
Proof. intros b a' b' H. injection H as _ <-. reflexivity. Qed.

Lemma preserves_fatal {A} (r : R) : preserves r (fatal (A:=A)).
Proof. intros b a b' H. discriminate H. Qed.

Lemma preserves_undefined {A} (r : R) : preserves r (undefined (A:=A)).
Proof. intros b a b' H. discriminate H. Qed.

Lemma preserves_assert (r : R) c : preserves (R:=R) r (assert_fatal c).
Proof.
  destruct c; [apply preserves_ret|]. intros b a b' H. discriminate H.
Qed.

Lemma preserves_load (r r' : R) : preserves r (load r').
Proof. intros b a b' H. injection H as _ <-. reflexivity. Qed.

Lemma preserves_store (r r' : R) v :
  R_eqb r' r = false -> preserves r (store R_eqb r' v).
Proof.
  intros Hne b a b' H. unfold store in H. injection H as _ <-. cbn.
  rewrite Hne. reflexivity.
Qed.

Lemma preserves_bind {A B} (r : R) (m : M R A) (k : A -> M R B) :
  preserves r m -> (forall a, preserves r (k a)) -> preserves r (bind m k).
Proof.
  intros Hm Hk b c b' H. apply bind_Ok_inv in H.
  destruct H as (a & b1 & H1 & H2).
  rewrite (Hk a _ _ _ H2). exact (Hm _ _ _ H1).
Qed.

Lemma preserves_modify (r r' : R) f :
  R_eqb r' r = false -> preserves r (modify R_eqb r' f).
Proof.
  intros H. apply preserves_bind; [apply preserves_load|].
  intros v. apply preserves_store, H.
Qed.

(** On hardware that never raises a flag that is down, a busy-wait on that
    flag spins whatever the number of polls, and writes nothing. *)
Lemma poll_flag_down fuel r ready b :
  (forall m, ready (m r) = false -> ready (tick m r) = false) ->
  ready (mem b r) = false ->
  exists b', poll tick fuel r ready b = Spin b'
             /\ stores (log b') = stores (log b).
Proof.
  intros Htick. revert b. induction fuel as [|n IH]; intros b H.
  - exists b. split; reflexivity.
  - cbn [poll]. rewrite H.
    match goal with
    | |- context [poll _ n r ready ?b1] =>
        destruct (IH b1 (Htick _ H)) as (b' & E & L)
    end.
    exists b'. split; [exact E|]. rewrite L. cbn [log].
    rewrite stores_app. cbn. apply app_nil_r.
Qed.

Lemma writes_to_ret {A} (a : A) : writes_to (@nil R) (ret a).
Proof. intros b a' b' H. injection H as _ <-. symmetry. apply app_nil_r. Qed.

Lemma writes_to_fatal {A} (l : list R) : writes_to l (fatal (A:=A)).
Proof. intros b a b' H. discriminate H. Qed.

Lemma writes_to_undefined {A} (l : list R) :
  writes_to l (undefined (A:=A)).
Proof. intros b a b' H. discriminate H. Qed.

Lemma writes_to_assert c : writes_to (@nil R) (assert_fatal c).
Proof. destruct c; [apply writes_to_ret|apply writes_to_fatal]. Qed.

Lemma writes_to_load (r : R) : writes_to (@nil R) (load r).
Proof.
  intros b a b' H. injection H as _ <-. cbn [log].
  rewrite stores_app. cbn. rewrite !app_nil_r. reflexivity.
Qed.

Lemma writes_to_store r v : writes_to [r] (store R_eqb r v).
Proof.
  intros b a b' H. unfold store in H. injection H as _ <-. cbn [log].
  rewrite stores_app, map_app. reflexivity.
Qed.

Lemma writes_to_bind {A B} l1 l2 (m : M R A) (k : A -> M R B) :
  writes_to l1 m -> (forall a, writes_to l2 (k a)) ->
  writes_to (l1 ++ l2) (bind m k).
Proof.
  intros Hm Hk b c b' H. apply bind_Ok_inv in H.
  destruct H as (a & b1 & H1 & H2).
  rewrite (Hk a _ _ _ H2), (Hm _ _ _ H1). symmetry. apply app_assoc.
Qed.

Lemma writes_to_modify r f : writes_to [r] (modify R_eqb r f).
Proof.
  apply (writes_to_bind [] [r]); [apply writes_to_load|].
  intros v. apply writes_to_store.
Qed.

End Effects.

End Machine_effects.

Module bit_fields.
Import bit bit_layout bit_facts.

Lemma Extract_Insert_apart (t v : Z) (m m' : Mask) :
  field m -> field m' -> apart m m' ->
  Extract (Insert t v m) m' = Extract t m'.
Proof.
  intros (Hp & Hw & Hm) (Hp' & Hw' & Hm') Ha.
  apply Z.bits_inj'. intros i Hi.
  rewrite !testbit_Extract by lia.
  destruct (Z.ltb_spec i (width m')) as [Hin|Hout]; [|reflexivity].
  cbn [andb]. rewrite testbit_Insert by lia.
  destruct (Z.leb_spec (position m) (i + position m')); cbn [andb];
    [|reflexivity].
  destruct (Z.ltb_spec (i + position m') (position m + width m));
    [|reflexivity].
  unfold apart in Ha. lia.
Qed.

Lemma Extract_small (t v : Z) (m : Mask) :
  field m -> 0 <= v < 2 ^ width m ->
  Extract (Insert t v m) m = v.
Proof.
  intros (Hp & Hw & Hm) Hv. rewrite Extract_Insert by lia.
  rewrite Z.land_ones by lia. apply Z.mod_small. exact Hv.
Qed.


Lemma Read_Insert_outside (t v : Z) (m : Mask) (q : Z) :
  0 <= position m -> 0 <= width m -> 0 <= q < 32 ->
  q < position m \/ position m + width m <= q ->
  Read (Insert t v m) q = Read t q.
Proof.
  intros Hp Hw Hq Hout. rewrite !Read_testbit by lia.
  rewrite testbit_Insert by lia.
  destruct (Z.leb_spec (position m) q); cbn [andb]; [|reflexivity].
  destruct (Z.ltb_spec q (position m + width m)); [lia|reflexivity].
Qed.

Lemma Read_Insert_bit (t v p : Z) :
  0 <= p < 32 ->
  Read (Insert t v (CreateMaskFromBit p)) p = Z.testbit v 0.
Proof.
  intros Hp. rewrite Read_testbit by lia.
  rewrite testbit_Insert by (cbn; lia). cbn [position width CreateMaskFromBit].
  replace (p <=? p) with true by (symmetry; apply Z.leb_le; lia).
  replace (p <? p + 1) with true by (symmetry; apply Z.ltb_lt; lia).
  cbn [andb]. f_equal. lia.
Qed.

End bit_fields.

(** ** stm32f10x: the rates answered *)

Module stm32f10x_rates.
Import Machine Machine_facts bit_facts.
Import stm32f10x stm32f10x_hardware stm32f10x_facts.

Lemma one_of_past id l :
  Forall (fun k => (device_id k < device_id id)%N) l -> one_of id l = false.
Proof.
  unfold one_of. induction 1 as [|k l Hk _ IH]; [reflexivity|].
  cbn [existsb]. rewrite IH, orb_false_r. apply N.eqb_neq.
  intros E. rewrite E in Hk. exact (N.lt_irrefl _ Hk).
Qed.

(** X1: an identity past [kI2s], the last one of the family, has the clock
    rate 0 on every controller. *)
Theorem stm32_GetClockRate_past_last this id :
  (device_id Peripherals.kI2s < device_id id)%N ->
  GetClockRate this id = Hz 0.
Proof.
  intros H. change (device_id Peripherals.kI2s) with 98%N in H.
  unfold GetClockRate.
  rewrite !one_of_past
    by (repeat constructor; cbn [device_id];
        match goal with |- (?k < _)%N =>
          apply N.le_lt_trans with (m := 98%N); [discriminate|exact H]
        end).
  change Peripherals.kAPB1 with 32%N.
  change Peripherals.kAPB2 with 64%N.
  change Peripherals.kBeyond with 96%N.
  destruct (N.ltb_spec (device_id id) 32); [lia|].
  destruct (N.ltb_spec (device_id id) 64); [lia|].
  destruct (N.ltb_spec (device_id id) 96); [lia|].
  rewrite !andb_false_r. reflexivity.
Qed.

Lemma stm32_GetClockRate_past_last_witness :
  GetClockRate (DerivedRates pll_72MHz constructed) (Define 99) = Hz 0.
Proof.
  exact (stm32_GetClockRate_past_last _ (Define 99) eq_refl).
Defined.

(** X2: every [PllMultiply] enumerator multiplies by the factor in its
    name: with the PLL enabled, the rate [Initialize] derives for the PLL,
    which [GetClockRate] answers for [kI2s], is that factor times the
    frequency of the selected source. *)
Theorem stm32_pll_multiplier_by_name :
  forall tick fuel config_ this b this' b',
    pll_enable config_ = true ->
    Initialize tick fuel config_ this b = Ok this' b' ->
    Value (pll_multiply config_) + 2 = multiplier (pll_multiply config_)
    /\ GetClockRate this' Peripherals.kI2s
       = pll_input config_ * multiplier (pll_multiply config_).
Proof.
  intros tick fuel config_ this b this' b' Hen Hrun.
  split; [destruct (pll_multiply config_); reflexivity|].
  rewrite (stm32_Initialize_run _ _ _ _ _ _ _ Hrun).
  change (GetClockRate ?t Peripherals.kI2s) with (pll_clock_rate_ t).
  cbn [DerivedRates pll_clock_rate_]. rewrite Hen.
  destruct (pll_multiply config_); reflexivity.
Qed.

Lemma stm32_pll_multiplier_by_name_witness :
  GetClockRate (DerivedRates pll_72MHz constructed) Peripherals.kI2s
  = MHz 8 * 9.
Proof.
  assert (Hrun : Initialize responsive 2 pll_72MHz constructed blank
                 = Ok (DerivedRates pll_72MHz constructed)
                      (bus_of (Initialize responsive 2 pll_72MHz constructed
                                 blank) blank))
    by (vm_compute; reflexivity).
  exact (proj2 (stm32_pll_multiplier_by_name responsive 2%nat pll_72MHz
                  constructed blank _ _ eq_refl Hrun)).
Defined.

Lemma fdiv_bounds (a d : Z) : 0 <= a -> 0 < d -> 0 <= fdiv a d <= a.
Proof.
  intros Ha Hd. unfold fdiv. rewrite Z.quot_div_nonneg by lia.
  split; [apply Z.div_pos; lia|].
  apply Z.div_le_upper_bound; nia.
Qed.

Lemma fdiv_twice (a d : Z) : 0 <= a -> 2 <= d -> fdiv a d * 2 <= a.
Proof.
  intros Ha Hd. unfold fdiv. rewrite Z.quot_div_nonneg by lia.
  pose proof (Z.mul_div_le a d ltac:(lia)) as H1.
  assert (0 <= a / d) by (apply Z.div_pos; lia). nia.
Qed.

(** The rate of an identity of the three buses is one of six members. *)
Lemma stm32_GetClockRate_on_bus this id :
  (device_id id < Peripherals.kBeyond)%N ->
  one_of id [Peripherals.kUsb] = false ->
  one_of id [Peripherals.kFlitf] = false ->
  In (GetClockRate this id)
     [ ahb_clock_rate_ this; apb1_clock_rate_ this; apb2_clock_rate_ this;
       timer_apb1_clock_rate_ this; timer_apb2_clock_rate_ this;
       adc_clock_rate_ this ].
Proof.
  intros Hd Hu Hf. unfold GetClockRate. rewrite Hu, Hf.
  assert (Hi : one_of id [Peripherals.kI2s] = false).
  { unfold one_of. cbn [existsb]. rewrite orb_false_r. apply N.eqb_neq.
    change (device_id Peripherals.kI2s) with 98%N.
    change Peripherals.kBeyond with 96%N in Hd. lia. }
  rewrite Hi. cbn [In].
  repeat match goal with
         | |- context [if one_of ?i ?l then _ else _] =>
             destruct (one_of i l); [auto 10|]
         end.
  change Peripherals.kAPB2 with 64%N in *.
  change Peripherals.kBeyond with 96%N in *.
  change Peripherals.kAPB1 with 32%N in *.
  destruct (N.ltb_spec (device_id id) 32); [auto 10|].
  destruct (N.leb_spec 32 (device_id id)); [|lia].
  destruct (N.ltb_spec (device_id id) 64); [cbn; auto 10|].
  destruct (N.leb_spec 64 (device_id id)); [|lia].
  destruct (N.ltb_spec (device_id id) 96); [cbn; auto 10|lia].
Qed.

(** X3: with the external oscillator frequency and the PLL rate held before
    the call not negative, no peripheral of the AHB, APB1 and APB2 buses is
    clocked faster than the CPU after [Initialize], USB and the flash
    interface apart, whose rates do not come from the AHB clock; and no
    rate is negative. *)
Theorem stm32_bus_rates_bounded_by_cpu :
  forall tick fuel config_ this b this' b' id,
    0 <= high_speed_external config_ ->
    0 <= pll_clock_rate_ this ->
    Initialize tick fuel config_ this b = Ok this' b' ->
    (device_id id < Peripherals.kBeyond)%N ->
    id <> Peripherals.kUsb -> id <> Peripherals.kFlitf ->
    0 <= GetClockRate this' id <= GetClockRate this' Peripherals.kCpu.
Proof.
  intros tick fuel config_ this b this' b' id Hhse Hpll Hrun Hd Hu Hf.
  assert (Hone : forall k, id <> k -> one_of id [k] = false).
  { intros k Hk. unfold one_of. cbn [existsb]. rewrite orb_false_r.
    apply N.eqb_neq. intros E. apply Hk.
    destruct id, k. cbn in E. congruence. }
  pose proof (stm32_GetClockRate_on_bus this' id Hd (Hone _ Hu) (Hone _ Hf))
    as Hin.
  rewrite stm32_GetClockRate_cpu.
  rewrite (stm32_Initialize_run _ _ _ _ _ _ _ Hrun) in *.
  clear Hrun Hone Hu Hf Hd.
  cbn [DerivedRates ahb_clock_rate_ apb1_clock_rate_ apb2_clock_rate_
       timer_apb1_clock_rate_ timer_apb2_clock_rate_ adc_clock_rate_] in *.
  set (pll := if pll_enable config_ then _ else _) in *.
  assert (Hp : 0 <= pll).
  { subst pll. destruct (pll_enable config_); [|exact Hpll].
    apply Z.mul_nonneg_nonneg; [|destruct (pll_multiply config_); cbn; lia].
    unfold pll_input.
    destruct (pll_source config_);
      try apply fdiv_bounds; try exact Hhse; cbn; lia. }
  set (sys := match system_clock config_ with
              | Sys_kHighSpeedInternal => _
              | Sys_kHighSpeedExternal => _
              | Sys_kPll => _
              end) in *.
  assert (Hs : 0 <= sys).
  { subst sys. destruct (system_clock config_); cbn; lia. }
  set (ahb := fdiv sys _) in *.
  assert (Ha : 0 <= ahb).
  { apply fdiv_bounds; [exact Hs|].
    destruct (ahb_divider config_); cbn; lia. }
  assert (H1 : forall d, 0 <= fdiv ahb (apb_divisor d) <= ahb).
  { intros d. apply fdiv_bounds; [exact Ha|]. destruct d; cbn; lia. }
  assert (H2 : forall d, d <> APB_kDivideBy1 ->
                         fdiv ahb (apb_divisor d) * 2 <= ahb).
  { intros d Hd. apply fdiv_twice; [exact Ha|].
    destruct d; cbn; try lia. contradiction. }
  pose proof (H1 (ahb_apb1_divider config_)) as B1.
  pose proof (H1 (ahb_apb2_divider config_)) as B2.
  pose proof (H2 (ahb_apb1_divider config_)) as T1.
  pose proof (H2 (ahb_apb2_divider config_)) as T2.
  assert (Hadc : 0 <= fdiv (fdiv ahb (apb_divisor (ahb_apb2_divider config_)))
                           (adc_divisor (ahb_apb2_adc_divider config_))
                 <= fdiv ahb (apb_divisor (ahb_apb2_divider config_))).
  { apply fdiv_bounds; [lia|].
    destruct (ahb_apb2_adc_divider config_); cbn; lia. }
  cbn [In] in Hin.
  destruct Hin as [<-|[<-|[<-|[<-|[<-|[<-|[]]]]]]]; try lia.
  - destruct (ahb_apb1_divider config_); try lia;
      (split; [lia|apply T1; discriminate]).
  - destruct (ahb_apb2_divider config_); try lia;
      (split; [lia|apply T2; discriminate]).
Qed.

Lemma stm32_bus_rates_bounded_by_cpu_witness :
  0 <= GetClockRate (DerivedRates pll_72MHz constructed) Peripherals.kTimer2
    <= GetClockRate (DerivedRates pll_72MHz constructed) Peripherals.kCpu.
Proof.
  assert (Hrun : Initialize responsive 2 pll_72MHz constructed blank
                 = Ok (DerivedRates pll_72MHz constructed)
                      (bus_of (Initialize responsive 2 pll_72MHz constructed
                                 blank) blank))
    by (vm_compute; reflexivity).
  refine (stm32_bus_rates_bounded_by_cpu responsive 2%nat pll_72MHz
            constructed blank _ _ Peripherals.kTimer2 _ _ Hrun eq_refl _ _);
    try discriminate.
Defined.

End stm32f10x_rates.

(** ** stm32f10x: the sequence of Initialize *)

Module stm32f10x_sequencer.
Import Machine Machine_facts Machine_effects bit_facts.
Import stm32f10x stm32f10x_hardware stm32f10x_facts.
Import ClockConfigurationRegisters ClockControlRegisters RtcRegisters.

(** X4: with the PLL not enabled, [Initialize] leaves the PLL rate as the
    controller held it before the call, and derives the USB rate from that
    held rate; on a freshly constructed controller both are 0. *)
Theorem stm32_pll_rate_kept_when_disabled :
  forall tick fuel config_ this b this' b',
    pll_enable config_ = false ->
    Initialize tick fuel config_ this b = Ok this' b' ->
    GetClockRate this' Peripherals.kI2s = GetClockRate this Peripherals.kI2s
    /\ GetClockRate this' Peripherals.kUsb
       = match pll_usb_divider config_ with
         | Usb_kDivideBy1 => GetClockRate this Peripherals.kI2s
         | kDivideBy1Point5 =>
             fdiv (GetClockRate this Peripherals.kI2s * 2) 3
         end
    /\ (system_clock config_ = Sys_kPll ->
        ahb_divider config_ = AHB_kDivideBy1 ->
        GetClockRate this' Peripherals.kCpu
        = GetClockRate this Peripherals.kI2s).
Proof.
  intros tick fuel config_ this b this' b' Hen Hrun.
  rewrite (stm32_Initialize_run _ _ _ _ _ _ _ Hrun).
  change (GetClockRate ?t Peripherals.kI2s) with (pll_clock_rate_ t).
  change (GetClockRate ?t Peripherals.kUsb) with (usb_clock_rate_ t).
  change (GetClockRate ?t Peripherals.kCpu) with (ahb_clock_rate_ t).
  cbn [DerivedRates pll_clock_rate_ usb_clock_rate_ ahb_clock_rate_].
  rewrite Hen. split; [reflexivity|]. split; [reflexivity|].
  intros -> ->. cbn [ahb_divisor]. unfold fdiv. apply Z.quot_1_r.
Qed.

Lemma stm32_pll_rate_kept_when_disabled_witness :
  GetClockRate
    (DerivedRates default_configuration (DerivedRates pll_72MHz constructed))
    Peripherals.kI2s = MHz 72.
Proof.
  assert (Hrun : Initialize responsive 2 default_configuration
                   (DerivedRates pll_72MHz constructed) blank
                 = Ok (DerivedRates default_configuration
                         (DerivedRates pll_72MHz constructed))
                      (bus_of (Initialize responsive 2 default_configuration
                                 (DerivedRates pll_72MHz constructed) blank)
                              blank))
    by (vm_compute; reflexivity).
  exact (proj1 (stm32_pll_rate_kept_when_disabled responsive 2%nat
                  default_configuration (DerivedRates pll_72MHz constructed)
                  blank _ _ eq_refl Hrun)).
Defined.

Lemma stm32_modify_run r f b :
  exists b1,
    modify r f b = Ok tt b1
    /\ (forall r', mem b1 r' = if Reg_eqb r r' then f (mem b r) else mem b r')
    /\ stores (log b1) = stores (log b) ++ [(r, f (mem b r))].
Proof. apply modify_run. destruct r; reflexivity. Qed.

(** One step of a run [E : bind (modify r f) k b = o]. *)
Ltac run_modify E :=
  lazymatch type of E with
  | Machine.bind (modify ?r ?f) ?k ?b = _ =>
      let b1 := fresh "b" in
      let H := fresh "H" in
      let Hm := fresh "Hm" in
      let Hl := fresh "Hl" in
      destruct (stm32_modify_run r f b) as (b1 & H & Hm & Hl);
      apply (step_Ok _ _ _ _ _ _ H) in E; clear H; cbv beta in E
  end.

(** Registers and writes of the buses met so far, in terms of the first. *)
Ltac mem_back :=
  repeat match goal with
         | H : forall r', mem ?b1 r' = _ |- context [mem ?b1 ?r] =>
             rewrite (H r); cbn [Reg_eqb]
         end.

Ltac stores_back :=
  repeat match goal with
         | H : stores (log ?b1) = _ |- context [stores (log ?b1)] =>
             rewrite H
         end.

(** X5: when an external oscillator is configured and its ready flag is
    down and the hardware, whatever else it does, never raises it,
    [Initialize] does not return, however many polls it is granted: it is
    still in its first busy-wait, having written [CFGR], [BDCR] and [CR]
    only. *)
Theorem stm32_Initialize_waits_for_oscillator :
  forall tick fuel config_ this b,
    (forall m, bit.Read (m CR) kExternalOscReady = false ->
               bit.Read (tick m CR) kExternalOscReady = false) ->
    high_speed_external config_ <> MHz 0 ->
    bit.Read (mem b CR) kExternalOscReady = false ->
    exists b',
      Initialize tick fuel config_ this b = Spin b'
      /\ map fst (stores (log b'))
         = map fst (stores (log b)) ++ [CFGR; BDCR; BDCR; CR; CR; CR].
Proof.
  intros tick fuel config_ this b Htick Hhse Hready.
  apply Z.eqb_neq in Hhse.
  remember (Initialize tick fuel config_ this b) as o eqn:E.
  symmetry in E. unfold Initialize in E. rewrite Hhse in E. cbn [negb] in E.
  do 5 run_modify E.
  rewrite bind_assoc in E. run_modify E.
  match type of E with
  | Machine.bind (poll _ _ ?r ?rd) _ ?b6 = _ =>
      destruct (poll_flag_down tick fuel r rd b6) as (b' & Hs & L)
  end.
  { exact Htick. }
  { mem_back. rewrite Read_Set, !Read_Clear by (cbn; lia).
    rewrite Hready. reflexivity. }
  apply (step_Spin _ _ _ _ _ Hs) in E. subst o.
  exists b'. split; [reflexivity|].
  rewrite L. stores_back. rewrite !map_app. cbn [map fst].
  rewrite <- !app_assoc. reflexivity.
Qed.

(** A board with no crystal fitted, where every other flag answers at once,
    and a hardware that does nothing at all. *)
Lemma stm32_Initialize_waits_for_oscillator_witness :
  (exists b',
     Initialize no_crystal 1000 pll_72MHz constructed blank = Spin b'
     /\ map fst (stores (log b')) = [CFGR; BDCR; BDCR; CR; CR; CR])
  /\ (exists b', Initialize dead 1000 pll_72MHz constructed blank = Spin b').
Proof.
  split.
  - apply (stm32_Initialize_waits_for_oscillator no_crystal 1000 pll_72MHz
             constructed blank).
    + intros m _. cbn [no_crystal]. rewrite Read_Clear by (cbn; lia).
      reflexivity.
    + discriminate.
    + reflexivity.
  - destruct (stm32_Initialize_waits_for_oscillator dead 1000 pll_72MHz
                constructed blank (fun m H => H) ltac:(discriminate) eq_refl)
      as (b' & H & _).
    exists b'. exact H.
Defined.


Ltac frame_steps :=
  repeat (cbv zeta;
          first
            [ apply writes_within_ret
            | apply writes_within_modify; reflexivity
            | apply writes_within_poll
            | apply writes_within_bind; [|intros ?]
            | match goal with
              | |- writes_within _ (if ?c then _ else _) => destruct c
              | |- writes_within _ (match ?c with _ => _ end) => destruct c
              end ]).

(** X6: however [Initialize] ends, returning or still waiting, on whatever
    hardware, every write it has made went to [CR], [CFGR], [BDCR] or the
    flash [ACR]: it never writes a peripheral enable register, so that the
    power gates are not disturbed by configuring the clocks. *)
Theorem stm32_Initialize_writes_clock_registers_only :
  forall tick fuel config_ this b,
    exists w,
      stores (log (bus_of (Initialize tick fuel config_ this b) b))
      = stores (log b) ++ w
      /\ Forall (fun e => In (fst e) [CR; CFGR; BDCR; ACR]) w.
Proof.
  intros tick fuel config_ this b.
  assert (H : writes_within clock_register
                (Initialize tick fuel config_ this)).
  { unfold Initialize. frame_steps. }
  destruct (H b) as (w & E & F). exists w. split; [exact E|].
  eapply Forall_impl; [|exact F].
  intros [r v]. cbn [fst In]. destruct r; cbn; intros Hr;
    try discriminate Hr; auto.
Qed.

End stm32f10x_sequencer.

(** ** stm32f10x: the power gates *)

Module stm32f10x_gates.
Import Machine Machine_facts Machine_effects bit_facts.
Import stm32f10x stm32f10x_hardware stm32f10x_facts.

(** X7: powering up A, then B, then powering down A leaves B powered up and
    A powered down, for any two different identities of the gated buses
    and from any register file. *)
Theorem stm32_power_up_two_down_one :
  forall A B b,
    (device_id A < Peripherals.kBeyond)%N ->
    (device_id B < Peripherals.kBeyond)%N ->
    A <> B ->
    exists b1 b2 b3 b4 b5,
      PowerUpPeripheral A b = Ok tt b1
      /\ PowerUpPeripheral B b1 = Ok tt b2
      /\ PowerDownPeripheral A b2 = Ok tt b3
      /\ IsPeripheralPoweredUp B b3 = Ok true b4
      /\ IsPeripheralPoweredUp A b3 = Ok false b5.
Proof.
  intros A B b HA HB Hne.
  destruct (EnableRegister_gated A HA) as (rA & EA).
  destruct (EnableRegister_gated B HB) as (rB & EB).
  pose proof (EnableBitPosition_range A) as HpA.
  pose proof (EnableBitPosition_range B) as HpB.
  destruct (PowerUpPeripheral_run A rA b EA) as (b1 & H1 & _).
  destruct (PowerUpPeripheral_run B rB b1 EB) as (b2 & H2 & M2).
  destruct (PowerDownPeripheral_run A rA b2 EA) as (b3 & H3 & M3).
  destruct (IsPeripheralPoweredUp_run B rB b3 EB) as (b4 & H4).
  destruct (IsPeripheralPoweredUp_run A rA b3 EA) as (b5 & H5).
  exists b1, b2, b3, b4, b5.
  split; [exact H1|]. split; [exact H2|]. split; [exact H3|].
  assert (HrA : Reg_eqb rA rA = true) by (apply Reg_eqb_eq; reflexivity).
  assert (HrB : Reg_eqb rB rB = true) by (apply Reg_eqb_eq; reflexivity).
  split.
  - rewrite H4. f_equal.
    rewrite (stm32_other_gate_kept A B rA rB
               (fun x => bit.Clear x (EnableBitPosition A))
               (mem b2) (mem b3) EA EB); auto.
    + rewrite M2, HrB, Read_Set, Z.eqb_refl by lia. reflexivity.
    + intros q Hq Hqp. rewrite Read_Clear by lia.
      destruct (Z.eqb_spec q (EnableBitPosition A)); [contradiction|].
      reflexivity.
  - rewrite H5. f_equal.
    rewrite M3, HrA, Read_Clear, Z.eqb_refl by lia. reflexivity.
Qed.

Lemma stm32_power_up_two_down_one_witness :
  exists b3 b4 b5,
    Machine.bind (PowerUpPeripheral Peripherals.kUsart2)
      (fun _ => Machine.bind (PowerUpPeripheral Peripherals.kGpioA)
         (fun _ => PowerDownPeripheral Peripherals.kUsart2)) blank
    = Ok tt b3
    /\ IsPeripheralPoweredUp Peripherals.kGpioA b3 = Ok true b4
    /\ IsPeripheralPoweredUp Peripherals.kUsart2 b3 = Ok false b5.
Proof.
  destruct (stm32_power_up_two_down_one Peripherals.kUsart2
              Peripherals.kGpioA blank eq_refl eq_refl ltac:(discriminate))
    as (b1 & b2 & b3 & b4 & b5 & H1 & H2 & H3 & H4 & H5).
  exists b3, b4, b5.
  rewrite (bind_Ok _ _ _ _ _ H1), (bind_Ok _ _ _ _ _ H2). auto.
Defined.

(** X8: a power operation on an identity of the gated buses reads its
    enable register once and writes it once; it leaves every other register
    as it is, and in its enable register every bit but the one of the
    identity. *)
Theorem stm32_power_operation_frame :
  forall id b,
    (device_id id < Peripherals.kBeyond)%N ->
    exists r up down vu vd,
      In r enable
      /\ PowerUpPeripheral id b = Ok tt up
      /\ PowerDownPeripheral id b = Ok tt down
      /\ log up = log b ++ [Load r (mem b r); Store r vu]
      /\ log down = log b ++ [Load r (mem b r); Store r vd]
      /\ (forall r', r' <> r ->
                     mem up r' = mem b r' /\ mem down r' = mem b r')
      /\ (forall q, 0 <= q < 32 -> q <> EnableBitPosition id ->
                    bit.Read (mem up r) q = bit.Read (mem b r) q
                    /\ bit.Read (mem down r) q = bit.Read (mem b r) q).
Proof.
  intros id b Hd.
  destruct (EnableRegister_gated id Hd) as (r & E).
  pose proof (EnableBitPosition_range id) as Hp.
  exists r. unfold PowerUpPeripheral, PowerDownPeripheral. rewrite E.
  eexists _, _, _, _.
  split.
  { unfold EnableRegister in E. apply nth_error_In in E. exact E. }
  split; [reflexivity|]. split; [reflexivity|].
  split; [cbn [log]; rewrite <- app_assoc; reflexivity|].
  split; [cbn [log]; rewrite <- app_assoc; reflexivity|].
  split.
  - intros r' Hr. cbn [mem].
    destruct (Reg_eqb r r') eqn:Er; [|auto].
    apply Reg_eqb_eq in Er. congruence.
  - intros q Hq Hqp. cbn [mem].
    replace (Reg_eqb r r) with true by (destruct r; reflexivity).
    rewrite Read_Set, Read_Clear by lia.
    destruct (Z.eqb_spec q (EnableBitPosition id)); [contradiction|].
    auto.
Qed.

Lemma stm32_power_operation_frame_witness :
  exists up,
    PowerUpPeripheral Peripherals.kUsb blank = Ok tt up
    /\ mem up CFGR = mem blank CFGR.
Proof.
  destruct (stm32_power_operation_frame Peripherals.kUsb blank eq_refl)
    as (r & up & down & vu & vd & Hr & Hu & _ & _ & _ & Hf & _).
  exists up. split; [exact Hu|].
  apply Hf. intros H. subst r. cbn in Hr.
  destruct Hr as [H|[H|[H|[]]]]; discriminate H.
Defined.

End stm32f10x_gates.

(** ** stm32f10x: the registers Initialize programs *)

Module stm32f10x_registers.
Import Machine Machine_facts Machine_effects bit_facts bit_layout bit_fields.
Import stm32f10x stm32f10x_hardware stm32f10x_facts stm32f10x_sequencer.
Import ClockConfigurationRegisters ClockControlRegisters RtcRegisters.

(** One step of a returning run whose effect is only framed: the bus
    after it is [b1], and [Hl], [Hw] say what was written. *)
Ltac peel_framed E b1 w Hl Hw :=
  let a := fresh "a" in
  let H := fresh "H" in
  apply bind_Ok_inv in E; destruct E as (a & b1 & H & E);
  apply (writes_within_Ok rcc_register) in H;
  [destruct H as (w & Hl & Hw)|frame_steps].

(** One step [reg = f(reg);] of a run, with names for what it leaves. *)
Ltac run_modify_as E b1 Hm Hl :=
  lazymatch type of E with
  | Machine.bind (modify ?r ?f) ?k ?b = _ =>
      let H := fresh "H" in
      destruct (stm32_modify_run r f b) as (b1 & H & Hm & Hl);
      apply (step_Ok _ _ _ _ _ _ H) in E; clear H; cbv beta in E
  end.

(** The flash wait states of Step 7.1 for a PLL rate. *)
Lemma stm32_wait_states (pll : hertz_t) :
  (if pll <=? MHz 24 then 0
   else if (MHz 24 <=? pll) && (pll <=? MHz 48) then 1 else 2)
  = (if pll <=? MHz 24 then 0 else if pll <=? MHz 48 then 1 else 2).
Proof.
  destruct (Z.leb_spec pll (MHz 24)); [reflexivity|].
  destruct (Z.leb_spec (MHz 24) pll); [reflexivity|lia].
Qed.

(** The writes a returning run of [Initialize] ends with, from Step 6 on:
    the five dividers, the flash wait states, the system clock selection
    and the two fields of the RTC. *)
Lemma stm32_Initialize_tail tick fuel config_ this b this' b' :
  Initialize tick fuel config_ this b = Ok this' b' ->
  exists pre x a y,
    let v1 := bit.Insert x (Value (pll_usb_divider config_)) kUsbPrescalar in
    let v2 := bit.Insert v1 (Value (ahb_divider config_)) kAHBDivider in
    let v3 := bit.Insert v2 (Value (ahb_apb1_divider config_)) kAPB1Divider in
    let v4 := bit.Insert v3 (Value (ahb_apb2_divider config_)) kAPB2Divider in
    let v5 :=
      bit.Insert v4 (Value (ahb_apb2_adc_divider config_)) kAdcDivider in
    let v := bit.Insert v5 (Value (system_clock config_)) kSystemClockSelect in
    let w1 := bit.Insert y (Value (rtc_source config_)) kRtcSourceSelect in
    let w2 := bit.Insert w1 (if rtc_enable config_ then 1 else 0) kRtcEnable in
    let pll := pll_clock_rate_ this' in
    let flash :=
      match system_clock config_ with
      | Sys_kPll =>
          [(ACR, bit.Insert a
                   (if pll <=? MHz 24 then 0
                    else if pll <=? MHz 48 then 1 else 2)
                   (bit.CreateMaskFromRange 0 2))]
      | _ => []
      end in
    stores (log b')
    = stores (log b) ++ pre
      ++ [(CFGR, v1); (CFGR, v2); (CFGR, v3); (CFGR, v4); (CFGR, v5)]
      ++ flash ++ [(CFGR, v); (BDCR, w1); (BDCR, w2)]
    /\ Forall (fun e => rcc_register (fst e) = true) pre
    /\ mem b' BDCR = w2.
Proof.
  intros E. unfold Initialize in E.
  peel_framed E c1 p1 L1 W1. peel_framed E c2 p2 L2 W2.
  peel_framed E c3 p3 L3 W3. peel_framed E c4 p4 L4 W4.
  peel_framed E c5 p5 L5 W5. peel_framed E c6 p6 L6 W6.
  peel_framed E c7 p7 L7 W7. peel_framed E c8 p8 L8 W8.
  peel_framed E c9 p9 L9 W9.
  apply bind_Ok_inv in E. destruct E as (pll & c10 & Hpll & E).
  apply (writes_within_Ok rcc_register) in Hpll; [|frame_steps].
  destruct Hpll as (p10 & L10 & W10).
  run_modify_as E d1 M1 K1. run_modify_as E d2 M2 K2.
  run_modify_as E d3 M3 K3. run_modify_as E d4 M4 K4.
  run_modify_as E d5 M5 K5.
  cbv zeta in E.
  apply bind_Ok_inv in E. destruct E as (u & d6 & Hf & E).
  assert (F6 : stores (log d6)
               = stores (log d5)
                 ++ match system_clock config_ with
                    | Sys_kPll =>
                        [(ACR, bit.Insert (mem d5 ACR)
                                 (if pll <=? MHz 24 then 0
                                  else if pll <=? MHz 48 then 1 else 2)
                                 (bit.CreateMaskFromRange 0 2))]
                    | _ => []
                    end
               /\ mem d6 CFGR = mem d5 CFGR).
  { rewrite <- stm32_wait_states.
    destruct (system_clock config_).
    - injection Hf as _ <-. rewrite app_nil_r. auto.
    - injection Hf as _ <-. rewrite app_nil_r. auto.
    - destruct (pll <=? MHz 24);
        [|destruct ((MHz 24 <=? pll) && (pll <=? MHz 48))];
        match type of Hf with
        | modify ?r ?f ?b0 = _ =>
            destruct (stm32_modify_run r f b0) as (bx & Hx & Mx & Kx)
        end;
        rewrite Hx in Hf; injection Hf as _ <-;
        (split; [exact Kx|rewrite Mx; reflexivity]). }
  destruct F6 as (K6 & M6).
  run_modify_as E d7 M7 K7.
  apply bind_Ok_inv in E. destruct E as (u' & d8 & Hp & E).
  unfold poll in Hp. destruct u'. apply poll_Ok_inv in Hp.
  destruct Hp as (K8 & _).
  run_modify_as E d9 M9 K9. run_modify_as E d10 M10 K10.
  injection E as <- <-.
  exists (p1 ++ p2 ++ p3 ++ p4 ++ p5 ++ p6 ++ p7 ++ p8 ++ p9 ++ p10),
    (mem c10 CFGR), (mem c10 ACR), (mem d8 BDCR).
  cbv zeta. cbn [pll_clock_rate_]. split; [|split].
  - rewrite K10, K9, K8, K7, K6, K5, K4, K3, K2, K1.
    rewrite L10, L9, L8, L7, L6, L5, L4, L3, L2, L1.
    rewrite M6. mem_back.
    rewrite <- !app_assoc. cbn [app]. reflexivity.
  - repeat (apply Forall_app; split); assumption.
  - mem_back. reflexivity.
Qed.


Ltac layout := unfold field, apart; cbn; lia.

Ltac field_of_last_insert :=
  repeat rewrite Extract_Insert_apart by layout;
  rewrite Extract_small by
    (first [layout
           | match goal with
             | |- _ <= Value ?e < _ => destruct e; cbn; lia
             end]).

Lemma rcc_register_not_flash (w : list (Reg * Z)) :
  Forall (fun e => rcc_register (fst e) = true) w ->
  Forall (fun e => fst e <> ACR) w.
Proof.
  apply Forall_impl. intros [r v]. cbn [fst]. intros H ->. discriminate H.
Qed.

(** X9: in a run of [Initialize] that returns, the value written last to
    [CFGR] carries the configured system clock selection and the configured
    AHB, APB1, APB2, ADC and USB dividers, each in its own field. *)
Theorem stm32_last_clock_configuration_write :
  forall tick fuel config_ this b this' b',
    Initialize tick fuel config_ this b = Ok this' b' ->
    exists before v after,
      stores (log b') = before ++ (CFGR, v) :: after
      /\ Forall (fun e => fst e <> CFGR) after
      /\ bit.Extract v kSystemClockSelect = Value (system_clock config_)
      /\ bit.Extract v kAHBDivider = Value (ahb_divider config_)
      /\ bit.Extract v kAPB1Divider = Value (ahb_apb1_divider config_)
      /\ bit.Extract v kAPB2Divider = Value (ahb_apb2_divider config_)
      /\ bit.Extract v kAdcDivider = Value (ahb_apb2_adc_divider config_)
      /\ bit.Extract v kUsbPrescalar = Value (pll_usb_divider config_).
Proof.
  intros tick fuel config_ this b this' b' Hrun.
  destruct (stm32_Initialize_tail _ _ _ _ _ _ _ Hrun)
    as (pre & x & a & y & Hs & _ & _).
  cbv zeta in Hs.
  eexists _, _, _. split.
  { rewrite Hs, !app_assoc. reflexivity. }
  split; [repeat constructor; discriminate|].
  repeat split; field_of_last_insert; reflexivity.
Qed.

Lemma stm32_last_clock_configuration_write_witness :
  exists before v after,
    stores (log (bus_of (Initialize responsive 2 pll_72MHz constructed blank)
                        blank))
    = before ++ (CFGR, v) :: after
    /\ bit.Extract v kSystemClockSelect = Value Sys_kPll.
Proof.
  assert (Hrun : Initialize responsive 2 pll_72MHz constructed blank
                 = Ok (DerivedRates pll_72MHz constructed)
                      (bus_of (Initialize responsive 2 pll_72MHz constructed
                                 blank) blank))
    by (vm_compute; reflexivity).
  destruct (stm32_last_clock_configuration_write responsive 2%nat pll_72MHz
              constructed blank _ _ Hrun)
    as (before & v & after & H1 & _ & H2 & _).
  exists before, v, after. split; [exact H1|exact H2].
Defined.

(** X10: a run of [Initialize] that returns writes the flash access control
    register only when the PLL drives the system clock, and then exactly
    once, with 0 wait states up to a PLL rate of 24 MHz, 1 up to 48 MHz and
    2 above; with the internal or the external oscillator as system clock
    it never writes that register. *)
Theorem stm32_flash_wait_states :
  forall tick fuel config_ this b this' b',
    Initialize tick fuel config_ this b = Ok this' b' ->
    exists w,
      stores (log b') = stores (log b) ++ w
      /\ match system_clock config_ with
         | Sys_kPll =>
             exists w1 a w2,
               w = w1 ++ (ACR, a) :: w2
               /\ Forall (fun e => fst e <> ACR) w1
               /\ Forall (fun e => fst e <> ACR) w2
               /\ bit.Extract a (bit.CreateMaskFromRange 0 2)
                  = (let pll := GetClockRate this' Peripherals.kI2s in
                     if pll <=? MHz 24 then 0
                     else if pll <=? MHz 48 then 1 else 2)
         | _ => Forall (fun e => fst e <> ACR) w
         end.
Proof.
  intros tick fuel config_ this b this' b' Hrun.
  destruct (stm32_Initialize_tail _ _ _ _ _ _ _ Hrun)
    as (pre & x & a & y & Hs & Hpre & _).
  cbv zeta in Hs. apply rcc_register_not_flash in Hpre.
  eexists. split; [exact Hs|].
  change (GetClockRate this' Peripherals.kI2s) with (pll_clock_rate_ this').
  destruct (system_clock config_).
  - apply Forall_app. split; [exact Hpre|].
    repeat constructor; discriminate.
  - apply Forall_app. split; [exact Hpre|].
    repeat constructor; discriminate.
  - eexists _, _, _. split.
    { rewrite app_assoc. reflexivity. }
    split.
    { apply Forall_app. split; [exact Hpre|].
      repeat constructor; discriminate. }
    split; [repeat constructor; discriminate|].
    cbv zeta. rewrite Extract_small; [reflexivity|layout|].
    destruct (_ <=? MHz 24); [cbn; lia|].
    destruct (_ <=? MHz 48); cbn; lia.
Qed.

Lemma stm32_flash_wait_states_witness :
  exists w1 a w2,
    stores (log (bus_of (Initialize responsive 2 pll_72MHz constructed blank)
                        blank))
    = w1 ++ (ACR, a) :: w2
    /\ bit.Extract a (bit.CreateMaskFromRange 0 2) = 2.
Proof.
  assert (Hrun : Initialize responsive 2 pll_72MHz constructed blank
                 = Ok (DerivedRates pll_72MHz constructed)
                      (bus_of (Initialize responsive 2 pll_72MHz constructed
                                 blank) blank))
    by (vm_compute; reflexivity).
  destruct (stm32_flash_wait_states responsive 2%nat pll_72MHz
              constructed blank _ _ Hrun)
    as (w & H1 & w1 & a & w2 & H2 & _ & _ & H3).
  exists w1, a, w2. split; [rewrite H1, H2; reflexivity|exact H3].
Defined.

(** X11: when [Initialize] returns, on whatever hardware, the backup domain
    control register holds the configured RTC source in its source field
    and the configured RTC enable in its enable bit. *)
Theorem stm32_rtc_selection_programmed :
  forall tick fuel config_ this b this' b',
    Initialize tick fuel config_ this b = Ok this' b' ->
    bit.Extract (mem b' BDCR) kRtcSourceSelect = Value (rtc_source config_)
    /\ bit.Read (mem b' BDCR) kRtcEnable = rtc_enable config_.
Proof.
  intros tick fuel config_ this b this' b' Hrun.
  destruct (stm32_Initialize_tail _ _ _ _ _ _ _ Hrun)
    as (pre & x & a & y & _ & _ & Hm).
  cbv zeta in Hm. rewrite Hm. split.
  - field_of_last_insert. reflexivity.
  - change (bit.position kRtcEnable) with 15.
    change kRtcEnable with (bit.CreateMaskFromBit 15).
    rewrite Read_Insert_bit by lia.
    destruct (rtc_enable config_); reflexivity.
Qed.

Lemma stm32_rtc_selection_programmed_witness :
  bit.Read
    (mem (bus_of (Initialize responsive 2 pll_72MHz constructed blank) blank)
         BDCR) kRtcEnable = false.
Proof.
  assert (Hrun : Initialize responsive 2 pll_72MHz constructed blank
                 = Ok (DerivedRates pll_72MHz constructed)
                      (bus_of (Initialize responsive 2 pll_72MHz constructed
                                 blank) blank))
    by (vm_compute; reflexivity).
  exact (proj2 (stm32_rtc_selection_programmed responsive 2%nat pll_72MHz
                  constructed blank _ _ Hrun)).
Defined.

End stm32f10x_registers.

(** ** msp432p401r: the registers the setters program *)

Module msp432p401r_registers.
Import Machine Machine_facts Machine_effects bit_facts bit_layout bit_fields.
Import msp432p401r msp432p401r_hardware msp432p401r_facts.
Import Control0Register Control1Register ClockEnableRegister KeyRegister.

Lemma msp432_modify_run r f b :
  exists b1,
    modify r f b = Ok tt b1
    /\ (forall r', mem b1 r' = if Reg_eqb r r' then f (mem b r) else mem b r')
    /\ stores (log b1) = stores (log b) ++ [(r, f (mem b r))].
Proof. apply modify_run. destruct r; reflexivity. Qed.

Ltac run_modify_as E b1 Hm Hl :=
  lazymatch type of E with
  | Machine.bind (modify ?r ?f) ?k ?b = _ =>
      let H := fresh "H" in
      destruct (msp432_modify_run r f b) as (b1 & H & Hm & Hl);
      apply (step_Ok _ _ _ _ _ _ H) in E; clear H; cbv beta in E
  end.

Ltac mem_back :=
  repeat match goal with
         | H : forall r', mem ?b1 r' = _ |- context [mem ?b1 ?r] =>
             rewrite (H r); cbn [Reg_eqb]
         end.

Ltac layout := unfold field, apart; cbn; lia.

(** The wait for a primary clock returns or spins, and writes nothing. *)
Lemma WaitForClockReadyStatus_outcome host tick fuel clock b :
  Value clock <= Value kBackup ->
  let o := WaitForClockReadyStatus host tick fuel clock b in
  ((exists b', o = Ok tt b') \/ (exists b', o = Spin b'))
  /\ stores (log (bus_of o b)) = stores (log b).
Proof.
  intros H. cbv zeta. unfold WaitForClockReadyStatus.
  destruct host; [split; [left; eexists; reflexivity|reflexivity]|].
  apply Z.leb_le in H. rewrite H. split.
  - apply (poll_outcome tick fuel STAT).
  - apply (poll_stores tick fuel STAT).
Qed.

(** The writes of [SetClockDivider] and how it ends. *)
Lemma SetClockDivider_run :
  forall host tick fuel clock divider b mask,
    nth_error kDividerSelectMasks (Z.to_nat (Value clock)) = Some mask ->
    let o := SetClockDivider host tick fuel clock divider b in
    ((exists b', o = Ok tt b') \/ (exists b', o = Spin b'))
    /\ exists k1 v k2,
         stores (log (bus_of o b))
         = stores (log b) ++ [(KEY, k1); (CTL1, v); (KEY, k2)]
         /\ bit.Extract k1 kCsKey = kUnlockKey
         /\ bit.Extract k2 kCsKey = kLockKey
         /\ bit.Extract v mask = Value divider
         /\ forall other,
              field other -> apart mask other ->
              bit.Extract v other = bit.Extract (mem b CTL1) other.
Proof.
  intros host tick fuel clock divider b mask Hmask. cbv zeta.
  assert (Hc : Value clock <= Value kLowSpeedSubsystemMaster).
  { destruct clock; cbn in *; try lia; discriminate Hmask. }
  assert (Hb : Value clock <= Value kBackup).
  { destruct clock; cbn in *; try lia; discriminate Hmask. }
  remember (SetClockDivider host tick fuel clock divider b) as o eqn:E.
  symmetry in E. unfold SetClockDivider in E.
  unfold SJ2_ASSERT_FATAL in E. apply Z.leb_le in Hc. rewrite Hc in E.
  apply (step_Ok _ _ _ _ _ _ (eq_refl : assert_fatal true b = Ok tt b)) in E.
  cbv beta zeta in E. unfold UnlockClockSystemRegisters in E.
  run_modify_as E b1 M1 L1.
  change (nth_error _ (Z.to_nat (Value clock)))
    with (nth_error kDividerSelectMasks (Z.to_nat (Value clock))) in E.
  rewrite Hmask in E.
  run_modify_as E b2 M2 L2.
  unfold LockClockSystemRegisters in E.
  run_modify_as E b3 M3 L3.
  destruct (WaitForClockReadyStatus_outcome host tick fuel clock b3 Hb)
    as (Ho & Hs).
  rewrite E in Ho, Hs. split.
  { exact Ho. }
  assert (Hbus : stores (log (bus_of o b)) = stores (log (bus_of o b3))).
  { destruct Ho as [(b' & ->)|(b' & ->)]; reflexivity. }
  rewrite Hbus, Hs, L3, L2, L1.
  eexists _, _, _. split; [rewrite <- !app_assoc; reflexivity|].
  assert (Hf : field mask /\ 0 <= Value divider < 2 ^ bit.width mask).
  { destruct clock; cbn in Hmask; try discriminate Hmask;
      injection Hmask as <-; (split; [layout|destruct divider; cbn; lia]). }
  destruct Hf as (Hf & Hv).
  split; [apply Extract_small; [layout|unfold kUnlockKey; cbn; lia]|].
  split; [mem_back; apply Extract_small; [layout|unfold kLockKey; cbn; lia]|].
  mem_back. split; [apply Extract_small; assumption|].
  intros other Ho1 Ho2. apply Extract_Insert_apart; assumption.
Qed.


(** X12: for each of the four clocks that have a divider, [SetClockDivider]
    writes the unlock key, then [CTL1] with the divider code in the field
    of that clock and every other field as it was, then the lock key, and
    nothing else; this on every platform and hardware, whether the wait for
    the ready flag that follows returns or is still spinning. *)
Theorem msp432_SetClockDivider_protocol :
  forall host tick fuel clock divider b mask,
    nth_error kDividerSelectMasks (Z.to_nat (Value clock)) = Some mask ->
    let o := SetClockDivider host tick fuel clock divider b in
    ((exists b', o = Ok tt b') \/ (exists b', o = Spin b'))
    /\ exists k1 v k2,
         stores (log (bus_of o b))
         = stores (log b) ++ [(KEY, k1); (CTL1, v); (KEY, k2)]
         /\ bit.Extract k1 kCsKey = kUnlockKey
         /\ bit.Extract k2 kCsKey = kLockKey
         /\ bit.Extract v mask = Value divider
         /\ forall other,
              field other -> apart mask other ->
              bit.Extract v other = bit.Extract (mem b CTL1) other.
Proof. exact SetClockDivider_run. Qed.

Lemma msp432_SetClockDivider_protocol_witness :
  exists k1 v k2,
    stores (log (bus_of (SetClockDivider false responsive 2 kMaster
                           kDivideBy8 blank) blank))
    = stores (log blank) ++ [(KEY, k1); (CTL1, v); (KEY, k2)]
    /\ bit.Extract v kMasterClockDividerSelect = Value kDivideBy8.
Proof.
  destruct (proj2 (msp432_SetClockDivider_protocol false responsive 2%nat
                     kMaster kDivideBy8 blank kMasterClockDividerSelect
                     eq_refl))
    as (k1 & v & k2 & H1 & _ & _ & H2 & _).
  exists k1, v, k2. split; [exact H1|exact H2].
Defined.

(** X13: [SetClockDivider] on the backup clock, or on any clock that is not
    primary, stops in a fatal assertion before any register access. *)
Theorem msp432_SetClockDivider_rejects :
  forall host tick fuel clock divider b,
    Value kLowSpeedSubsystemMaster < Value clock ->
    SetClockDivider host tick fuel clock divider b = Fatal b.
Proof.
  intros host tick fuel clock divider b H.
  destruct clock; cbn in H; try lia; reflexivity.
Qed.

Lemma msp432_SetClockDivider_rejects_witness :
  SetClockDivider false responsive 2 kBackup kDivideBy2 blank = Fatal blank.
Proof.
  exact (msp432_SetClockDivider_rejects false responsive 2%nat kBackup
           kDivideBy2 blank eq_refl).
Defined.

(** X14: [SetClockSource] with an oscillator the clock may be sourced from
    makes one write, of [CTL1], with no key around it: the source field of
    the clock receives the code of the oscillator, which for the one-bit
    field of the backup clock is 0 for the low frequency and 1 for the
    reference oscillator, and every other field of [CTL1] is as it was. *)
Theorem msp432_SetClockSource_effect :
  forall clock source b mask,
    source_allowed clock source = true ->
    nth_error kPrimaryClockSelectMasks (Z.to_nat (Value clock)) = Some mask ->
    exists b' v,
      SetClockSource clock source b = Ok tt b'
      /\ stores (log b') = stores (log b) ++ [(CTL1, v)]
      /\ mem b' CTL1 = v
      /\ bit.Extract v mask
         = match clock, source with
           | kBackup, kReference => 1
           | _, _ => Value source
           end
      /\ forall other,
           field other -> apart mask other ->
           bit.Extract v other = bit.Extract (mem b CTL1) other.
Proof.
  intros clock source b mask Hs Hmask.
  assert (H : exists code,
             SetClockSource clock source
             = modify CTL1 (fun v => bit.Insert v code mask)
             /\ code = match clock, source with
                       | kBackup, kReference => 1
                       | _, _ => Value source
                       end
             /\ field mask /\ 0 <= code < 2 ^ bit.width mask).
  { destruct clock; try discriminate Hs; cbn in Hmask;
      injection Hmask as <-; destruct source; try discriminate Hs;
      eexists; (split; [reflexivity|]); (split; [reflexivity|]);
      (split; [layout|cbn; lia]). }
  destruct H as (code & -> & Hcode & Hf & Hv).
  destruct (msp432_modify_run CTL1 (fun v => bit.Insert v code mask) b)
    as (b' & E & M & L).
  exists b', (bit.Insert (mem b CTL1) code mask).
  split; [exact E|]. split; [exact L|].
  split; [rewrite M; reflexivity|].
  split; [rewrite <- Hcode; apply Extract_small; assumption|].
  intros other Ho Ha. apply Extract_Insert_apart; assumption.
Qed.

Lemma msp432_SetClockSource_effect_witness :
  exists b' v,
    SetClockSource kBackup kReference blank = Ok tt b'
    /\ bit.Extract v kBackupClockSourceSelect = 1
    /\ mem b' CTL1 = v.
Proof.
  destruct (msp432_SetClockSource_effect kBackup kReference blank
              kBackupClockSourceSelect eq_refl eq_refl)
    as (b' & v & H1 & _ & H2 & H3 & _).
  exists b', v. auto.
Defined.

(** X15: [ConfigureReferenceClock] with a frequency select above 1 stops in
    a fatal assertion before any register access; with 0 or 1 it returns
    32.768 kHz or 128 kHz, and makes one write, of [CLKEN], whose bit 15 is
    the select and whose other bits are as they were. *)
Theorem msp432_ConfigureReferenceClock_effect :
  forall c b,
    0 <= reference_frequency_select c ->
    (1 < reference_frequency_select c ->
     ConfigureReferenceClock c b = Fatal b)
    /\ (reference_frequency_select c <= 1 ->
        exists b' v,
          ConfigureReferenceClock c b
          = Ok (if reference_frequency_select c =? 0
                then Hz 32768 else kHz 128) b'
          /\ stores (log b') = stores (log b) ++ [(CLKEN, v)]
          /\ bit.Read v 15 = (reference_frequency_select c =? 1)
          /\ forall q, 0 <= q < 32 -> q <> 15 ->
                       bit.Read v q = bit.Read (mem b CLKEN) q).
Proof.
  intros c b H0. split.
  - intros H. unfold ConfigureReferenceClock. cbv zeta.
    apply bind_Fatal. unfold SJ2_ASSERT_FATAL.
    replace (reference_frequency_select c <=? 1) with false
      by (symmetry; apply Z.leb_gt; exact H).
    reflexivity.
  - intros H1.
    assert (Hsel : reference_frequency_select c = 0
                   \/ reference_frequency_select c = 1) by lia.
    unfold ConfigureReferenceClock. cbv zeta.
    destruct (msp432_modify_run CLKEN
                (fun v => bit.Insert v (reference_frequency_select c)
                            kReferenceFrequencySelect) b)
      as (b' & E & M & L).
    exists b', (bit.Insert (mem b CLKEN) (reference_frequency_select c)
                  kReferenceFrequencySelect).
    split.
    { destruct Hsel as [Hsel|Hsel]; rewrite Hsel in *;
        cbn [Z.leb Z.compare SJ2_ASSERT_FATAL];
        erewrite bind_Ok by reflexivity;
        rewrite (bind_Ok _ _ _ _ _ E); reflexivity. }
    split; [exact L|]. split.
    + change kReferenceFrequencySelect with (bit.CreateMaskFromBit 15).
      rewrite Read_Insert_bit by lia.
      destruct Hsel as [-> | ->]; reflexivity.
    + intros q Hq Hne. apply Read_Insert_outside; cbn; lia.
Qed.

Lemma msp432_ConfigureReferenceClock_effect_witness :
  exists b',
    ConfigureReferenceClock default_configuration blank = Ok (Hz 32768) b'.
Proof.
  destruct (proj2 (msp432_ConfigureReferenceClock_effect
                     default_configuration blank ltac:(discriminate))
              ltac:(discriminate))
    as (b' & v & H & _).
  exists b'. exact H.
Defined.

End msp432p401r_registers.

(** ** msp432p401r: the sequence of Initialize *)

Module msp432p401r_sequencer.
Import Machine Machine_facts Machine_effects bit_facts bit_layout bit_fields.
Import msp432p401r msp432p401r_hardware msp432p401r_facts.
Import msp432p401r_registers.
Import Control0Register Control1Register ClockEnableRegister KeyRegister.




Ltac frame_steps :=
  repeat (cbv zeta;
          first
            [ apply writes_within_ret
            | apply writes_within_modify; reflexivity
            | apply writes_within_store; reflexivity
            | apply writes_within_load
            | apply writes_within_poll
            | apply writes_within_assert
            | apply writes_within_undefined
            | apply writes_within_bind; [|intros ?]
            | match goal with
              | |- writes_within _ (if ?c then _ else _) => destruct c
              | |- writes_within _ (match ?c with _ => _ end) => destruct c
              end ]).

Ltac keep_steps :=
  repeat (cbv zeta;
          first
            [ apply preserves_ret
            | apply preserves_modify; reflexivity
            | apply preserves_store; reflexivity
            | apply preserves_load
            | apply preserves_assert
            | apply preserves_undefined
            | apply preserves_bind; [|intros ?]
            | match goal with
              | |- preserves _ (if ?c then _ else _) => destruct c
              | |- preserves _ (match ?c with _ => _ end) => destruct c
              end ]).

Lemma SetClockSource_frame clock source :
  writes_within control_register (SetClockSource clock source).
Proof. unfold SetClockSource. frame_steps. Qed.

Lemma SetClockDivider_frame host tick fuel clock divider :
  writes_within control_register
    (SetClockDivider host tick fuel clock divider).
Proof.
  unfold SetClockDivider, WaitForClockReadyStatus,
    UnlockClockSystemRegisters, LockClockSystemRegisters.
  frame_steps.
Qed.

Lemma ConfigureDcoClock_frame tv c :
  writes_within control_register (ConfigureDcoClock tv c).
Proof.
  unfold ConfigureDcoClock, UnlockClockSystemRegisters,
    LockClockSystemRegisters.
  frame_steps.
Qed.

Lemma ConfigureReferenceClock_frame c :
  writes_within control_register (ConfigureReferenceClock c).
Proof. unfold ConfigureReferenceClock. frame_steps. Qed.

(** X17: however [Initialize] ends, on whatever platform and hardware, every
    write it has made went to the key register or to one of the control
    registers [CTL0], [CTL1] and [CLKEN]: it never writes the status
    register nor the calibration words of the device descriptors. *)
Theorem msp432_Initialize_writes_control_registers_only :
  forall host tick fuel tv c this b,
    exists w,
      stores (log (bus_of (Initialize host tick fuel tv c this b) b))
      = stores (log b) ++ w
      /\ Forall (fun e => In (fst e) [KEY; CTL0; CTL1; CLKEN]) w.
Proof.
  intros host tick fuel tv c this b.
  assert (H : writes_within control_register
                (Initialize host tick fuel tv c this)).
  { unfold Initialize. cbv zeta.
    apply writes_within_bind; [apply ConfigureDcoClock_frame|intros dco].
    apply writes_within_bind;
      [apply ConfigureReferenceClock_frame|intros refo].
    do 4 (apply writes_within_bind; [apply SetClockSource_frame|intros _]).
    do 4 (apply writes_within_bind; [apply SetClockDivider_frame|intros _]).
    apply writes_within_ret. }
  destruct (H b) as (w & E & F). exists w. split; [exact E|].
  eapply Forall_impl; [|exact F].
  intros [r v]. cbn [fst In]. destruct r; cbn; intros Hr;
    try discriminate Hr; auto.
Qed.

Lemma SetClockSource_keeps_status clock source :
  preserves STAT (SetClockSource clock source).
Proof. unfold SetClockSource. keep_steps. Qed.

Lemma ConfigureDcoClock_keeps_status tv c :
  preserves STAT (ConfigureDcoClock tv c).
Proof.
  unfold ConfigureDcoClock, UnlockClockSystemRegisters,
    LockClockSystemRegisters.
  keep_steps.
Qed.

Lemma ConfigureReferenceClock_keeps_status c :
  preserves STAT (ConfigureReferenceClock c).
Proof. unfold ConfigureReferenceClock. keep_steps. Qed.

Lemma writes_to_eq {A} (l l' : list Reg) (m : M A) :
  writes_to l m -> l = l' -> writes_to l' m.
Proof. intros H <-. exact H. Qed.

Ltac write_steps :=
  repeat (cbv beta iota zeta;
          first
            [ apply writes_to_ret
            | apply writes_to_modify
            | apply writes_to_store
            | apply writes_to_load
            | apply writes_to_assert
            | apply writes_to_undefined
            | eapply writes_to_bind; [|intros ?]
            | match goal with
              | |- writes_to _ (if ?c then _ else _) => destruct c
              | |- writes_to _ (match ?c with _ => _ end) => destruct c
              end ]).

Lemma ConfigureDcoClock_writes tv c :
  writes_to (if dco_enabled c then [KEY; CTL0; KEY] else [])
    (ConfigureDcoClock tv c).
Proof.
  unfold ConfigureDcoClock, UnlockClockSystemRegisters,
    LockClockSystemRegisters.
  destruct (dco_enabled c);
    (eapply writes_to_eq; [write_steps|reflexivity]).
Qed.

Lemma ConfigureReferenceClock_writes c :
  writes_to [CLKEN] (ConfigureReferenceClock c).
Proof.
  unfold ConfigureReferenceClock.
  eapply writes_to_eq; [write_steps|reflexivity].
Qed.

Lemma SetClockSource_writes clock source :
  source_allowed clock source = true ->
  writes_to [CTL1] (SetClockSource clock source).
Proof.
  intros H.
  assert (E : exists code mask,
             SetClockSource clock source
             = modify CTL1 (fun v => bit.Insert v code mask)).
  { destruct clock; try discriminate H; destruct source;
      try discriminate H; eexists _, _; reflexivity. }
  destruct E as (code & mask & ->). apply writes_to_modify.
Qed.

(** One step of a run that returns, leaves [STAT] alone and writes the
    registers it is known to write. *)
Ltac run_kept E Hc Hk Hw Hs Hl :=
  lazymatch type of E with
  | Machine.bind ?m ?k ?b0 = _ =>
      let a := fresh "a" in
      let b1 := fresh "b" in
      let H := fresh "H" in
      destruct (Hc b0) as (a & b1 & H);
      pose proof (Hk _ _ _ H) as Hs;
      pose proof (Hw _ _ _ H) as Hl;
      apply (step_Ok _ _ _ _ _ _ H) in E; clear H; cbv beta in E
  end.

(** X18: in a device build, when the ready flag of the auxiliary clock
    (bit 24 of [STAT]) is down and the hardware, whatever else it does,
    never raises it, [Initialize] of an accepted configuration does not
    return, however many polls it is granted: it is still waiting in the
    first [SetClockDivider].  It has configured the DCO if enabled and the
    reference clock, selected the four sources, and written the divider of
    the auxiliary clock between the two keys; none of the three dividers
    that follow has been written. *)
Theorem msp432_Initialize_waits_for_ready_flag :
  forall tick fuel tv c this b,
    (forall m, bit.Read (m STAT) 24 = false ->
               bit.Read (tick m STAT) 24 = false) ->
    accepted c = true ->
    bit.Read (mem b STAT) 24 = false ->
    exists b',
      Initialize false tick fuel tv c this b = Spin b'
      /\ map fst (stores (log b'))
         = map fst (stores (log b))
           ++ (if dco_enabled c then [KEY; CTL0; KEY] else [])
           ++ [CLKEN; CTL1; CTL1; CTL1; CTL1; KEY; CTL1; KEY].
Proof.
  intros tick fuel tv c this b Htick Hacc Hflag.
  unfold accepted in Hacc. rewrite !andb_true_iff in Hacc.
  destruct Hacc as ((((Haux & Hbak) & Hlo) & Hhi) & Hdco).
  apply Z.leb_le in Hlo, Hhi.
  remember (Initialize false tick fuel tv c this b) as o eqn:E.
  symmetry in E. unfold Initialize in E. cbv zeta in E.
  run_kept E (ConfigureDcoClock_completes tv c Hdco)
    (ConfigureDcoClock_keeps_status tv c)
    (ConfigureDcoClock_writes tv c) S1 W1.
  run_kept E (ConfigureReferenceClock_completes c (conj Hlo Hhi))
    (ConfigureReferenceClock_keeps_status c)
    (ConfigureReferenceClock_writes c) S2 W2.
  run_kept E (SetClockSource_completes kAuxiliary _ Haux)
    (SetClockSource_keeps_status kAuxiliary (auxiliary_clock_source c))
    (SetClockSource_writes kAuxiliary _ Haux) S3 W3.
  run_kept E (SetClockSource_completes kMaster (master_clock_source c)
                eq_refl)
    (SetClockSource_keeps_status kMaster (master_clock_source c))
    (SetClockSource_writes kMaster (master_clock_source c) eq_refl) S4 W4.
  run_kept E (SetClockSource_completes kSubsystemMaster
                (subsystem_master_clock_source c) eq_refl)
    (SetClockSource_keeps_status kSubsystemMaster
       (subsystem_master_clock_source c))
    (SetClockSource_writes kSubsystemMaster
       (subsystem_master_clock_source c) eq_refl) S5 W5.
  run_kept E (SetClockSource_completes kBackup _ Hbak)
    (SetClockSource_keeps_status kBackup (backup_clock_source c))
    (SetClockSource_writes kBackup _ Hbak) S6 W6.
  unfold SetClockDivider in E at 1. cbv zeta in E.
  rewrite bind_assoc in E.
  apply (step_Ok _ _ _ _ _ _
           (eq_refl : SJ2_ASSERT_FATAL true _ = Ok tt _)) in E.
  cbv beta in E. rewrite bind_assoc in E.
  unfold UnlockClockSystemRegisters in E. run_modify_as E d1 M1 L1.
  rewrite bind_assoc in E. cbn [nth_error Value Clock_Value Z.to_nat] in E.
  run_modify_as E d2 M2 L2.
  rewrite bind_assoc in E.
  unfold LockClockSystemRegisters in E. run_modify_as E d3 M3 L3.
  unfold WaitForClockReadyStatus in E at 1. cbv zeta in E.
  rewrite !bind_assoc in E.
  apply (step_Ok _ _ _ _ _ _
           (eq_refl : SJ2_ASSERT_FATAL true _ = Ok tt _)) in E.
  cbv beta in E. unfold poll in E.
  match type of E with
  | Machine.bind (Machine.poll _ _ ?r ?rd) _ ?b0 = _ =>
      destruct (poll_flag_down tick fuel r rd b0) as (b' & Hs & L)
  end.
  { exact Htick. }
  { rewrite M3. cbn [Reg_eqb]. rewrite M2. cbn [Reg_eqb].
    rewrite M1. cbn [Reg_eqb].
    rewrite S6, S5, S4, S3, S2, S1. exact Hflag. }
  apply (step_Spin _ _ _ _ _ Hs) in E. exists b'. split; [exact E|].
  rewrite L, L3, L2, L1, !map_app, W6, W5, W4, W3, W2, W1.
  cbn [map fst]. rewrite <- !app_assoc. reflexivity.
Qed.

(** A hardware that raises every ready flag but the one of the auxiliary
    clock, and a hardware that does nothing at all. *)
Lemma msp432_Initialize_waits_for_ready_flag_witness :
  (exists b',
     Initialize false auxiliary_never_ready 1000 no_tuning
       divided_configuration constructed blank = Spin b'
     /\ map fst (stores (log b'))
        = [KEY; CTL0; KEY; CLKEN; CTL1; CTL1; CTL1; CTL1; KEY; CTL1; KEY])
  /\ (exists b',
        Initialize false dead 1000 no_tuning default_configuration
          constructed blank = Spin b').
Proof.
  split.
  - apply (msp432_Initialize_waits_for_ready_flag auxiliary_never_ready 1000
             no_tuning divided_configuration constructed blank).
    + intros m _. cbn [auxiliary_never_ready].
      rewrite Read_Clear by (cbn; lia). reflexivity.
    + reflexivity.
    + reflexivity.
  - destruct (msp432_Initialize_waits_for_ready_flag dead 1000 no_tuning
                default_configuration constructed blank (fun m H => H)
                eq_refl eq_refl) as (b' & H & _).
    exists b'. exact H.
Defined.

End msp432p401r_sequencer.

(** ** msp432p401r: the rate table *)

Module msp432p401r_rates.
Import Machine Machine_facts Machine_effects bit_facts bit_layout bit_fields.
Import msp432p401r msp432p401r_hardware msp432p401r_facts.
Import msp432p401r_registers msp432p401r_sequencer.
Import Control0Register Control1Register ClockEnableRegister KeyRegister.

(** X19: a run of [Initialize] that returns leaves the clock system locked:
    its last three writes are the unlock key, [CTL1] carrying the divider
    of the low speed subsystem master clock in its field, and the lock
    key. *)
Theorem msp432_Initialize_ends_locked :
  forall host tick fuel tv c this b this' b',
    Initialize host tick fuel tv c this b = Ok this' b' ->
    exists before k1 v k2,
      stores (log b') = before ++ [(KEY, k1); (CTL1, v); (KEY, k2)]
      /\ bit.Extract k1 kCsKey = kUnlockKey
      /\ bit.Extract k2 kCsKey = kLockKey
      /\ bit.Extract v kLowSpeedSubsystemClockDividerSelect
         = Value (subsystem_master_low_speed_divider c).
Proof.
  intros host tick fuel tv c this b this' b' E.
  unfold Initialize in E. cbv zeta in E.
  do 9 (apply bind_Ok_inv in E; destruct E as (? & ? & _ & E)).
  apply bind_Ok_inv in E. destruct E as ([] & b10 & H & E).
  injection E as _ <-.
  match type of H with
  | SetClockDivider _ _ _ ?clock ?d ?b9 = _ =>
      destruct (SetClockDivider_run host tick fuel clock d b9
                  kLowSpeedSubsystemClockDividerSelect eq_refl)
        as (_ & k1 & v & k2 & Hs & H1 & H2 & H3 & _)
  end.
  rewrite H in Hs. cbn [bus_of] in Hs.
  eexists _, k1, v, k2. split; [exact Hs|]. auto.
Qed.

Lemma msp432_Initialize_ends_locked_witness :
  exists before k1 v k2,
    stores (log (bus_of (Initialize true responsive 2 no_tuning
                           default_configuration constructed blank) blank))
    = before ++ [(KEY, k1); (CTL1, v); (KEY, k2)]
    /\ bit.Extract k2 kCsKey = kLockKey.
Proof.
  assert (Hrun : Initialize true responsive 2 no_tuning default_configuration
                   constructed blank
                 = Ok (DerivedRates default_configuration constructed)
                      (bus_of (Initialize true responsive 2 no_tuning
                                 default_configuration constructed blank)
                              blank))
    by (vm_compute; reflexivity).
  destruct (msp432_Initialize_ends_locked true responsive 2%nat no_tuning
              default_configuration constructed blank _ _ Hrun)
    as (before & k1 & v & k2 & H1 & _ & H2 & _).
  exists before, k1, v, k2. split; [exact H1|exact H2].
Defined.





End msp432p401r_rates.
